(** * foowm: the footron window manager, embedded in Rocq

    A shallow embedding of [foowm/constants.py] and [foowm/wm.py].  The
    window manager is a single Python object mutated by event handlers;
    here it is a record threaded through a state-and-exception monad.
    Requests sent to the X server are appended to a request log, answers
    of the X server are read from a [World] record. *)

From Stdlib Require Import ZArith String Ascii List Bool Lia.
From stdpp Require Import base option list gmap strings.
Import ListNotations.

Set Warnings "-register-all".
Set Default Proof Using "Type".
Local Open Scope Z_scope.
Local Open Scope string_scope.

(** ** Enumerations of [foowm/types.py], with the members the sources name *)

Module ClientType.
Inductive t := Placard | Loader | OffscreenSource | OffscreenHack.
#[global] Instance ClientType_eq_dec : EqDecision t.
Proof. solve_decision. Defined.
End ClientType.

Module DisplayLayout.
(** [Full] is the initial layout of [FootronWindowManager.__init__]; the
    other three are the keys written in [LAYOUT_GEOMETRY]. *)
Inductive t := Full | Fullscreen | Fit4k | Production.
#[global] Instance DisplayLayout_eq_dec : EqDecision t.
Proof. solve_decision. Defined.
End DisplayLayout.

Module NetAtom.
Inductive t :=
| Supported | ActiveWindow | WmName | ClientList | WmCheck | WmState
| WmWindowType | WmWindowTypeDock | WmWindowTypeToolbar | WmWindowTypeMenu
| WmWindowTypeSplash | WmWindowTypeDialog | WmWindowTypeUtility
| WmStateModal | WmStateAbove | WmStateSticky | WorkArea.
#[global] Instance NetAtom_eq_dec : EqDecision t.
Proof. solve_decision. Defined.
End NetAtom.

Module WmAtom.
Inductive t := DeleteWindow | Protocols | Name | State | NormalHints.
#[global] Instance WmAtom_eq_dec : EqDecision t.
Proof. solve_decision. Defined.
End WmAtom.

(** ** Rectangles *)

Module WindowGeometry.
Record t := mk { x : Z; y : Z; width : Z; height : Z }.
#[global] Instance WindowGeometry_eq_dec : EqDecision t.
Proof. solve_decision. Defined.
End WindowGeometry.

Abbreviation Geometry := WindowGeometry.t.

Definition tuple4 : Type := Z * Z * Z * Z.

(** The call [WindowGeometry] applied to an unpacked 4-tuple. *)
Definition WindowGeometry_of_tuple (t : tuple4) : Geometry :=
  let '(a, b, c, d) := t in WindowGeometry.mk a b c d.

(** ** Exceptions and results *)

Inductive exn :=
| KeyError | TypeError | ValueError | IndexError | OverflowError
| XError | BadDrawable
(** [struct.error], which the X library raises when it packs a request
    with a field out of the range of its wire format *)
| StructError
(** no Python counterpart: a reference that the store of objects does not
    hold, which the handlers never produce *)
| DanglingReference.

Inductive Res (A : Type) :=
| Ok (a : A)
| Raise (e : exn).
Arguments Ok {A} a.
Arguments Raise {A} e.

#[global] Instance exn_eq_dec : EqDecision exn.
Proof. solve_decision. Defined.

(** A Python [dict] written as a literal: an association list in insertion
    order, [d[k]] returning the entry of the first equal key. *)
Fixpoint dict_get {K V} `{EqDecision K} (d : list (K * V)) (k : K) : option V :=
  match d with
  | [] => None
  | (k', v) :: d' => if decide (k' = k) then Some v else dict_get d' k
  end.

(** ** [foowm/constants.py] *)

Definition WM_NAME : string := "foowm".
Definition UTF8_STRING_ATOM : string := "UTF8_STRING".
Definition OFFSCREEN_SOURCE_WINDOW_NAME : string := "FOOTRON_SOURCE_WINDOW".
Definition PLACARD_WINDOW_NAME : string := "FOOTRON_PLACARD".

Definition SUPPORTED_NET_ATOMS : list NetAtom.t :=
  [ NetAtom.Supported; NetAtom.ActiveWindow; NetAtom.WmName;
    NetAtom.ClientList; NetAtom.WmCheck; NetAtom.WmState;
    NetAtom.WmWindowType; NetAtom.WmWindowTypeDock;
    NetAtom.WmWindowTypeToolbar; NetAtom.WmWindowTypeMenu;
    NetAtom.WmWindowTypeSplash; NetAtom.WmWindowTypeDialog;
    NetAtom.WmWindowTypeUtility; NetAtom.WmStateModal;
    NetAtom.WmStateAbove; NetAtom.WmStateSticky ].

Definition SUPPORTED_WM_ATOMS : list WmAtom.t :=
  [ WmAtom.DeleteWindow; WmAtom.Protocols; WmAtom.Name; WmAtom.State;
    WmAtom.NormalHints ].

Definition FLOATING_WINDOW_TYPES : list NetAtom.t :=
  [ NetAtom.WmWindowTypeDock; NetAtom.WmWindowTypeToolbar;
    NetAtom.WmWindowTypeUtility; NetAtom.WmWindowTypeDialog;
    NetAtom.WmWindowTypeMenu; NetAtom.WmWindowTypeSplash ].

Definition FLOATING_WINDOW_STATES : list NetAtom.t :=
  [ NetAtom.WmStateModal; NetAtom.WmStateAbove; NetAtom.WmStateSticky ].

(** The keyword arguments a geometry factory is called with.  Every lambda
    of the table takes its parameters keyword-only and swallows the rest
    with [**_]; a parameter that the call does not pass is a [TypeError]. *)
Record kwargs := mk_kwargs {
  kw_width : option Z;
  kw_height : option Z;
  kw_geometry : option Geometry;
  kw_layout : option DisplayLayout.t
}.

(** [int(width * 0.2)]: the product is a binary64 float and [int] truncates
    it toward zero.  The double nearest to 0.2 lies just above 1/5, so for
    a screen width, which the X protocol holds in a 16-bit cardinal, the
    truncated product is the integer quotient by 5.  The quotient is the
    model on that range only: for larger integers the rounding of the
    product shows, and the conversion of a huge one to a float raises
    [OverflowError].  The theorems that depend on this value take the
    screen width in the 16-bit range. *)
Definition int_width_times_0_2 (width : Z) : Z := Z.quot width 5.

(** A value of the table that is not a [dict]: a tuple or a callable. *)
Inductive geometry_factory :=
| FTuple (t : tuple4)
| FLambda (f : kwargs -> Res tuple4).

Inductive geometry_entry :=
| EFactory (f : geometry_factory)
| EDict (d : list (DisplayLayout.t * geometry_factory)).

Definition placard_fullscreen (kw : kwargs) : Res tuple4 :=
  match kw_width kw, kw_height kw with
  | Some width, Some height => Ok (0, 0, int_width_times_0_2 width, height)
  | _, _ => Raise TypeError
  end.

Definition offscreen_source (kw : kwargs) : Res tuple4 :=
  match kw_width kw, kw_geometry kw with
  | Some width, Some geometry =>
      Ok (width, 0, WindowGeometry.width geometry, WindowGeometry.height geometry)
  | _, _ => Raise TypeError
  end.

Definition offscreen_hack (kw : kwargs) : Res tuple4 :=
  match kw_height kw, kw_geometry kw with
  | Some height, Some geometry =>
      Ok (0, height, WindowGeometry.width geometry, WindowGeometry.height geometry)
  | _, _ => Raise TypeError
  end.

Definition generic_fullscreen (kw : kwargs) : Res tuple4 :=
  match kw_width kw, kw_height kw with
  | Some width, Some height => Ok (0, 0, width, height)
  | _, _ => Raise TypeError
  end.

Definition generic_production (kw : kwargs) : Res tuple4 :=
  match kw_height kw with
  | Some height => Ok (978, 0, 3125, height)
  | None => Raise TypeError
  end.

Definition LAYOUT_GEOMETRY : list (option ClientType.t * geometry_entry) :=
  [ (Some ClientType.Placard,
     EDict [ (DisplayLayout.Fullscreen, FLambda placard_fullscreen);
             (DisplayLayout.Fit4k, FTuple (0, 0, 715, 1758));
             (DisplayLayout.Production, FTuple (0, 0, 715, 1758)) ]);
    (Some ClientType.OffscreenSource, EFactory (FLambda offscreen_source));
    (Some ClientType.OffscreenHack, EFactory (FLambda offscreen_hack));
    (None,
     EDict [ (DisplayLayout.Fullscreen, FLambda generic_fullscreen);
             (DisplayLayout.Fit4k, FTuple (715, 0, 3125, 1758));
             (DisplayLayout.Production, FLambda generic_production) ]) ].

(** Calling a table value with keyword arguments; a tuple is not callable. *)
Definition call_factory (f : geometry_factory) (kw : kwargs) : Res tuple4 :=
  match f with
  | FTuple _ => Raise TypeError
  | FLambda g => g kw
  end.

(** ** Titles: substring tests and [re.match] *)

Fixpoint strip_prefix (p s : string) : option string :=
  match p with
  | EmptyString => Some s
  | String c p' =>
      match s with
      | EmptyString => None
      | String d s' => if Ascii.eqb c d then strip_prefix p' s' else None
      end
  end.

(** The Python test [needle in hay] on strings. *)
Fixpoint str_contains (needle hay : string) : bool :=
  match strip_prefix needle hay with
  | Some _ => true
  | None =>
      match hay with
      | EmptyString => false
      | String _ hay' => str_contains needle hay'
      end
  end.

(** The fragment of regular expressions the title patterns are written in. *)
Inductive regex :=
| Lit (s : string)
| StarSet (p : ascii -> bool)
| Seq (r1 r2 : regex)
| Alt (r1 r2 : regex)
| Opt (r : regex).

(** A backtracking matcher in continuation style: [k] decides whether the
    rest of the pattern matches the rest of the subject. *)
Fixpoint re_match_k (r : regex) (s : string) (k : string -> bool) : bool :=
  match r with
  | Lit l =>
      match strip_prefix l s with
      | Some s' => k s'
      | None => false
      end
  | StarSet p =>
      (fix star (s : string) : bool :=
         match s with
         | String c s' => (p c && star s') || k s
         | EmptyString => k s
         end) s
  | Seq r1 r2 => re_match_k r1 s (fun s' => re_match_k r2 s' k)
  | Alt r1 r2 => re_match_k r1 s k || re_match_k r2 s k
  | Opt r1 => re_match_k r1 s k || k s
  end.

(** [re.match(pattern, title)] as a truth value: some prefix of the subject
    matches the pattern. *)
Definition re_match (r : regex) (s : string) : bool :=
  re_match_k r s (fun _ => true).

(** The class [.] of a pattern compiled without flags: every character but
    the line feed. *)
Definition dot (c : ascii) : bool := negb (Ascii.eqb c "010"%char).

(** The pattern [.*is sharing (your screen|a window)\.?], the Chrome screen
    sharing notification. *)
Definition OFFSCREEN_HACK_WINDOW_PATTERNS : list regex :=
  [ Seq (StarSet dot)
      (Seq (Lit "is sharing ")
         (Seq (Alt (Lit "your screen") (Lit "a window"))
            (Opt (Lit ".")))) ].

(** ** Clients *)

(** A [datetime]: microseconds on the local clock. *)
Definition datetime : Type := Z.

(** The fields of [ExtendedWMNormalHints] that [wm.py] reads. *)
Module Hints.
Record t := mk { flags : Z; x : Z; y : Z; max_width : Z; max_height : Z }.
End Hints.

Definition PPosition : Z := 4.
Definition PMaxSize : Z := 32.
Definition PropertyNewValue : Z := 0.
Definition PropertyDelete : Z := 1.

(** The record built by the call [Client(window, parent, geometry,
    desired_geometry, title, client_type, floating, now)].  Windows are
    known by their X resource ids. *)
Module Client.
Record t := mk {
  target : Z;
  parent : Z;
  geometry : Geometry;
  desired_geometry : Geometry;
  title : option string;
  type : option ClientType.t;
  floating : bool;
  created_at : datetime;
  ignore_unmaps : Z
}.
Definition set_geometry (g : Geometry) (c : t) : t :=
  mk (target c) (parent c) g (desired_geometry c) (title c) (type c)
     (floating c) (created_at c) (ignore_unmaps c).
Definition set_desired_geometry (g : Geometry) (c : t) : t :=
  mk (target c) (parent c) (geometry c) g (title c) (type c)
     (floating c) (created_at c) (ignore_unmaps c).
Definition set_title (s : option string) (c : t) : t :=
  mk (target c) (parent c) (geometry c) (desired_geometry c) s (type c)
     (floating c) (created_at c) (ignore_unmaps c).
Definition set_type (ty : option ClientType.t) (c : t) : t :=
  mk (target c) (parent c) (geometry c) (desired_geometry c) (title c) ty
     (floating c) (created_at c) (ignore_unmaps c).
Definition set_ignore_unmaps (n : Z) (c : t) : t :=
  mk (target c) (parent c) (geometry c) (desired_geometry c) (title c)
     (type c) (floating c) (created_at c) n.
End Client.

(** ** Requests to the X server and its answers *)

Definition Xatom_ATOM : Z := 4.
Definition Xatom_CARDINAL : Z := 6.
Definition Xatom_WINDOW : Z := 33.
Definition NormalState : Z := 1.
Definition EnterWindowMask : Z := Z.shiftl 1 4.
Definition StructureNotifyMask : Z := Z.shiftl 1 17.
Definition FocusChangeMask : Z := Z.shiftl 1 21.
Definition PropertyChangeMask : Z := Z.shiftl 1 22.

Inductive XAttribute :=
| event_mask (m : Z)
| override_redirect (b : bool).

Inductive XRequest :=
| CreateWindow (id parent x y width height depth : Z)
| ChangeAttributes (window : Z) (a : XAttribute)
| ChangeProperty (window property type format : Z) (data : list Z)
| Configure (window x y width height : Z)
| Reparent (window new_parent x y : Z)
| MapWindow (window : Z)
| DestroyWindow (window : Z)
| RaiseWindow (window : Z)
| KillClient (window : Z)
| SetInputFocus (window : Z)
| Sync.

Inductive FullProperty :=
| FPMissing
| FPValue (value : string)
| FPUnicodeDecodeError
| FPXError.

Module Attributes.
Record t := mk { override_redirect : bool }.
End Attributes.

(** What the X server and the clock answer while one event is handled. *)
Record World := mk_World {
  intern_atom : string -> Z;
  get_attributes : Z -> Res (option Attributes.t);
  get_property : Z -> Z -> option (list Z);
  get_full_property : Z -> Z -> FullProperty;
  get_wm_normal_hints : Z -> option Hints.t;
  get_geometry : Z -> Res Geometry;
  allocate_resource_id : Z;
  now : datetime
}.

(** ** Control messages: decoded JSON *)

Inductive json :=
| JNull
| JBool (b : bool)
| JInt (n : Z)
| JFloat (literal : string)
| JStr (s : string)
| JList (l : list json)
| JObject (members : list (string * json)).

Inductive LogLevel := DEBUG | INFO | ERROR | EXCEPTION.

(** The events of the protocol that carry what the handlers read. *)
Inductive XEvent :=
| MapRequest (window : Z)
| UnmapNotify (window : Z)
| ConfigureNotify (window width height : Z)
| ConfigureRequest (window x y width height : Z)
| PropertyNotify (window atom state : Z)
| EnterNotify (window : Z)
| OtherEvent (type : Z).

(** A reference to a [Client] object: its index in the store of objects.
    The registry and the two singletons hold references, so that one object
    reached through two of them is mutated once. *)
Definition ref : Type := nat.

Section WindowManager.

(** *** What the sources import and do not define

    [foowm/types.py] is not part of the sources, and [constants.py] does
    not define every name that [wm.py] imports from it.  What the code
    needs of them is taken as a parameter. *)

(** The class [DisplayScenario] and its member [Production]. *)
Variable DisplayScenario : Type.
Variable DisplayScenario_Production : DisplayScenario.

(** The tables of [LAYOUT_GEOMETRY] are written with keys of the class
    [DisplayLayout] and subscripted with a [DisplayScenario]:
    [scenario_key s] is the key that [s] is equal to as a dictionary key,
    if there is one. *)
Variable scenario_key : DisplayScenario -> option DisplayLayout.t.

(** The members of [NetAtom] and [WmAtom] are strings: the names of the
    atoms they stand for. *)
Variable NetAtom_value : NetAtom.t -> string.
Variable WmAtom_value : WmAtom.t -> string.

Variable LOADER_WINDOW_NAME : string.
Variable DEFAULT_CLEAR_TYPES : list (option ClientType.t).

(** The attribute [Client.in_experience_viewport], and the value that the
    constructor gives to [Client.ignore_unmaps]. *)
Variable in_experience_viewport : Client.t -> bool.
Variable ignore_unmaps_default : Z.

(** The calls [ClientType(v)] and [DisplayLayout(s)], which raise
    [ValueError] on a value of no member. *)
Variable ClientType_of_value : json -> option ClientType.t.
Variable DisplayLayout_of_value : string -> option DisplayLayout.t.

(** [datetime.datetime.fromtimestamp(ms / 1000)], which raises outside
    the range of the platform. *)
Variable fromtimestamp_ms : Z -> Res datetime.

(** The comparison [window_id == window] of an integer with a [Window]
    object of the X library. *)
Variable id_eq_window : Z -> Z -> bool.

(** *** The window manager object *)

Record WM := mk_WM {
  _root : Z;
  _experience_viewport : Z;
  _utf8_atom : Z;
  _xembed_info_atom : Z;
  _width : Z;
  _height : Z;
  message_queue : list json;
  _layout : DisplayLayout.t;
  _net_atoms : list (NetAtom.t * Z);
  _wm_atoms : list (WmAtom.t * Z);
  _debug_logging : bool;
  _display_scenario : DisplayScenario;
  _placard : option ref;
  _loader : option ref;
  _clients : list (Z * ref);
  _client_parents : gset Z;
  (** the [Client] objects ever constructed *)
  objects : list Client.t;
  (** the requests sent to the X server, oldest first *)
  requests : list XRequest;
  (** the records handed to the loggers, oldest first *)
  logs : list (LogLevel * string * list Z)
}.

Definition set_utf8_atom (v : Z) (s : WM) : WM :=
  mk_WM (_root s) (_experience_viewport s) v (_xembed_info_atom s) (_width
    s) (_height s) (message_queue s) (_layout s) (_net_atoms s) (_wm_atoms
    s) (_debug_logging s) (_display_scenario s) (_placard s) (_loader s)
    (_clients s) (_client_parents s) (objects s) (requests s) (logs s).
Definition set_xembed_info_atom (v : Z) (s : WM) : WM :=
  mk_WM (_root s) (_experience_viewport s) (_utf8_atom s) v (_width s)
    (_height s) (message_queue s) (_layout s) (_net_atoms s) (_wm_atoms s)
    (_debug_logging s) (_display_scenario s) (_placard s) (_loader s)
    (_clients s) (_client_parents s) (objects s) (requests s) (logs s).
Definition set_width (v : Z) (s : WM) : WM :=
  mk_WM (_root s) (_experience_viewport s) (_utf8_atom s)
    (_xembed_info_atom s) v (_height s) (message_queue s) (_layout s)
    (_net_atoms s) (_wm_atoms s) (_debug_logging s) (_display_scenario s)
    (_placard s) (_loader s) (_clients s) (_client_parents s) (objects s)
    (requests s) (logs s).
Definition set_height (v : Z) (s : WM) : WM :=
  mk_WM (_root s) (_experience_viewport s) (_utf8_atom s)
    (_xembed_info_atom s) (_width s) v (message_queue s) (_layout s)
    (_net_atoms s) (_wm_atoms s) (_debug_logging s) (_display_scenario s)
    (_placard s) (_loader s) (_clients s) (_client_parents s) (objects s)
    (requests s) (logs s).
Definition set_message_queue (v : list json) (s : WM) : WM :=
  mk_WM (_root s) (_experience_viewport s) (_utf8_atom s)
    (_xembed_info_atom s) (_width s) (_height s) v (_layout s) (_net_atoms
    s) (_wm_atoms s) (_debug_logging s) (_display_scenario s) (_placard s)
    (_loader s) (_clients s) (_client_parents s) (objects s) (requests s)
    (logs s).
Definition set_layout_field (v : DisplayLayout.t) (s : WM) : WM :=
  mk_WM (_root s) (_experience_viewport s) (_utf8_atom s)
    (_xembed_info_atom s) (_width s) (_height s) (message_queue s) v
    (_net_atoms s) (_wm_atoms s) (_debug_logging s) (_display_scenario s)
    (_placard s) (_loader s) (_clients s) (_client_parents s) (objects s)
    (requests s) (logs s).
Definition set_net_atoms (v : list (NetAtom.t * Z)) (s : WM) : WM :=
  mk_WM (_root s) (_experience_viewport s) (_utf8_atom s)
    (_xembed_info_atom s) (_width s) (_height s) (message_queue s) (_layout
    s) v (_wm_atoms s) (_debug_logging s) (_display_scenario s) (_placard s)
    (_loader s) (_clients s) (_client_parents s) (objects s) (requests s)
    (logs s).
Definition set_wm_atoms (v : list (WmAtom.t * Z)) (s : WM) : WM :=
  mk_WM (_root s) (_experience_viewport s) (_utf8_atom s)
    (_xembed_info_atom s) (_width s) (_height s) (message_queue s) (_layout
    s) (_net_atoms s) v (_debug_logging s) (_display_scenario s) (_placard
    s) (_loader s) (_clients s) (_client_parents s) (objects s) (requests s)
    (logs s).
Definition set_placard (v : option ref) (s : WM) : WM :=
  mk_WM (_root s) (_experience_viewport s) (_utf8_atom s)
    (_xembed_info_atom s) (_width s) (_height s) (message_queue s) (_layout
    s) (_net_atoms s) (_wm_atoms s) (_debug_logging s) (_display_scenario s)
    v (_loader s) (_clients s) (_client_parents s) (objects s) (requests s)
    (logs s).
Definition set_loader (v : option ref) (s : WM) : WM :=
  mk_WM (_root s) (_experience_viewport s) (_utf8_atom s)
    (_xembed_info_atom s) (_width s) (_height s) (message_queue s) (_layout
    s) (_net_atoms s) (_wm_atoms s) (_debug_logging s) (_display_scenario s)
    (_placard s) v (_clients s) (_client_parents s) (objects s) (requests s)
    (logs s).
Definition set_clients (v : list (Z * ref)) (s : WM) : WM :=
  mk_WM (_root s) (_experience_viewport s) (_utf8_atom s)
    (_xembed_info_atom s) (_width s) (_height s) (message_queue s) (_layout
    s) (_net_atoms s) (_wm_atoms s) (_debug_logging s) (_display_scenario s)
    (_placard s) (_loader s) v (_client_parents s) (objects s) (requests s)
    (logs s).
Definition set_client_parents (v : gset Z) (s : WM) : WM :=
  mk_WM (_root s) (_experience_viewport s) (_utf8_atom s)
    (_xembed_info_atom s) (_width s) (_height s) (message_queue s) (_layout
    s) (_net_atoms s) (_wm_atoms s) (_debug_logging s) (_display_scenario s)
    (_placard s) (_loader s) (_clients s) v (objects s) (requests s) (logs
    s).
Definition set_objects (v : list Client.t) (s : WM) : WM :=
  mk_WM (_root s) (_experience_viewport s) (_utf8_atom s)
    (_xembed_info_atom s) (_width s) (_height s) (message_queue s) (_layout
    s) (_net_atoms s) (_wm_atoms s) (_debug_logging s) (_display_scenario s)
    (_placard s) (_loader s) (_clients s) (_client_parents s) v (requests s)
    (logs s).
Definition set_requests (v : list XRequest) (s : WM) : WM :=
  mk_WM (_root s) (_experience_viewport s) (_utf8_atom s)
    (_xembed_info_atom s) (_width s) (_height s) (message_queue s) (_layout
    s) (_net_atoms s) (_wm_atoms s) (_debug_logging s) (_display_scenario s)
    (_placard s) (_loader s) (_clients s) (_client_parents s) (objects s) v
    (logs s).
Definition set_logs (v : list (LogLevel * string * list Z)) (s : WM) : WM :=
  mk_WM (_root s) (_experience_viewport s) (_utf8_atom s)
    (_xembed_info_atom s) (_width s) (_height s) (message_queue s) (_layout
    s) (_net_atoms s) (_wm_atoms s) (_debug_logging s) (_display_scenario s)
    (_placard s) (_loader s) (_clients s) (_client_parents s) (objects s)
    (requests s) v.

(** *** Statements: a state and exception monad over [WM]

    A statement that raises leaves the mutations made before it. *)

Definition M (A : Type) : Type := WM -> Res A * WM.

Definition ret {A} (a : A) : M A := fun s => (Ok a, s).
Definition raise {A} (e : exn) : M A := fun s => (Raise e, s).
Definition bind {A B} (m : M A) (k : A -> M B) : M B :=
  fun s =>
    match m s with
    | (Ok a, s') => k a s'
    | (Raise e, s') => (Raise e, s')
    end.
Definition lift {A} (r : Res A) : M A := fun s => (r, s).
Definition get_self : M WM := fun s => (Ok s, s).
Definition modify (f : WM -> WM) : M unit := fun s => (Ok tt, f s).

(** [try: body except E: handler], for the exceptions [catches] accepts. *)
Definition try_except {A} (body : M A) (catches : exn -> bool)
    (handler : M A) : M A :=
  fun s =>
    match body s with
    | (Ok a, s') => (Ok a, s')
    | (Raise e, s') => if catches e then handler s' else (Raise e, s')
    end.

#[local] Instance M_bind : MBind M := fun A B k m => bind m k.
#[local] Instance M_ret : MRet M := fun A a => ret a.

Definition when (b : bool) (m : M unit) : M unit :=
  if b then m else ret tt.

(** [for x in l: body]; an exception leaves the loop. *)
Fixpoint for_each {A} (l : list A) (body : A -> M unit) : M unit :=
  match l with
  | [] => ret tt
  | a :: l' => body a;; for_each l' body
  end.

(** [[f(a) for a in l]] for a statement [f]. *)
Fixpoint map_m {A B} (f : A -> M B) (l : list A) : M (list B) :=
  match l with
  | [] => ret []
  | a :: l' => b ← f a; bs ← map_m f l'; ret (b :: bs)
  end.

(** [any(f(a) for a in l)]: the generator is run up to the first truth. *)
Fixpoint any_m {A} (f : A -> M bool) (l : list A) : M bool :=
  match l with
  | [] => ret false
  | a :: l' => b ← f a; if b : bool then ret true else any_m f l'
  end.

(** A call of [logger.debug], [.info], [.error] or [.exception]: the text
    of the record and the integers it interpolates. *)
Definition log (level : LogLevel) (text : string) (args : list Z) : M unit :=
  modify (fun s => set_logs (logs s ++ [(level, text, args)]) s).

(** The X library packs a request when it builds it, before anything is
    sent.  A position is packed as a signed and a size as an unsigned 16-bit
    integer, and a value out of that range raises [struct.error].  Resource
    ids, atoms and the data of a property are taken to fit their 32-bit
    fields. *)
Definition int16 (v : Z) : bool := ((-32768 <=? v) && (v <=? 32767))%Z.
Definition card16 (v : Z) : bool := ((0 <=? v) && (v <=? 65535))%Z.

Definition packs (r : XRequest) : bool :=
  match r with
  | CreateWindow _ _ x y width height _ =>
      int16 x && int16 y && card16 width && card16 height
  | Configure _ x y width height =>
      int16 x && int16 y && card16 width && card16 height
  | Reparent _ _ x y => int16 x && int16 y
  | _ => true
  end.

(** A request on the display connection.  A request that is packed is
    queued and answered asynchronously: sending it does not raise. *)
Definition request (r : XRequest) : M unit :=
  if packs r then modify (fun s => set_requests (requests s ++ [r]) s)
  else raise StructError.

(** [self._net_atoms[a]] and [self._wm_atoms[a]] *)
Definition net_atom (a : NetAtom.t) : M Z :=
  fun s =>
    match dict_get (_net_atoms s) a with
    | Some v => (Ok v, s)
    | None => (Raise KeyError, s)
    end.
Definition wm_atom (a : WmAtom.t) : M Z :=
  fun s =>
    match dict_get (_wm_atoms s) a with
    | Some v => (Ok v, s)
    | None => (Raise KeyError, s)
    end.

(** Reading and writing the object behind a reference. *)
Definition deref (r : ref) : M Client.t :=
  fun s =>
    match objects s !! r with
    | Some c => (Ok c, s)
    | None => (Raise DanglingReference, s)
    end.
Definition update (r : ref) (f : Client.t -> Client.t) : M unit :=
  fun s =>
    match objects s !! r with
    | Some c => (Ok tt, set_objects (<[r := f c]> (objects s)) s)
    | None => (Raise DanglingReference, s)
    end.

(** *** [_client_type_from_title] *)

Definition _client_type_from_title (title : option string)
    : option ClientType.t :=
  match title with
  | None => None
  | Some EmptyString => None
  | Some title =>
      if existsb (fun pattern => re_match pattern title)
           OFFSCREEN_HACK_WINDOW_PATTERNS
      then Some ClientType.OffscreenHack
      else if str_contains OFFSCREEN_SOURCE_WINDOW_NAME title
      then Some ClientType.OffscreenSource
      else if str_contains PLACARD_WINDOW_NAME title
      then Some ClientType.Placard
      else if str_contains LOADER_WINDOW_NAME title
      then Some ClientType.Loader
      else None
  end.

(** *** [_client_geometry] *)

(** [table[scenario]] on a table keyed by [DisplayLayout] members. *)
Definition subscript_scenario
    (table : list (DisplayLayout.t * geometry_factory))
    (scenario : DisplayScenario) : Res geometry_factory :=
  match scenario_key scenario with
  | None => Raise KeyError
  | Some k =>
      match dict_get table k with
      | Some f => Ok f
      | None => Raise KeyError
      end
  end.

Definition _client_geometry (self : WM) (desired_geometry : Geometry)
    (client_type : option ClientType.t) (floating : bool) : Res Geometry :=
  if bool_decide (client_type = None) && floating then Ok desired_geometry
  else
    match dict_get LAYOUT_GEOMETRY client_type with
    | None => Raise KeyError
    | Some geometry_factory =>
        let geometry_factory :=
          match geometry_factory with
          | EDict d => subscript_scenario d (_display_scenario self)
          | EFactory f => Ok f
          end in
        match geometry_factory with
        | Raise e => Raise e
        | Ok (FTuple t) => Ok (WindowGeometry_of_tuple t)
        | Ok (FLambda f) =>
            match f (mk_kwargs (Some (_width self)) (Some (_height self))
                       (Some desired_geometry) (Some (_layout self))) with
            | Ok t => Ok (WindowGeometry_of_tuple t)
            | Raise e => Raise e
            end
        end
    end.

(** [LAYOUT_GEOMETRY[None][scenario]] called with keyword arguments, which computes
    the work area and the rectangle of the experience viewport. *)
Definition generic_geometry (scenario : DisplayScenario) (kw : kwargs)
    : Res tuple4 :=
  match dict_get LAYOUT_GEOMETRY None with
  | None => Raise KeyError
  | Some (EFactory _) => Raise TypeError
  | Some (EDict d) =>
      match subscript_scenario d scenario with
      | Raise e => Raise e
      | Ok f => call_factory f kw
      end
  end.

Definition list_of_tuple (t : tuple4) : list Z :=
  let '(a, b, c, d) := t in [a; b; c; d].

(** *** Stacking order *)

Definition _raise_placard : M unit :=
  self ← get_self;
  match _placard self with
  | None => ret tt
  | Some placard =>
      log DEBUG "Raising placard..." [];;
      c ← deref placard;
      request (RaiseWindow (Client.parent c))
  end.

Definition _raise_loader : M unit :=
  self ← get_self;
  match _loader self with
  | None => ret tt
  | Some loader =>
      log DEBUG "Raising loading window..." [];;
      c ← deref loader;
      request (RaiseWindow (Client.parent c))
  end.

Definition _preserve_window_order : M unit :=
  _raise_loader;;
  _raise_placard;;
  request Sync.

(** *** Applying a geometry *)

(** [debug_log_window_geometry(logger.debug, geometry)] *)
Definition debug_log_window_geometry (g : Geometry) : M unit :=
  log DEBUG "geometry"
    [WindowGeometry.x g; WindowGeometry.y g; WindowGeometry.width g;
     WindowGeometry.height g].

(** [debug_log_size_hints(logger.debug, hints)] *)
Definition debug_log_size_hints (h : Hints.t) : M unit :=
  log DEBUG "size hints"
    [Hints.flags h; Hints.x h; Hints.y h; Hints.max_width h;
     Hints.max_height h].

Definition _scale_experience_viewport_window (geometry : Geometry)
    : M unit :=
  self ← get_self;
  when (_debug_logging self)
    (log DEBUG "Attempting to experience parent to new geometry:"
       [_experience_viewport self];;
     debug_log_window_geometry geometry);;
  try_except
    (request (Configure (_experience_viewport self)
                (WindowGeometry.x geometry) (WindowGeometry.y geometry)
                (Z.max (WindowGeometry.width geometry) 1)
                (Z.max (WindowGeometry.height geometry) 1)))
    (fun _ => true)
    (log EXCEPTION "Error while scaling experience parent" []).

Definition scale_client (client : ref) (geometry : Geometry) : M unit :=
  self ← get_self;
  c ← deref client;
  when (_debug_logging self)
    (log DEBUG "Attempting to scale window to new geometry:"
       [Client.target c];;
     debug_log_window_geometry geometry);;
  let in_experience_viewport := in_experience_viewport c in
  let width := Z.max (WindowGeometry.width geometry) 1 in
  let height := Z.max (WindowGeometry.height geometry) 1 in
  try_except
    (request (Configure (Client.parent c)
                (if in_experience_viewport then 0
                 else WindowGeometry.x geometry)
                (if in_experience_viewport then 0
                 else WindowGeometry.y geometry)
                width height);;
     request (Configure (Client.target c) 0 0 width height);;
     _preserve_window_order)
    (fun _ => true)
    (log EXCEPTION "Error while scaling client" [Client.target c]).

Definition _reparent_parent (client : ref) (new_parent : Z) : M unit :=
  c ← deref client;
  log DEBUG "Reparenting parent of client to window"
    [Client.target c; new_parent];;
  request (Reparent (Client.parent c) new_parent
             (WindowGeometry.x (Client.geometry c))
             (WindowGeometry.y (Client.geometry c)));;
  request Sync.

(** *** Layout *)

Definition _setup_workarea : M unit :=
  self ← get_self;
  property ← net_atom NetAtom.WorkArea;
  data ← lift (generic_geometry DisplayScenario_Production
                 (mk_kwargs None None None (Some (_layout self))));
  request (ChangeProperty (_root self) property Xatom_CARDINAL 32
             (list_of_tuple data)).

Definition _update_viewport_geometry (after : option datetime) : M unit :=
  self ← get_self;
  viewport ← lift (generic_geometry (_display_scenario self)
                     (mk_kwargs (Some (_width self)) (Some (_height self))
                        None (Some (_layout self))));
  _scale_experience_viewport_window (WindowGeometry_of_tuple viewport);;
  for_each (_clients self).*2 (fun client =>
    c ← deref client;
    if negb (in_experience_viewport c) then ret tt
    else if match after with
            | Some after => bool_decide (Client.created_at c <= after)
            | None => false
            end
    then ret tt
    else
      self ← get_self;
      geometry ← lift (_client_geometry self (Client.desired_geometry c)
                         (Client.type c) (Client.floating c));
      update client (Client.set_geometry geometry);;
      scale_client client geometry);;
  log DEBUG "Updated viewport geometry: resized windows" [];;
  _preserve_window_order.

Definition set_layout (layout : DisplayLayout.t) (after : option datetime)
    : M unit :=
  self ← get_self;
  if bool_decide (layout = _layout self) then ret tt
  else
    modify (set_layout_field layout);;
    _setup_workarea;;
    _update_viewport_geometry after.

(** *** The published client list *)

(** [list(it)] on an iterator: what is left of it, and the iterator after
    the call, which is exhausted. *)
Definition list_of_iterator {A} (it : list A) : list A * list A := (it, []).

(** [new_clients] is a [map] object.  The text of the debug record is
    formatted before [logger.debug] is called, and formatting it runs the
    iterator to its end. *)
Definition _set_ewmh_clients_list : M unit :=
  self ← get_self;
  let new_clients := (_clients self).*2 in
  ids ← map_m (fun a => c ← deref a; ret (Client.target c)) new_clients;
  let '(shown, new_clients) := list_of_iterator ids in
  log DEBUG "Updating _NET_CLIENT_LIST on root window" shown;;
  property ← net_atom NetAtom.ClientList;
  let '(data, new_clients) := list_of_iterator new_clients in
  request (ChangeProperty (_root self) property Xatom_WINDOW 32 data).

(** *** Titles *)

Fixpoint _window_title_loop (w : World) (window : Z) (atoms : list Z)
    : M (option string) :=
  match atoms with
  | [] => ret None
  | atom :: atoms' =>
      match get_full_property w window atom with
      | FPMissing => _window_title_loop w window atoms'
      | FPUnicodeDecodeError => _window_title_loop w window atoms'
      | FPValue value => ret (Some value)
      | FPXError =>
          log EXCEPTION "Error while getting window title" [];;
          ret None
      end
  end.

Definition _window_title (w : World) (window : Z) : M (option string) :=
  net_name ← net_atom NetAtom.WmName;
  wm_name ← wm_atom WmAtom.Name;
  _window_title_loop w window [net_name; wm_name].

(** *** Managing a new window *)

Definition _create_parent_window (w : World) (x y width height : Z)
    : M Z :=
  self ← get_self;
  let id := allocate_resource_id w in
  request (CreateWindow id (_root self) x y width height 32);;
  ret id.

Definition hints_geometry (h : Hints.t) : Geometry :=
  WindowGeometry.mk (Hints.x h) (Hints.y h) (Hints.max_width h)
    (Hints.max_height h).

Definition _manage_new_window (w : World) (window : Z) : M unit :=
  self ← get_self;
  if bool_decide (is_Some (dict_get (_clients self) window)) then ret tt
  else
    property ← net_atom NetAtom.WmWindowType;
    floating ←
      match get_property w window property with
      | None => ret false
      | Some value =>
          atom_id ← match value with
                    | [] => raise IndexError
                    | v :: _ => ret v
                    end;
          floating_types ← map_m net_atom FLOATING_WINDOW_TYPES;
          if bool_decide (atom_id ∈ floating_types)
          then
            log DEBUG
              "_NET_WM_WINDOW_TYPE on new window matches a floating window type"
              [window];;
            ret true
          else ret false
      end;
    property ← net_atom NetAtom.WmState;
    floating ←
      match get_property w window property with
      | None => ret floating
      | Some value =>
          found ← any_m (fun atom =>
                           a ← net_atom atom; ret (bool_decide (a ∈ value)))
                    FLOATING_WINDOW_STATES;
          if found : bool
          then
            log DEBUG
              "_NET_WM_STATE on new window matches a floating window state"
              [window];;
            ret true
          else ret floating
      end;
    let wm_normal_hints := get_wm_normal_hints w window in
    normal_hints_geometry ←
      match wm_normal_hints with
      | None => ret None
      | Some hints =>
          if _debug_logging self
          then
            log DEBUG "Found size hints on new window" [window];;
            debug_log_size_hints hints;;
            if bool_decide
                 (Z.land (Hints.flags hints) (Z.lor PPosition PMaxSize) ≠ 0)
            then ret (Some (hints_geometry hints))
            else ret None
          else ret None
      end;
    match get_geometry w window with
    | Raise BadDrawable =>
        log EXCEPTION
          "Error while attempting to get window geometry for new window"
          [window]
    | Raise e => raise e
    | Ok x_geometry =>
        request (ChangeAttributes window
                   (event_mask
                      (Z.lor (Z.lor (Z.lor EnterWindowMask FocusChangeMask)
                                PropertyChangeMask) StructureNotifyMask)));;
        state ← wm_atom WmAtom.State;
        request (ChangeProperty window state state 32 [NormalState]);;
        title ← _window_title w window;
        match title with
        | Some (String _ _) => log DEBUG "Title for new window" [window]
        | _ => log DEBUG "No title for new window" [window]
        end;;
        let client_type := _client_type_from_title title in
        log DEBUG "Client type for new window" [window];;
        let floating := floating && bool_decide (client_type = None) in
        log DEBUG "Floating state for new window" [window];;
        let desired_geometry :=
          match normal_hints_geometry with
          | Some g => g
          | None => x_geometry
          end in
        when (_debug_logging self)
          (log DEBUG "Desired geometry for new window" [window];;
           debug_log_window_geometry desired_geometry);;
        geometry ← lift (_client_geometry self desired_geometry
                           client_type floating);
        when (_debug_logging self)
          (log DEBUG "Actual geometry for new window" [window];;
           debug_log_window_geometry geometry);;
        request (ChangeProperty window (_xembed_info_atom self)
                   (_xembed_info_atom self) 32 [0; 1]);;
        request (ChangeAttributes window (override_redirect true));;
        parent ← _create_parent_window w 0 0 1 1;
        request (Reparent window parent 0 0);;
        request (MapWindow parent);;
        modify (fun s => set_client_parents ({[parent]} ∪ _client_parents s) s);;
        log DEBUG "ID of parent for window" [window; parent];;
        request Sync;;
        s ← get_self;
        let client : ref := length (objects s) in
        modify (set_objects
                  (objects s ++
                   [Client.mk window parent geometry desired_geometry title
                      client_type floating (now w) ignore_unmaps_default]));;
        when (bool_decide (client_type = None)
              || bool_decide (client_type = Some ClientType.Loader))
          (_reparent_parent client (_experience_viewport self));;
        (if bool_decide (client_type = Some ClientType.Placard)
         then
           log INFO "Matched new placard window" [];;
           modify (set_placard (Some client))
         else if bool_decide (client_type = Some ClientType.Loader)
         then
           log INFO "Matched new loading window" [];;
           modify (set_loader (Some client))
         else ret tt);;
        scale_client client geometry;;
        request (MapWindow window);;
        _preserve_window_order;;
        modify (fun s => set_clients (_clients s ++ [(window, client)]) s);;
        _set_ewmh_clients_list
    end.

(** *** The handlers of events *)

Definition is_XError (e : exn) : bool :=
  match e with
  | XError | BadDrawable => true
  | _ => false
  end.

Definition _handle_map_request (w : World) (window : Z) : M unit :=
  log DEBUG "Handling MapRequest event for window with ID" [window];;
  match get_attributes w window with
  | Raise e =>
      if is_XError e
      then log EXCEPTION "Error attempting to get attributes for window"
             [window]
      else raise e
  | Ok attrs =>
      self ← get_self;
      if match attrs with
         | None => true
         | Some a => Attributes.override_redirect a
         end
         || bool_decide (window ∈ _client_parents self)
         || id_eq_window window (_experience_viewport self)
      then ret tt
      else _manage_new_window w window
  end.

(** [del d[k]] on a dictionary that holds [k]. *)
Fixpoint dict_del {V} (d : list (Z * V)) (k : Z) : list (Z * V) :=
  match d with
  | [] => []
  | (k', v) :: d' => if decide (k' = k) then d' else (k', v) :: dict_del d' k
  end.

Definition _handle_unmap_notify (window_id : Z) : M unit :=
  log DEBUG "Handling UnmapNotify event for window" [window_id];;
  self ← get_self;
  if bool_decide (window_id ∈ _client_parents self) then ret tt
  else
    match dict_get (_clients self) window_id with
    | None =>
        log DEBUG "No client found for UnmapNotify event with ID" [window_id]
    | Some client =>
        c ← deref client;
        if bool_decide (Client.ignore_unmaps c > 0)
        then
          log DEBUG "ignore_unmaps, ignoring unmap event for window with ID"
            [Client.ignore_unmaps c; window_id];;
          update client
            (fun c => Client.set_ignore_unmaps (Client.ignore_unmaps c - 1) c)
        else
          (if bool_decide (Client.type c = Some ClientType.Placard)
           then
             log INFO "Placard window is closing" [];;
             modify (set_placard None)
           else if bool_decide (Client.type c = Some ClientType.Loader)
           then
             log INFO "Loading window is closing" [];;
             modify (set_loader None)
           else ret tt);;
          s ← get_self;
          (if bool_decide (Client.parent c ∈ _client_parents s)
           then modify (set_client_parents
                          (_client_parents s ∖ {[Client.parent c]}))
           else raise KeyError);;
          request (DestroyWindow (Client.parent c));;
          modify (fun s => set_clients (dict_del (_clients s) window_id) s);;
          _set_ewmh_clients_list;;
          _preserve_window_order
    end.

Definition _handle_configure_notify (window width height : Z) : M unit :=
  log DEBUG "Handling ConfigureNotify event for window" [window];;
  self ← get_self;
  when (bool_decide (window = _root self))
    (modify (set_width width);;
     modify (set_height height);;
     when (_debug_logging self)
       (log DEBUG "Resizing root window:" [];;
        log DEBUG "width, height"
          [_width self; _height self; width; height])).

Definition _handle_configure_request (window x y width height : Z)
    : M unit :=
  log DEBUG "Handling ConfigureRequest event for window" [window];;
  self ← get_self;
  if bool_decide (window ∈ _client_parents self) then ret tt
  else
    match dict_get (_clients self) window with
    | None =>
        log DEBUG "No client found for ConfigureRequest event with ID"
          [window]
    | Some client =>
        let desired_geometry := WindowGeometry.mk x y width height in
        update client (Client.set_desired_geometry desired_geometry);;
        c ← deref client;
        s ← get_self;
        geometry ← lift (_client_geometry s desired_geometry
                           (Client.type c) (Client.floating c));
        update client (Client.set_geometry geometry);;
        scale_client client geometry
    end.

Definition _handle_enter_notify (window : Z) : M unit :=
  log DEBUG "Handling EnterNotify event for window" [window];;
  self ← get_self;
  property ← net_atom NetAtom.ActiveWindow;
  request (ChangeProperty (_root self) property Xatom_WINDOW 32 [window]);;
  request (SetInputFocus window).

Definition _handle_property_notify (w : World) (window atom state : Z)
    : M unit :=
  log DEBUG "Handling PropertyNotify event for window" [window];;
  self ← get_self;
  if bool_decide (window ∈ _client_parents self) then ret tt
  else
    match dict_get (_clients self) window with
    | None =>
        log DEBUG "No client found for PropertyNotify event with ID" [window]
    | Some client =>
        if bool_decide (state = PropertyDelete) then ret tt
        else
          net_name ← net_atom NetAtom.WmName;
          wm_name ← wm_atom WmAtom.Name;
          if bool_decide (atom ∈ [net_name; wm_name])
          then
            c ← deref client;
            log DEBUG "Handling title update on window" [Client.target c];;
            title ← _window_title w (Client.target c);
            update client (Client.set_title title);;
            when (_debug_logging self)
              (log DEBUG "title of window" [Client.target c]);;
            let old_type := Client.type c in
            let new_type := _client_type_from_title title in
            update client (Client.set_type new_type);;
            when (_debug_logging self)
              (log DEBUG "type of window" [Client.target c]);;
            if bool_decide (old_type = new_type) then ret tt
            else
              s ← get_self;
              geometry ← lift (_client_geometry s (Client.desired_geometry c)
                                 new_type (Client.floating c));
              update client (Client.set_geometry geometry);;
              scale_client client geometry;;
              if bool_decide (new_type = Some ClientType.Placard)
                 || bool_decide (new_type = Some ClientType.OffscreenSource)
              then
                when (bool_decide (new_type = Some ClientType.Placard))
                  (modify (set_placard (Some client)));;
                _reparent_parent client (_root self)
              else if bool_decide (new_type = None)
                      || bool_decide (new_type = Some ClientType.Loader)
              then
                when (bool_decide (new_type = Some ClientType.Loader))
                  (modify (set_loader (Some client)));;
                _reparent_parent client (_experience_viewport self)
              else ret tt
          else
            normal_hints ← wm_atom WmAtom.NormalHints;
            if bool_decide (atom = normal_hints)
            then
              c ← deref client;
              match get_wm_normal_hints w (Client.target c) with
              | None => ret tt
              | Some wm_normal_hints =>
                  when (_debug_logging self)
                    (log DEBUG "Received size hints update on window:"
                       [Client.target c];;
                     debug_log_size_hints wm_normal_hints;;
                     update client
                       (Client.set_desired_geometry
                          (hints_geometry wm_normal_hints));;
                     _preserve_window_order)
              end
            else
              net_state ← net_atom NetAtom.WmState;
              if bool_decide (atom = net_state)
              then
                c ← deref client;
                log DEBUG "Received _NET_WM_STATE update on" [Client.target c];;
                scale_client client (Client.geometry c)
              else ret tt
    end.

(** *** Clearing the viewport *)

Fixpoint clear_viewport_loop (clear_types : list (option ClientType.t))
    (before : datetime) (clients : list ref)
    (windows_killed windows_skipped : Z) : M (Z * Z) :=
  match clients with
  | [] => ret (windows_killed, windows_skipped)
  | client :: clients' =>
      c ← deref client;
      if negb (bool_decide (Client.type c ∈ clear_types))
      then clear_viewport_loop clear_types before clients'
             windows_killed windows_skipped
      else if bool_decide (Client.created_at c > before)
      then clear_viewport_loop clear_types before clients'
             windows_killed (windows_skipped + 1)
      else
        request (KillClient (Client.target c));;
        clear_viewport_loop clear_types before clients'
          (windows_killed + 1) windows_skipped
  end.

Definition clear_viewport (before : datetime)
    (include : option (list (option ClientType.t))) : M unit :=
  let clear_types :=
    match include with
    | Some include => include
    | None => DEFAULT_CLEAR_TYPES
    end in
  match include with
  | None | Some [] =>
      log DEBUG "Attempting to clear viewport using default include list" []
  | Some _ =>
      log DEBUG "Attempting to clear viewport using custom include list" []
  end;;
  self ← get_self;
  counts ← clear_viewport_loop clear_types before (_clients self).*2 0 0;
  log DEBUG "Cleared viewport: killed window(s) and skipped window(s)"
    [counts.1; counts.2];;
  _set_ewmh_clients_list;;
  _preserve_window_order.

(** *** The command channel *)

(** [message[key]] *)
Definition subscript (message : json) (key : string) : M json :=
  match message with
  | JObject members =>
      match dict_get members key with
      | Some v => ret v
      | None => raise KeyError
      end
  | _ => raise TypeError
  end.

(** [key in message], for a message that is a dictionary *)
Definition has_key (message : json) (key : string) : bool :=
  match message with
  | JObject members => bool_decide (is_Some (dict_get members key))
  | _ => false
  end.

(** [isinstance(v, int)], which holds of the booleans too, and the
    integer such a value is in arithmetic. *)
Definition as_int (v : json) : option Z :=
  match v with
  | JInt n => Some n
  | JBool b => Some (Z.b2z b)
  | _ => None
  end.

(** The elements that iterating over a value yields; [TypeError] on a
    value that is not iterable. *)
Definition iterate (v : json) : M (list json) :=
  match v with
  | JList l => ret l
  | JObject members => ret (map (fun m => JStr m.1) members)
  | JStr s => ret (map (fun c => JStr (String c EmptyString))
                     (list_ascii_of_string s))
  | _ => raise TypeError
  end.

(** [v == s], for a string [s] *)
Definition is_str (v : json) (s : string) : bool :=
  match v with
  | JStr s' => String.eqb s' s
  | _ => false
  end.

Definition _handle_message (message : json) : M unit :=
  message_type ← subscript message "type";
  log DEBUG "Processing message of type" [];;
  if is_str message_type "layout"
  then
    if negb (has_key message "layout")
    then log ERROR "Required 'layout' parameter not in message" []
    else
      layout ← subscript message "layout";
      match layout with
      | JStr layout =>
          after ← (if has_key message "after"
                   then subscript message "after" else ret JNull);
          match after with
          | JNull =>
              layout ← match DisplayLayout_of_value layout with
                       | Some l => ret l
                       | None => raise ValueError
                       end;
              set_layout layout None
          | _ =>
              match as_int after with
              | None => log ERROR "Parameter 'after' should be an int" []
              | Some ms =>
                  layout ← match DisplayLayout_of_value layout with
                           | Some l => ret l
                           | None => raise ValueError
                           end;
                  after ← lift (fromtimestamp_ms ms);
                  set_layout layout (Some after)
              end
          end
      | _ => log ERROR "Parameter 'layout' should be a string" []
      end
  else if is_str message_type "clear_viewport"
  then
    if negb (has_key message "before")
    then log ERROR "Required 'before' parameter not in message" []
    else
      before ← subscript message "before";
      match as_int before with
      | None => log ERROR "Parameter 'before' should be an int" []
      | Some ms =>
          include ← (if has_key message "include"
                     then subscript message "include" else ret JNull);
          before ← lift (fromtimestamp_ms ms);
          include ←
            match include with
            | JNull => ret None
            | _ =>
                elements ← iterate include;
                types ← map_m (fun v =>
                                 match ClientType_of_value v with
                                 | Some t => ret (Some t)
                                 | None => raise ValueError
                                 end) elements;
                ret (Some types)
            end;
          clear_viewport before include
      end
  else log ERROR "Unhandled message type" [].

(** [_process_messages]: one turn of the [while True] loop per unit of
    [fuel]; [queue.Empty] ends it. *)
Fixpoint _process_messages_loop (fuel : nat) : M unit :=
  match fuel with
  | O => ret tt
  | S fuel' =>
      self ← get_self;
      match message_queue self with
      | [] => ret tt
      | message :: rest =>
          modify (set_message_queue rest);;
          _handle_message message;;
          _process_messages_loop fuel'
      end
  end.

Definition _process_messages : M unit :=
  self ← get_self;
  _process_messages_loop (S (length (message_queue self))).

(** *** The control loop *)

Definition has_handler (ev : XEvent) : bool :=
  match ev with
  | OtherEvent _ => false
  | _ => true
  end.

Definition dispatch (w : World) (ev : XEvent) : M unit :=
  match ev with
  | MapRequest window => _handle_map_request w window
  | UnmapNotify window => _handle_unmap_notify window
  | ConfigureNotify window width height =>
      _handle_configure_notify window width height
  | ConfigureRequest window x y width height =>
      _handle_configure_request window x y width height
  | PropertyNotify window atom state =>
      _handle_property_notify w window atom state
  | EnterNotify window => _handle_enter_notify window
  | OtherEvent _ => ret tt
  end.

(** The body of [while True] in [_loop], for the event that [next_event]
    returned. *)
Definition _loop_body (w : World) (ev : XEvent) : M unit :=
  if negb (has_handler ev)
  then log DEBUG "Received event with no configured handler" []
  else
    log DEBUG "Handling event of type" [];;
    dispatch w ev;;
    _process_messages.

(** The loop on a finite prefix of what the display delivers.  Before each
    event the receiving thread has put [arrivals] on the queue. *)
Fixpoint _loop (events : list (list json * World * XEvent)) : M unit :=
  match events with
  | [] => ret tt
  | (arrivals, w, ev) :: events' =>
      modify (fun s => set_message_queue (message_queue s ++ arrivals) s);;
      _loop_body w ev;;
      _loop events'
  end.

(** *** Atoms *)

(** [d[k] = v]: the entry of an equal key is replaced where it stands, a
    new key goes to the end. *)
Fixpoint dict_set {K V} `{EqDecision K} (d : list (K * V)) (k : K) (v : V)
    : list (K * V) :=
  match d with
  | [] => [(k, v)]
  | (k', v') :: d' =>
      if decide (k' = k) then (k', v) :: d' else (k', v') :: dict_set d' k v
  end.

Definition _setup_atoms (w : World) : M unit :=
  modify (set_utf8_atom (intern_atom w UTF8_STRING_ATOM));;
  for_each SUPPORTED_NET_ATOMS (fun atom_str =>
    modify (fun s =>
      set_net_atoms
        (dict_set (_net_atoms s) atom_str
           (intern_atom w (NetAtom_value atom_str))) s));;
  for_each SUPPORTED_WM_ATOMS (fun atom_str =>
    modify (fun s =>
      set_wm_atoms
        (dict_set (_wm_atoms s) atom_str
           (intern_atom w (WmAtom_value atom_str))) s));;
  modify (set_xembed_info_atom (intern_atom w "_XEMBED_INFO")).

(** ** The geometry policy *)

(** C1.  The geometry policy returns the rectangle of the table: for a
    placard, the left strip of a fifth of the screen width (truncated to an
    integer) and the full screen height under the fullscreen key and the
    literal rectangle (0, 0, 715, 1758) under the fit4k and production keys;
    for a generic window that does not float, the whole screen under
    fullscreen, the literal (715, 0, 3125, 1758) under fit4k and
    (978, 0, 3125, screen height) under production; for an offscreen source,
    the desired size placed at the right of the screen; for an offscreen
    hack, the desired size placed below the screen.  The current layout and
    the floating flag of a typed window play no part.  The screen width is
    a 16-bit cardinal, as the X protocol has it. *)
Theorem client_geometry_table (self : WM) (desired : Geometry) (floating : bool) :
  0 <= _width self < 65536 ->
  (forall k, scenario_key (_display_scenario self) = Some k ->
     _client_geometry self desired (Some ClientType.Placard) floating =
       match k with
       | DisplayLayout.Fullscreen =>
           Ok (WindowGeometry.mk 0 0 (Z.quot (_width self) 5) (_height self))
       | DisplayLayout.Fit4k | DisplayLayout.Production =>
           Ok (WindowGeometry.mk 0 0 715 1758)
       | DisplayLayout.Full => Raise KeyError
       end
     /\ _client_geometry self desired None false =
       match k with
       | DisplayLayout.Fullscreen =>
           Ok (WindowGeometry.mk 0 0 (_width self) (_height self))
       | DisplayLayout.Fit4k => Ok (WindowGeometry.mk 715 0 3125 1758)
       | DisplayLayout.Production =>
           Ok (WindowGeometry.mk 978 0 3125 (_height self))
       | DisplayLayout.Full => Raise KeyError
       end)
  /\ _client_geometry self desired (Some ClientType.OffscreenSource) floating =
       Ok (WindowGeometry.mk (_width self) 0
             (WindowGeometry.width desired) (WindowGeometry.height desired))
  /\ _client_geometry self desired (Some ClientType.OffscreenHack) floating =
       Ok (WindowGeometry.mk 0 (_height self)
             (WindowGeometry.width desired) (WindowGeometry.height desired)).
Proof.
  intros _. split; [|split; reflexivity].
  intros k Hk. unfold _client_geometry, subscript_scenario.
  cbn [dict_get LAYOUT_GEOMETRY bool_decide andb]. simpl. rewrite Hk.
  destruct k; split; reflexivity.
Qed.

(** The horizontal position of every rectangle that the table can give,
    beside the screen width: a desired rectangle placed elsewhere is never
    returned unchanged. *)
Lemma client_geometry_table_x (self : WM) (desired g : Geometry)
    (client_type : option ClientType.t) (floating : bool) :
  _client_geometry self desired client_type floating = Ok g ->
  (client_type = None /\ floating = true /\ g = desired)
  \/ WindowGeometry.x g = 0 \/ WindowGeometry.x g = 715
  \/ WindowGeometry.x g = 978 \/ WindowGeometry.x g = _width self.
Proof.
  unfold _client_geometry, subscript_scenario.
  destruct client_type as [[]|], floating; simpl;
    try discriminate;
    try (intros [= <-]; auto 6; fail);
    destruct (scenario_key (_display_scenario self)) as [[]|]; simpl;
    try discriminate; intros [= <-]; simpl; auto 6.
Qed.

(** C9.  For an untyped, floating client the policy returns the desired
    geometry unchanged, and no other combination of type and floating flag
    returns every desired geometry unchanged. *)
Theorem client_geometry_floating_untyped (self : WM) :
  (forall desired, _client_geometry self desired None true = Ok desired)
  /\ (forall client_type floating,
        (forall desired,
           _client_geometry self desired client_type floating = Ok desired) ->
        client_type = None /\ floating = true).
Proof.
  split; [reflexivity|].
  intros client_type floating H.
  set (far := Z.abs (_width self) + 979).
  specialize (H (WindowGeometry.mk far 0 1 1)).
  apply client_geometry_table_x in H.
  destruct H as [(-> & -> & _)|H]; [auto|].
  simpl in H. lia.
Qed.

(** ** Reasoning about statements *)

(** A statement keeps a property of the window manager, whether it returns
    or raises. *)
Definition preserves {A} (P : WM -> Prop) (m : M A) : Prop :=
  forall s, P s -> P (m s).2.

Lemma preserves_ret {A} (P : WM -> Prop) (a : A) : preserves P (mret a).
Proof. intros s H. exact H. Qed.

Lemma preserves_raise {A} (P : WM -> Prop) (e : exn) : preserves P (@raise A e).
Proof. intros s H. exact H. Qed.

Lemma preserves_lift {A} (P : WM -> Prop) (r : Res A) : preserves P (lift r).
Proof. intros s H. exact H. Qed.

Lemma preserves_get_self (P : WM -> Prop) : preserves P get_self.
Proof. intros s H. exact H. Qed.

Lemma preserves_bind {A B} (P : WM -> Prop) (m : M A) (k : A -> M B) :
  preserves P m -> (forall a, preserves P (k a)) -> preserves P (m ≫= k).
Proof.
  intros Hm Hk s H. unfold mbind, M_bind, bind.
  specialize (Hm s H). destruct (m s) as [[a|e] s']; simpl in *.
  - apply Hk, Hm.
  - exact Hm.
Qed.

Lemma preserves_try_except {A} (P : WM -> Prop) (body handler : M A) catches :
  preserves P body -> preserves P handler ->
  preserves P (try_except body catches handler).
Proof.
  intros Hb Hh s H. unfold try_except.
  specialize (Hb s H). destruct (body s) as [[a|e] s']; simpl in *.
  - exact Hb.
  - destruct (catches e); [apply Hh, Hb|exact Hb].
Qed.

Lemma preserves_modify (P : WM -> Prop) (f : WM -> WM) :
  (forall s, P s -> P (f s)) -> preserves P (modify f).
Proof. intros Hf s H. apply Hf, H. Qed.

Lemma preserves_when (P : WM -> Prop) (b : bool) (m : M unit) :
  preserves P m -> preserves P (when b m).
Proof. intros Hm. destruct b; [exact Hm|apply preserves_ret]. Qed.

Lemma preserves_for_each {A} (P : WM -> Prop) (l : list A) (body : A -> M unit) :
  (forall a, preserves P (body a)) -> preserves P (for_each l body).
Proof.
  intros Hb. induction l as [|a l IH]; simpl.
  - apply preserves_ret.
  - apply preserves_bind; [apply Hb|intros _; exact IH].
Qed.

Lemma preserves_map_m {A B} (P : WM -> Prop) (f : A -> M B) (l : list A) :
  (forall a, preserves P (f a)) -> preserves P (map_m f l).
Proof.
  intros Hf. induction l as [|a l IH]; simpl.
  - apply preserves_ret.
  - apply preserves_bind; [apply Hf|intros b].
    apply preserves_bind; [exact IH|intros bs; apply preserves_ret].
Qed.

Lemma preserves_any_m {A} (P : WM -> Prop) (f : A -> M bool) (l : list A) :
  (forall a, preserves P (f a)) -> preserves P (any_m f l).
Proof.
  intros Hf. induction l as [|a l IH]; simpl.
  - apply preserves_ret.
  - apply preserves_bind; [apply Hf|intros [|]; [apply preserves_ret|exact IH]].
Qed.

Lemma preserves_net_atom (P : WM -> Prop) a : preserves P (net_atom a).
Proof. intros s H. unfold net_atom. destruct (dict_get _ _); exact H. Qed.

Lemma preserves_wm_atom (P : WM -> Prop) a : preserves P (wm_atom a).
Proof. intros s H. unfold wm_atom. destruct (dict_get _ _); exact H. Qed.

Lemma preserves_deref (P : WM -> Prop) r : preserves P (deref r).
Proof. intros s H. unfold deref. destruct (_ !! _); exact H. Qed.

(** Properties that do not read the logs, the requests or the objects. *)
Definition ignores_output (P : WM -> Prop) : Prop :=
  (forall v s, P s -> P (set_logs v s))
  /\ (forall v s, P s -> P (set_requests v s)).

Lemma preserves_log (P : WM -> Prop) level text args :
  ignores_output P -> preserves P (log level text args).
Proof. intros [H _] s Hs. apply H, Hs. Qed.

Lemma preserves_request (P : WM -> Prop) r :
  ignores_output P -> preserves P (request r).
Proof.
  intros [_ H] s Hs. unfold request. destruct (packs r); [apply H, Hs|exact Hs].
Qed.

Lemma preserves_update (P : WM -> Prop) r f :
  (forall v s, P s -> P (set_objects v s)) -> preserves P (update r f).
Proof.
  intros H s Hs. unfold update. destruct (_ !! _); [apply H, Hs|exact Hs].
Qed.

(** A property that reads neither the logs, the requests nor the store of
    objects. *)
Definition frame (P : WM -> Prop) : Prop :=
  ignores_output P /\ (forall v s, P s -> P (set_objects v s)).

Ltac solve_frame :=
  first
    [ assumption
    | match goal with H : frame _ |- _ => exact (proj1 H) end
    | match goal with H : frame _ |- _ => exact (proj2 H) end ].

Ltac preserve_step :=
  lazymatch goal with
  | |- preserves _ (mbind _ _) => apply preserves_bind; [|intros ?]
  | |- preserves _ (bind _ _) => apply preserves_bind; [|intros ?]
  | |- preserves _ (mret _) => apply preserves_ret
  | |- preserves _ (ret _) => apply preserves_ret
  | |- preserves _ (raise _) => apply preserves_raise
  | |- preserves _ (lift _) => apply preserves_lift
  | |- preserves _ get_self => apply preserves_get_self
  | |- preserves _ (net_atom _) => apply preserves_net_atom
  | |- preserves _ (wm_atom _) => apply preserves_wm_atom
  | |- preserves _ (deref _) => apply preserves_deref
  | |- preserves _ (when _ _) => apply preserves_when
  | |- preserves _ (for_each _ _) => apply preserves_for_each; intros ?
  | |- preserves _ (map_m _ _) => apply preserves_map_m; intros ?
  | |- preserves _ (any_m _ _) => apply preserves_any_m; intros ?
  | |- preserves _ (try_except _ _ _) => apply preserves_try_except
  | |- preserves _ (log _ _ _) =>
      apply preserves_log; solve_frame
  | |- preserves _ (request _) =>
      apply preserves_request; solve_frame
  | |- preserves _ (debug_log_window_geometry _) =>
      apply preserves_log; solve_frame
  | |- preserves _ (debug_log_size_hints _) =>
      apply preserves_log; solve_frame
  | |- preserves _ (update _ _) =>
      apply preserves_update; solve_frame
  | |- preserves _ (if ?b then _ else _) => destruct b
  | |- preserves _ (match ?x with _ => _ end) => destruct x
  end.

Ltac preserve := repeat preserve_step.

Section Frame.
Variable P : WM -> Prop.
Hypothesis HP : frame P.
Set Default Proof Using "Type + HP".

Lemma frame_raise_placard : preserves P _raise_placard.
Proof. unfold _raise_placard. preserve. Qed.

Lemma frame_raise_loader : preserves P _raise_loader.
Proof. unfold _raise_loader. preserve. Qed.

Lemma frame_preserve_window_order : preserves P _preserve_window_order.
Proof.
  unfold _preserve_window_order.
  apply preserves_bind; [apply frame_raise_loader|intros _].
  apply preserves_bind; [apply frame_raise_placard|intros _]. preserve.
Qed.

Lemma frame_scale_client client geometry :
  preserves P (scale_client client geometry).
Proof.
  unfold scale_client. preserve. apply frame_preserve_window_order.
Qed.

Lemma frame_scale_experience_viewport_window geometry :
  preserves P (_scale_experience_viewport_window geometry).
Proof. unfold _scale_experience_viewport_window. preserve. Qed.

Lemma frame_reparent_parent client new_parent :
  preserves P (_reparent_parent client new_parent).
Proof. unfold _reparent_parent. preserve. Qed.

Lemma frame_setup_workarea : preserves P _setup_workarea.
Proof. unfold _setup_workarea. preserve. Qed.

Lemma frame_update_viewport_geometry after :
  preserves P (_update_viewport_geometry after).
Proof.
  unfold _update_viewport_geometry. preserve;
    first [apply frame_scale_experience_viewport_window
          |apply frame_scale_client
          |apply frame_preserve_window_order].
Qed.

Lemma frame_set_ewmh_clients_list : preserves P _set_ewmh_clients_list.
Proof. unfold _set_ewmh_clients_list, list_of_iterator. preserve. Qed.

Lemma frame_window_title_loop w window atoms :
  preserves P (_window_title_loop w window atoms).
Proof.
  induction atoms as [|atom atoms IH]; simpl; preserve; exact IH.
Qed.

Lemma frame_window_title w window : preserves P (_window_title w window).
Proof. unfold _window_title. preserve. apply frame_window_title_loop. Qed.

Lemma frame_clear_viewport_loop clear_types before clients killed skipped :
  preserves P (clear_viewport_loop clear_types before clients killed skipped).
Proof.
  revert killed skipped.
  induction clients as [|client clients IH]; intros; simpl; preserve; apply IH.
Qed.

Lemma frame_clear_viewport before include :
  preserves P (clear_viewport before include).
Proof.
  unfold clear_viewport. preserve;
    first [apply frame_clear_viewport_loop
          |apply frame_set_ewmh_clients_list
          |apply frame_preserve_window_order].
Qed.

End Frame.
Set Default Proof Using "Type".

(** Running a statement on a state given by its fields. *)
Ltac exec :=
  unfold mbind, mret, M_bind, M_ret, bind, when, try_except, log, request,
    net_atom, wm_atom, deref, update, get_self, ret, raise, lift, modify;
  cbn [fst snd
       _root _experience_viewport _utf8_atom _xembed_info_atom _width _height
       message_queue _layout _net_atoms _wm_atoms _debug_logging
       _display_scenario _placard _loader _clients _client_parents objects
       requests logs
       set_utf8_atom set_xembed_info_atom set_width set_height
       set_message_queue set_layout_field set_net_atoms set_wm_atoms
       set_placard set_loader set_clients set_client_parents set_objects
       set_requests set_logs packs].

(** ** Layout changes *)

(** C8.  [set_layout] with the current layout returns at once: the window
    manager is left as it was, with no request sent; so a second call with
    the layout of a first call sends no request and changes nothing,
    whatever the first call did. *)
Theorem set_layout_same_layout (self : WM) (layout : DisplayLayout.t)
    (after : option datetime) :
  (layout = _layout self -> set_layout layout after self = (Ok tt, self))
  /\ (forall after',
        set_layout layout after' (set_layout layout after self).2 =
          (Ok tt, (set_layout layout after self).2)).
Proof.
  assert (Hsame : forall s a, layout = _layout s ->
                    set_layout layout a s = (Ok tt, s)).
  { intros s a Hs. unfold set_layout. exec.
    rewrite bool_decide_eq_true_2 by exact Hs. reflexivity. }
  split; [apply Hsame|].
  intros after'. apply Hsame.
  destruct (decide (layout = _layout self)) as [Heq|Hne].
  - rewrite (Hsame self after Heq). exact Heq.
  - assert (Hother :
      set_layout layout after self =
        (_setup_workarea ≫= fun _ => _update_viewport_geometry after)
          (set_layout_field layout self)).
    { unfold set_layout, mbind, M_bind, bind, get_self, modify.
      rewrite bool_decide_eq_false_2 by exact Hne. reflexivity. }
    rewrite Hother.
    assert (Hframe : frame (fun s => layout = _layout s)).
    { repeat split; intros v s Hs; exact Hs. }
    refine (preserves_bind (fun s => layout = _layout s) _ _ _ _
              (set_layout_field layout self) eq_refl).
    + apply frame_setup_workarea, Hframe.
    + intros _. apply frame_update_viewport_geometry, Hframe.
Qed.

(** ** Titles *)

(** A string occurs in another. *)
Definition is_substring (needle hay : string) : Prop :=
  exists a b, hay = (a ++ needle ++ b)%string.

(** A title of the form that the one offscreen-hack pattern describes: a
    run of characters with no line feed, then [is sharing your screen] or
    [is sharing a window], then anything. *)
Definition is_hack_title (title : string) : Prop :=
  exists p rest,
    forallb dot (list_ascii_of_string p) = true
    /\ (title = (p ++ "is sharing your screen" ++ rest)%string
        \/ title = (p ++ "is sharing a window" ++ rest)%string).

Lemma strip_prefix_spec (p s r : string) :
  strip_prefix p s = Some r <-> s = (p ++ r)%string.
Proof.
  revert s. induction p as [|c p IH]; intros s; simpl.
  - split; [intros [= ->]; reflexivity|intros ->; reflexivity].
  - destruct s as [|d s]; [split; [discriminate|intros [=]]|].
    destruct (Ascii.eqb_spec c d) as [->|Hne].
    + rewrite IH. split; [intros ->; reflexivity|intros [= ->]; reflexivity].
    + split; [discriminate|intros [= Hcd _]; congruence].
Qed.

Lemma strip_prefix_None (p s : string) :
  strip_prefix p s = None <-> forall r, s <> (p ++ r)%string.
Proof.
  split.
  - intros H r Hr. apply strip_prefix_spec in Hr. congruence.
  - intros H. destruct (strip_prefix p s) as [r|] eqn:E; [|reflexivity].
    apply strip_prefix_spec in E. destruct (H r E).
Qed.

Lemma str_contains_spec (needle hay : string) :
  str_contains needle hay = true <-> is_substring needle hay.
Proof.
  split.
  - induction hay as [|c hay IH]; simpl.
    + destruct (strip_prefix needle "") as [r|] eqn:E; [|discriminate].
      intros _. apply strip_prefix_spec in E. exists ""%string, r. exact E.
    + destruct (strip_prefix needle (String c hay)) as [r|] eqn:E.
      * intros _. apply strip_prefix_spec in E. exists ""%string, r. exact E.
      * intros H. destruct (IH H) as (a & b & ->).
        exists (String c a), b. reflexivity.
  - intros (a & b & ->). induction a as [|c a IH].
    + simpl.
      assert (E : strip_prefix needle (needle ++ b) = Some b)
        by (apply strip_prefix_spec; reflexivity).
      destruct b, needle; simpl in *; rewrite ?E; try reflexivity;
        destruct (strip_prefix _ _); congruence.
    + simpl. destruct (strip_prefix needle _); [reflexivity|exact IH].
Qed.

Lemma append_nil (s : string) : ("" ++ s)%string = s.
Proof. reflexivity. Qed.

Lemma append_cons (c : ascii) (a b : string) :
  (String c a ++ b)%string = String c (a ++ b).
Proof. reflexivity. Qed.

(** What [StarSet] matches: a run of characters of the class, followed by
    something that the rest of the pattern matches. *)
Lemma re_match_k_StarSet (p : ascii -> bool) (s : string) (k : string -> bool) :
  re_match_k (StarSet p) s k = true <->
  exists run rest,
    s = (run ++ rest)%string
    /\ forallb p (list_ascii_of_string run) = true /\ k rest = true.
Proof.
  simpl. induction s as [|c s IH].
  - split.
    + intros H. exists ""%string, ""%string. auto.
    + intros (run & rest & E & _ & Hk).
      destruct run; [rewrite append_nil in E; subst rest; exact Hk|].
      rewrite append_cons in E. discriminate.
  - rewrite orb_true_iff, andb_true_iff, IH. split.
    + intros [(Hc & run & rest & -> & Hrun & Hk)|Hk].
      * exists (String c run), rest. rewrite append_cons. simpl.
        rewrite Hc. auto.
      * exists ""%string, (String c s). auto.
    + intros (run & rest & E & Hrun & Hk). destruct run as [|d run].
      * rewrite append_nil in E. subst rest. right. exact Hk.
      * rewrite append_cons in E. simpl in Hrun. injection E as -> ->.
        apply andb_true_iff in Hrun as [Hc Hrun].
        left. split; [exact Hc|]. exists run, rest. auto.
Qed.

(** The offscreen-hack pattern matches exactly the titles of the form
    [is_hack_title]: the match is anchored at the start of the title, the
    phrase may be preceded by anything but a line feed, and the optional
    full stop at the end of the pattern changes nothing. *)
Lemma hack_pattern_spec (title : string) :
  existsb (fun pattern => re_match pattern title)
    OFFSCREEN_HACK_WINDOW_PATTERNS = true
  <-> is_hack_title title.
Proof.
  unfold OFFSCREEN_HACK_WINDOW_PATTERNS, existsb, re_match.
  rewrite orb_false_r.
  change (re_match_k (Seq (StarSet dot) ?r) title ?k)
    with (re_match_k (StarSet dot) title (fun s' => re_match_k r s' k)).
  rewrite re_match_k_StarSet. unfold is_hack_title.
  split.
  - intros (run & rest & -> & Hrun & Hk). exists run.
    cbn [re_match_k] in Hk.
    destruct (strip_prefix "is sharing " rest) as [r1|] eqn:E1; [|discriminate].
    apply strip_prefix_spec in E1. subst rest.
    destruct (strip_prefix "your screen" r1) as [r2|] eqn:E2.
    + apply strip_prefix_spec in E2. subst r1. exists r2. auto.
    + destruct (strip_prefix "a window" r1) as [r3|] eqn:E3; [|discriminate].
      apply strip_prefix_spec in E3. subst r1. exists r3. auto.
  - intros (run & rest & Hrun & [-> | ->]).
    + exists run, ("is sharing your screen" ++ rest)%string.
      repeat split; [exact Hrun|]. cbn [re_match_k].
      assert (E1 : strip_prefix "is sharing "
                     ("is sharing your screen" ++ rest) =
                   Some ("your screen" ++ rest)%string)
        by (apply strip_prefix_spec; reflexivity).
      rewrite E1.
      assert (E2 : strip_prefix "your screen" ("your screen" ++ rest) =
                   Some rest) by (apply strip_prefix_spec; reflexivity).
      rewrite E2, !orb_true_r. reflexivity.
    + exists run, ("is sharing a window" ++ rest)%string.
      repeat split; [exact Hrun|]. cbn [re_match_k].
      assert (E1 : strip_prefix "is sharing "
                     ("is sharing a window" ++ rest) =
                   Some ("a window" ++ rest)%string)
        by (apply strip_prefix_spec; reflexivity).
      rewrite E1.
      assert (E2 : strip_prefix "a window" ("a window" ++ rest) =
                   Some rest) by (apply strip_prefix_spec; reflexivity).
      rewrite E2, !orb_true_r. reflexivity.
Qed.

(** C4.  The classifier applies its rules in order, the first that holds
    decides: a title of the offscreen-hack form is an [OffscreenHack];
    otherwise one that contains the offscreen-source marker is an
    [OffscreenSource]; otherwise one that contains the placard marker is a
    [Placard]; otherwise one that contains the loader marker is a [Loader];
    any other title has no type.  So a title of the offscreen-hack form that
    contains the placard marker is an [OffscreenHack]. *)
Theorem client_type_from_title_precedence (title : string) :
  LOADER_WINDOW_NAME <> ""%string ->
  (is_hack_title title ->
     _client_type_from_title (Some title) = Some ClientType.OffscreenHack)
  /\ (~ is_hack_title title ->
      is_substring OFFSCREEN_SOURCE_WINDOW_NAME title ->
      _client_type_from_title (Some title) = Some ClientType.OffscreenSource)
  /\ (~ is_hack_title title ->
      ~ is_substring OFFSCREEN_SOURCE_WINDOW_NAME title ->
      is_substring PLACARD_WINDOW_NAME title ->
      _client_type_from_title (Some title) = Some ClientType.Placard)
  /\ (~ is_hack_title title ->
      ~ is_substring OFFSCREEN_SOURCE_WINDOW_NAME title ->
      ~ is_substring PLACARD_WINDOW_NAME title ->
      is_substring LOADER_WINDOW_NAME title ->
      _client_type_from_title (Some title) = Some ClientType.Loader)
  /\ (~ is_hack_title title ->
      ~ is_substring OFFSCREEN_SOURCE_WINDOW_NAME title ->
      ~ is_substring PLACARD_WINDOW_NAME title ->
      ~ is_substring LOADER_WINDOW_NAME title ->
      _client_type_from_title (Some title) = None)
  /\ (is_hack_title title ->
      is_substring PLACARD_WINDOW_NAME title ->
      _client_type_from_title (Some title) = Some ClientType.OffscreenHack).
Proof.
  intros Hloader.
  assert (Hrules :
    _client_type_from_title (Some title) =
      if existsb (fun pattern => re_match pattern title)
           OFFSCREEN_HACK_WINDOW_PATTERNS
      then Some ClientType.OffscreenHack
      else if str_contains OFFSCREEN_SOURCE_WINDOW_NAME title
      then Some ClientType.OffscreenSource
      else if str_contains PLACARD_WINDOW_NAME title
      then Some ClientType.Placard
      else if str_contains LOADER_WINDOW_NAME title
      then Some ClientType.Loader
      else None).
  { destruct title as [|c title]; [|reflexivity].
    destruct LOADER_WINDOW_NAME; [congruence|reflexivity]. }
  rewrite Hrules. clear Hrules.
  pose proof (hack_pattern_spec title) as Hhack.
  pose proof (str_contains_spec OFFSCREEN_SOURCE_WINDOW_NAME title) as Hsrc.
  pose proof (str_contains_spec PLACARD_WINDOW_NAME title) as Hpla.
  pose proof (str_contains_spec LOADER_WINDOW_NAME title) as Hloa.
  destruct (existsb _ _);
    destruct (str_contains OFFSCREEN_SOURCE_WINDOW_NAME title);
    destruct (str_contains PLACARD_WINDOW_NAME title);
    destruct (str_contains LOADER_WINDOW_NAME title);
    repeat split; intros;
    try reflexivity;
    repeat match goal with
      | H : _ <-> _ |- _ => destruct H
      end;
    try (exfalso; auto; fail);
    exfalso;
    match goal with
    | H : ?P -> false = true |- _ =>
        match goal with HP : P |- _ => discriminate (H HP) end
    end.
Qed.

(** ** Statements that only send requests and write records *)

(** The state after requests [rs] were sent and records [ls] written. *)
Definition emit (rs : list XRequest) (ls : list (LogLevel * string * list Z))
    (s : WM) : WM :=
  set_logs (logs s ++ ls) (set_requests (requests s ++ rs) s).

(** From [s], the statement [m] returns [a], having sent the requests [rs]
    and changed nothing else but the logs. *)
Definition sends {A} (m : M A) (s : WM) (a : A) (rs : list XRequest) : Prop :=
  exists ls, m s = (Ok a, emit rs ls s).

Lemma emit_nil (s : WM) : emit [] [] s = s.
Proof. destruct s. unfold emit. simpl. rewrite !app_nil_r. reflexivity. Qed.

Lemma emit_emit rs1 ls1 rs2 ls2 (s : WM) :
  emit rs2 ls2 (emit rs1 ls1 s) = emit (rs1 ++ rs2) (ls1 ++ ls2) s.
Proof. destruct s. unfold emit. simpl. rewrite !app_assoc. reflexivity. Qed.

Lemma sends_ret {A} (a : A) (s : WM) : sends (ret a) s a [].
Proof. exists []. simpl. rewrite emit_nil. reflexivity. Qed.

Lemma sends_get_self (s : WM) : sends get_self s s [].
Proof. exists []. simpl. rewrite emit_nil. reflexivity. Qed.

Lemma sends_log level text args (s : WM) : sends (log level text args) s tt [].
Proof.
  exists [(level, text, args)]. destruct s. unfold log, modify, emit. simpl.
  rewrite app_nil_r. reflexivity.
Qed.

Lemma sends_request r (s : WM) :
  packs r = true -> sends (request r) s tt [r].
Proof.
  intros Hr. exists []. destruct s. unfold request, modify, emit.
  rewrite Hr. simpl. rewrite app_nil_r. reflexivity.
Qed.

Lemma sends_bind {A B} (m : M A) (k : A -> M B) (s : WM) a b rs1 rs2 :
  sends m s a rs1 ->
  (forall ls, sends (k a) (emit rs1 ls s) b rs2) ->
  sends (m ≫= k) s b (rs1 ++ rs2).
Proof.
  intros [ls1 Hm] Hk. destruct (Hk ls1) as [ls2 Hk2].
  exists (ls1 ++ ls2)%list. unfold mbind, M_bind, bind.
  rewrite Hm, Hk2, emit_emit. reflexivity.
Qed.

Lemma sends_deref r c (s : WM) : objects s !! r = Some c -> sends (deref r) s c [].
Proof.
  intros H. exists []. unfold deref. rewrite H, emit_nil. reflexivity.
Qed.

Lemma sends_net_atom a v (s : WM) :
  dict_get (_net_atoms s) a = Some v -> sends (net_atom a) s v [].
Proof.
  intros H. exists []. unfold net_atom. rewrite H, emit_nil. reflexivity.
Qed.

Lemma sends_wm_atom a v (s : WM) :
  dict_get (_wm_atoms s) a = Some v -> sends (wm_atom a) s v [].
Proof.
  intros H. exists []. unfold wm_atom. rewrite H, emit_nil. reflexivity.
Qed.

Lemma sends_when_false (m : M unit) (s : WM) : sends (when false m) s tt [].
Proof. apply sends_ret. Qed.

(** The request that raising a singleton sends. *)
Definition raise_requests (singleton : option ref) (s : WM) : list XRequest :=
  match singleton with
  | None => []
  | Some r =>
      match objects s !! r with
      | Some c => [RaiseWindow (Client.parent c)]
      | None => []
      end
  end.

(** The references of the two singletons point to objects of the store. *)
Definition singletons_valid (s : WM) : Prop :=
  (forall r, _placard s = Some r -> is_Some (objects s !! r))
  /\ (forall r, _loader s = Some r -> is_Some (objects s !! r)).

(** The references of the registry point to objects of the store. *)
Definition registry_valid (s : WM) : Prop :=
  Forall (fun r => is_Some (objects s !! r)) (_clients s).*2.

(** The client objects of the registry, in the order of the dictionary. *)
Definition registered (s : WM) : list Client.t :=
  omap (fun r => objects s !! r) (_clients s).*2.

Lemma sends_raise_placard (s : WM) :
  singletons_valid s -> sends _raise_placard s tt (raise_requests (_placard s) s).
Proof.
  intros [Hp _]. unfold _raise_placard, raise_requests.
  destruct (_placard s) as [r|] eqn:E.
  - destruct (Hp r eq_refl) as [c Hc]. rewrite Hc.
    exists [(DEBUG, "Raising placard...", [])].
    unfold mbind, M_bind, bind, get_self, log, modify, deref, request.
    rewrite E. simpl. rewrite Hc. destruct s. reflexivity.
  - exists []. unfold mbind, M_bind, bind, get_self. rewrite E.
    simpl. rewrite emit_nil. reflexivity.
Qed.

Lemma sends_raise_loader (s : WM) :
  singletons_valid s -> sends _raise_loader s tt (raise_requests (_loader s) s).
Proof.
  intros [_ Hl]. unfold _raise_loader, raise_requests.
  destruct (_loader s) as [r|] eqn:E.
  - destruct (Hl r eq_refl) as [c Hc]. rewrite Hc.
    exists [(DEBUG, "Raising loading window...", [])].
    unfold mbind, M_bind, bind, get_self, log, modify, deref, request.
    rewrite E. simpl. rewrite Hc. destruct s. reflexivity.
  - exists []. unfold mbind, M_bind, bind, get_self. rewrite E.
    simpl. rewrite emit_nil. reflexivity.
Qed.

(** The requests of [_preserve_window_order]: the wrapper of the loader is
    raised, then that of the placard, then the connection is synced. *)
Definition order_requests (s : WM) : list XRequest :=
  raise_requests (_loader s) s ++ raise_requests (_placard s) s ++ [Sync].

Lemma sends_preserve_window_order (s : WM) :
  singletons_valid s -> sends _preserve_window_order s tt (order_requests s).
Proof.
  intros H. unfold _preserve_window_order, order_requests.
  eapply sends_bind; [apply sends_raise_loader, H|intros ls1].
  eapply sends_bind; [|intros ls2; apply sends_request; reflexivity].
  change (_placard s) with (_placard (emit (raise_requests (_loader s) s) ls1 s)).
  replace (raise_requests (_placard (emit (raise_requests (_loader s) s) ls1 s)) s)
    with (raise_requests (_placard (emit (raise_requests (_loader s) s) ls1 s))
            (emit (raise_requests (_loader s) s) ls1 s)) by reflexivity.
  apply sends_raise_placard. exact H.
Qed.

Lemma objects_emit rs ls (s : WM) : objects (emit rs ls s) = objects s.
Proof. reflexivity. Qed.

Lemma sends_client_ids (refs : list ref) (s : WM) :
  Forall (fun r => is_Some (objects s !! r)) refs ->
  sends (map_m (fun a => c ← deref a; ret (Client.target c)) refs) s
    (map Client.target (omap (fun r => objects s !! r) refs)) [].
Proof.
  revert s. induction refs as [|r refs IH]; intros s Hrefs; simpl.
  - apply sends_ret.
  - apply Forall_cons in Hrefs as [[c Hc] Hrefs]. rewrite Hc. simpl.
    change (@nil XRequest) with ((@nil XRequest ++ []) ++ ([] ++ []))%list.
    eapply sends_bind; [|intros ls].
    + eapply sends_bind; [apply sends_deref, Hc|intros ls; apply sends_ret].
    + eapply sends_bind; [|intros ls'; apply sends_ret].
      rewrite <- (objects_emit ([] ++ []) ls s). apply IH.
      rewrite objects_emit. exact Hrefs.
Qed.

(** The one request of [_set_ewmh_clients_list]: the client list property
    of the root window is replaced, and its data is the empty list, for the
    iterator over the registry was run to its end by the debug record. *)
Lemma sends_set_ewmh_clients_list (s : WM) (property : Z) :
  registry_valid s ->
  dict_get (_net_atoms s) NetAtom.ClientList = Some property ->
  sends _set_ewmh_clients_list s tt
    [ChangeProperty (_root s) property Xatom_WINDOW 32 []].
Proof.
  intros Hreg Hatom. unfold _set_ewmh_clients_list, list_of_iterator.
  change [ChangeProperty (_root s) property Xatom_WINDOW 32 []]
    with ([] ++ [] ++ [] ++ [] ++
          [ChangeProperty (_root s) property Xatom_WINDOW 32 []])%list.
  eapply sends_bind; [apply sends_get_self|intros ls0].
  eapply sends_bind; [apply sends_client_ids, Hreg|intros ls1].
  eapply sends_bind; [apply sends_log|intros ls2].
  eapply sends_bind; [apply sends_net_atom, Hatom|intros ls3].
  apply sends_request; reflexivity.
Qed.

(** ** Clearing the viewport *)

(** The clients that [clear_viewport] closes, and those it skips. *)
Definition is_cleared (clear_types : list (option ClientType.t))
    (before : datetime) (c : Client.t) : bool :=
  bool_decide (Client.type c ∈ clear_types)
  && bool_decide (Client.created_at c <= before).

Definition is_skipped (clear_types : list (option ClientType.t))
    (before : datetime) (c : Client.t) : bool :=
  bool_decide (Client.type c ∈ clear_types)
  && bool_decide (before < Client.created_at c).

Lemma sends_bind_nil {A B} (m : M A) (k : A -> M B) (s : WM) a b rs :
  sends m s a [] ->
  (forall ls, sends (k a) (emit [] ls s) b rs) ->
  sends (m ≫= k) s b rs.
Proof. intros Hm Hk. apply (sends_bind m k s a b [] rs Hm Hk). Qed.

Lemma add_succ_shift (a n : Z) : a + Z.succ n = a + 1 + n.
Proof. lia. Qed.

Lemma sends_clear_viewport_loop clear_types before (refs : list ref)
    (windows_killed windows_skipped : Z) (s : WM) :
  Forall (fun r => is_Some (objects s !! r)) refs ->
  let clients := omap (fun r => objects s !! r) refs in
  sends (clear_viewport_loop clear_types before refs
           windows_killed windows_skipped) s
    (windows_killed
       + Z.of_nat (length (List.filter (is_cleared clear_types before) clients)),
     windows_skipped
       + Z.of_nat (length (List.filter (is_skipped clear_types before) clients)))
    (map (fun c => KillClient (Client.target c))
       (List.filter (is_cleared clear_types before) clients)).
Proof.
  revert s windows_killed windows_skipped.
  induction refs as [|r refs IH]; intros s windows_killed windows_skipped Hrefs;
    simpl.
  - rewrite !Z.add_0_r. apply sends_ret.
  - apply Forall_cons in Hrefs as [[c Hc] Hrefs].
    rewrite Hc. cbn [List.filter].
    eapply sends_bind_nil; [apply sends_deref, Hc|intros ls].
    assert (Hrefs' : Forall (fun r => is_Some (objects (emit [] ls s) !! r)) refs)
      by exact Hrefs.
    destruct (decide (Client.type c ∈ clear_types)) as [Hin|Hout].
    + rewrite (bool_decide_eq_true_2 _ Hin). cbn [negb].
      destruct (decide (Client.created_at c > before)) as [Hgt|Hle].
      * assert (Ec : is_cleared clear_types before c = false).
        { unfold is_cleared. rewrite (bool_decide_eq_true_2 _ Hin).
          rewrite bool_decide_eq_false_2 by lia. reflexivity. }
        assert (Es : is_skipped clear_types before c = true).
        { unfold is_skipped. rewrite (bool_decide_eq_true_2 _ Hin).
          rewrite bool_decide_eq_true_2 by lia. reflexivity. }
        rewrite Ec, Es, (bool_decide_eq_true_2 _ Hgt).
        specialize (IH (emit [] ls s) windows_killed
                             (windows_skipped + 1) Hrefs').
        cbn zeta in IH. rewrite objects_emit in IH.
        cbn [length]. rewrite Nat2Z.inj_succ, add_succ_shift.
        exact IH.
      * assert (Ec : is_cleared clear_types before c = true).
        { unfold is_cleared. rewrite (bool_decide_eq_true_2 _ Hin).
          rewrite bool_decide_eq_true_2 by lia. reflexivity. }
        assert (Es : is_skipped clear_types before c = false).
        { unfold is_skipped. rewrite (bool_decide_eq_true_2 _ Hin).
          rewrite bool_decide_eq_false_2 by lia. reflexivity. }
        rewrite Ec, Es, (bool_decide_eq_false_2 _ Hle).
        cbn [map length]. rewrite Nat2Z.inj_succ, add_succ_shift.
        change (KillClient (Client.target c) :: ?l)
          with ([KillClient (Client.target c)] ++ l)%list.
        eapply sends_bind; [apply sends_request; reflexivity|intros ls'].
        assert (Hrefs'' : Forall (fun r => is_Some
                    (objects (emit [KillClient (Client.target c)] ls'
                                (emit [] ls s)) !! r)) refs) by exact Hrefs.
        specialize (IH _ (windows_killed + 1) windows_skipped Hrefs'').
        cbn zeta in IH. rewrite !objects_emit in IH.
        exact IH.
    + assert (Ec : is_cleared clear_types before c = false).
      { unfold is_cleared. rewrite (bool_decide_eq_false_2 _ Hout).
        reflexivity. }
      assert (Es : is_skipped clear_types before c = false).
      { unfold is_skipped. rewrite (bool_decide_eq_false_2 _ Hout).
        reflexivity. }
      rewrite Ec, Es, (bool_decide_eq_false_2 _ Hout). cbn [negb].
      specialize (IH (emit [] ls s) windows_killed windows_skipped Hrefs').
      cbn zeta in IH. rewrite objects_emit in IH. exact IH.
Qed.

(** C5.  [clear_viewport(before, include)], with [include] replaced by the
    default types when it is absent, sends a close request to exactly the
    registered clients whose type is one of the types and that were created
    at or before [before], in the order of the registry; the clients of
    these types created after [before] are skipped and counted apart (both
    counts are written to the debug record); then the client list is
    published and the stacking order restored.  Nothing else changes: no
    geometry, no singleton, no entry of the registry. *)
Theorem clear_viewport_closes_old_clients (self : WM) (before : datetime)
    (include : option (list (option ClientType.t))) (property : Z) :
  registry_valid self ->
  singletons_valid self ->
  dict_get (_net_atoms self) NetAtom.ClientList = Some property ->
  let clear_types :=
    match include with
    | Some include => include
    | None => DEFAULT_CLEAR_TYPES
    end in
  let closed := List.filter (is_cleared clear_types before) (registered self) in
  let skipped := List.filter (is_skipped clear_types before) (registered self) in
  let s' := (clear_viewport before include self).2 in
  (clear_viewport before include self).1 = Ok tt
  /\ requests s' =
       (requests self
        ++ map (fun c => KillClient (Client.target c)) closed
        ++ ChangeProperty (_root self) property Xatom_WINDOW 32 []
        :: order_requests self)%list
  /\ In (DEBUG, "Cleared viewport: killed window(s) and skipped window(s)",
         [Z.of_nat (length closed); Z.of_nat (length skipped)]) (logs s')
  /\ objects s' = objects self
  /\ _placard s' = _placard self /\ _loader s' = _loader self
  /\ _clients s' = _clients self /\ _client_parents s' = _client_parents self.
Proof.
  intros Hreg Hsing Hatom clear_types closed skipped.
  unfold clear_viewport. fold clear_types.
  set (announce := match include with
                   | Some (_ :: _) => _
                   | _ => _
                   end).
  assert (H1 : sends announce self tt []).
  { subst announce. destruct include as [[|]|]; apply sends_log. }
  destruct H1 as [ls1 H1].
  destruct (sends_clear_viewport_loop clear_types before (_clients self).*2 0 0
              (emit [] ls1 self) Hreg) as [ls2 H2].
  cbn zeta in H2. rewrite objects_emit in H2.
  fold (registered self) in H2. fold closed skipped in H2.
  rewrite !Z.add_0_l in H2.
  set (s2 := emit (map (fun c => KillClient (Client.target c)) closed) ls2
               (emit [] ls1 self)) in *.
  set (counted := (DEBUG,
         "Cleared viewport: killed window(s) and skipped window(s)",
         [Z.of_nat (length closed); Z.of_nat (length skipped)])).
  set (s3 := set_logs (logs s2 ++ [counted]) s2).
  destruct (sends_set_ewmh_clients_list s3 property Hreg Hatom) as [ls3 H3].
  set (s4 := emit [ChangeProperty (_root s3) property Xatom_WINDOW 32 []] ls3 s3)
    in *.
  destruct (sends_preserve_window_order s4 Hsing) as [ls4 H4].
  assert (Hrun : (announce ≫= λ _ : (),
                   get_self ≫= λ self0 : WM,
                   clear_viewport_loop clear_types before (_clients self0).*2 0 0
                   ≫= λ counts : Z * Z,
                   log DEBUG
                     "Cleared viewport: killed window(s) and skipped window(s)"
                     [counts.1; counts.2]
                   ≫= λ _ : (), _set_ewmh_clients_list
                   ≫= λ _ : (), _preserve_window_order) self
                 = (Ok tt, emit (order_requests s4) ls4 s4)).
  { unfold mbind, M_bind, bind. rewrite H1. cbn [get_self].
    change (_clients (emit [] ls1 self)) with (_clients self).
    rewrite H2. cbn [log modify fst snd].
    change (set_logs _ s2) with s3. rewrite H3, H4. reflexivity. }
  rewrite Hrun. cbn [fst snd]. split; [reflexivity|].
  destruct self. subst s4 s3 s2 counted. unfold emit, order_requests.
  cbn. rewrite !app_nil_r, <- !app_assoc. repeat split.
  rewrite !in_app_iff. cbn. auto 10.
Qed.

(** ** Unmap events *)

(** What a real unmap does to the singletons: the one of the type of the
    client is cleared. *)
Definition clear_singleton (c : Client.t) (s : WM) : WM :=
  if bool_decide (Client.type c = Some ClientType.Placard)
  then set_placard None s
  else if bool_decide (Client.type c = Some ClientType.Loader)
  then set_loader None s
  else s.

(** The window manager after a real unmap of the client [c] of [window],
    the requests and the logs apart. *)
Definition unmanaged (window : Z) (c : Client.t) (s : WM) : WM :=
  set_clients (dict_del (_clients s) window)
    (set_client_parents (_client_parents s ∖ {[Client.parent c]})
       (clear_singleton c s)).

Lemma unmap_suppressed (self : WM) (window : Z) (client : ref) (c : Client.t) :
  window ∉ _client_parents self ->
  dict_get (_clients self) window = Some client ->
  objects self !! client = Some c ->
  Client.ignore_unmaps c > 0 ->
  exists ls,
    _handle_unmap_notify window self =
      (Ok tt,
       set_objects
         (<[client := Client.set_ignore_unmaps (Client.ignore_unmaps c - 1) c]>
            (objects self))
         (emit [] ls self)).
Proof.
  intros Hwin Hget Hc Hpos. unfold _handle_unmap_notify. exec.
  rewrite (bool_decide_eq_false_2 _ Hwin), Hget. exec. rewrite Hc. exec.
  rewrite (bool_decide_eq_true_2 _ Hpos). exec. rewrite Hc.
  eexists. destruct self. unfold emit, set_objects, set_logs, set_requests.
  cbn. rewrite app_nil_r, <- app_assoc. reflexivity.
Qed.

Lemma dict_del_values {V} (P : V -> Prop) (d : list (Z * V)) (k : Z) :
  Forall P d.*2 -> Forall P (dict_del d k).*2.
Proof.
  induction d as [|[k' v] d IH]; simpl; [auto|].
  intros H. apply Forall_cons in H as [Hv Hd].
  destruct (decide (k' = k)); [exact Hd|].
  simpl. apply Forall_cons. auto.
Qed.

Ltac use_sends lemma :=
  match goal with
  | |- context [_set_ewmh_clients_list ?s] =>
      let ls := fresh "ls" in
      let H := fresh "H" in
      destruct (lemma s) as [ls H]; [..|rewrite H; clear H]
  | |- context [_preserve_window_order ?s] =>
      let ls := fresh "ls" in
      let H := fresh "H" in
      destruct (lemma s) as [ls H]; [..|rewrite H; clear H]
  end.

Lemma unmap_removes (self : WM) (window : Z) (client : ref) (c : Client.t)
    (property : Z) :
  window ∉ _client_parents self ->
  dict_get (_clients self) window = Some client ->
  objects self !! client = Some c ->
  ~ Client.ignore_unmaps c > 0 ->
  Client.parent c ∈ _client_parents self ->
  registry_valid self ->
  singletons_valid self ->
  dict_get (_net_atoms self) NetAtom.ClientList = Some property ->
  exists ls,
    _handle_unmap_notify window self =
      (Ok tt,
       emit (DestroyWindow (Client.parent c)
             :: ChangeProperty (_root self) property Xatom_WINDOW 32 []
             :: order_requests (unmanaged window c self))
         ls (unmanaged window c self)).
Proof.
  intros Hwin Hget Hc Hpos Hparent Hreg [Hpla Hloa] Hatom.
  assert (Hreg' : Forall (fun r => is_Some (objects self !! r))
                    (dict_del (_clients self) window).*2)
    by (apply dict_del_values, Hreg).
  unfold _handle_unmap_notify. exec.
  rewrite (bool_decide_eq_false_2 _ Hwin), Hget. exec. rewrite Hc. exec.
  rewrite (bool_decide_eq_false_2 _ Hpos). unfold unmanaged, clear_singleton.
  destruct (bool_decide (Client.type c = Some ClientType.Placard));
    [|destruct (bool_decide (Client.type c = Some ClientType.Loader))];
    exec; rewrite (bool_decide_eq_true_2 _ Hparent); exec;
    (use_sends (fun s => sends_set_ewmh_clients_list s property);
       [exact Hreg'|exact Hatom|]);
    (use_sends sends_preserve_window_order;
       [split; cbn [_placard _loader objects set_clients set_client_parents set_placard set_loader set_requests set_logs]; intros r Hr; first [discriminate|apply Hpla, Hr|apply Hloa, Hr]|]);
    eexists; destruct self; unfold emit, order_requests, raise_requests;
    cbn [fst snd _root _experience_viewport _utf8_atom _xembed_info_atom
         _width _height message_queue _layout _net_atoms _wm_atoms
         _debug_logging _display_scenario _placard _loader _clients
         _client_parents objects requests logs app
         set_clients set_client_parents set_placard set_loader set_objects
         set_requests set_logs];
    rewrite <- !app_assoc; cbn [app]; reflexivity.
Qed.

Lemma dict_get_dict_del_ne {V} (d : list (Z * V)) (k k' : Z) :
  k' <> k -> dict_get (dict_del d k) k' = dict_get d k'.
Proof.
  intros Hne. induction d as [|[k0 v] d IH]; simpl; [reflexivity|].
  destruct (decide (k0 = k)) as [->|Hk0].
  - destruct (decide (k = k')); [congruence|reflexivity].
  - simpl. destruct (decide (k0 = k')); [reflexivity|exact IH].
Qed.

(** C10.  A real unmap of a registered client whose type is [Placard] sets
    the placard singleton to [None] whatever reference the singleton held,
    and likewise for a [Loader] and the loader singleton: the handler looks
    at the type of the client and not at the singleton.  The clients
    registered under other windows stay registered; so when a second
    placard has taken the singleton, the unmap of the first one clears it
    while the second one stays. *)
Theorem unmap_clears_singleton_by_type (self : WM) (window : Z) (client : ref)
    (c : Client.t) (property : Z) :
  window ∉ _client_parents self ->
  dict_get (_clients self) window = Some client ->
  objects self !! client = Some c ->
  ~ Client.ignore_unmaps c > 0 ->
  Client.parent c ∈ _client_parents self ->
  registry_valid self ->
  singletons_valid self ->
  dict_get (_net_atoms self) NetAtom.ClientList = Some property ->
  let s' := (_handle_unmap_notify window self).2 in
  (_handle_unmap_notify window self).1 = Ok tt
  /\ _clients s' = dict_del (_clients self) window
  /\ (Client.type c = Some ClientType.Placard -> _placard s' = None)
  /\ (Client.type c = Some ClientType.Loader -> _loader s' = None)
  /\ (forall window' client',
        window' <> window ->
        dict_get (_clients self) window' = Some client' ->
        dict_get (_clients s') window' = Some client').
Proof.
  intros Hwin Hget Hc Hpos Hparent Hreg Hsing Hatom.
  destruct (unmap_removes self window client c property
              Hwin Hget Hc Hpos Hparent Hreg Hsing Hatom) as [ls ->].
  cbn [fst snd]. unfold emit, unmanaged, clear_singleton.
  repeat split.
  - intros Hty. rewrite (bool_decide_eq_true_2 _ Hty). reflexivity.
  - intros Hty. rewrite bool_decide_eq_false_2 by congruence.
    rewrite (bool_decide_eq_true_2 _ Hty). reflexivity.
  - intros window' client' Hne Hget'.
    cbn [_clients set_logs set_requests set_clients].
    rewrite dict_get_dict_del_ne by exact Hne. exact Hget'.
Qed.

(** ** What the handlers never touch *)

(** A property that only reads what the handlers of events and of commands
    leave alone: the ids of the root and of the viewport, the atoms, the
    display scenario, the debug flag and the message queue. *)
Record stable (P : WM -> Prop) : Prop := {
  stable_logs : forall v s, P s -> P (set_logs v s);
  stable_requests : forall v s, P s -> P (set_requests v s);
  stable_objects : forall v s, P s -> P (set_objects v s);
  stable_width : forall v s, P s -> P (set_width v s);
  stable_height : forall v s, P s -> P (set_height v s);
  stable_layout : forall v s, P s -> P (set_layout_field v s);
  stable_placard : forall v s, P s -> P (set_placard v s);
  stable_loader : forall v s, P s -> P (set_loader v s);
  stable_clients : forall v s, P s -> P (set_clients v s);
  stable_client_parents : forall v s, P s -> P (set_client_parents v s)
}.

Lemma stable_frame (P : WM -> Prop) : stable P -> frame P.
Proof. intros []. repeat split; assumption. Qed.

Ltac stable_modify :=
  apply preserves_modify;
  match goal with
  | H : stable _ |- _ =>
      let s := fresh "s" in
      let Hs := fresh "Hs" in
      intros s Hs;
      first [ apply (stable_logs _ H) | apply (stable_requests _ H)
            | apply (stable_objects _ H) | apply (stable_width _ H)
            | apply (stable_height _ H) | apply (stable_layout _ H)
            | apply (stable_placard _ H) | apply (stable_loader _ H)
            | apply (stable_clients _ H) | apply (stable_client_parents _ H) ];
      exact Hs
  end.

Ltac stable_step :=
  lazymatch goal with
  | |- preserves _ (modify _) => stable_modify
  | |- preserves _ (log _ _ _) =>
      match goal with
      | H : stable _ |- _ => apply preserves_log, (stable_frame _ H)
      end
  | |- preserves _ (request _) =>
      match goal with
      | H : stable _ |- _ => apply preserves_request, (stable_frame _ H)
      end
  | |- preserves _ (debug_log_window_geometry _) =>
      match goal with
      | H : stable _ |- _ => apply preserves_log, (stable_frame _ H)
      end
  | |- preserves _ (debug_log_size_hints _) =>
      match goal with
      | H : stable _ |- _ => apply preserves_log, (stable_frame _ H)
      end
  | |- preserves _ (update _ _) =>
      match goal with
      | H : stable _ |- _ => apply preserves_update, (stable_objects _ H)
      end
  | |- preserves _ (scale_client _ _) =>
      match goal with
      | H : stable _ |- _ => apply frame_scale_client, (stable_frame _ H)
      end
  | |- preserves _ (_reparent_parent _ _) =>
      match goal with
      | H : stable _ |- _ => apply frame_reparent_parent, (stable_frame _ H)
      end
  | |- preserves _ _preserve_window_order =>
      match goal with
      | H : stable _ |- _ => apply frame_preserve_window_order, (stable_frame _ H)
      end
  | |- preserves _ _set_ewmh_clients_list =>
      match goal with
      | H : stable _ |- _ => apply frame_set_ewmh_clients_list, (stable_frame _ H)
      end
  | |- preserves _ (_window_title _ _) =>
      match goal with
      | H : stable _ |- _ => apply frame_window_title, (stable_frame _ H)
      end
  | |- preserves _ _setup_workarea =>
      match goal with
      | H : stable _ |- _ => apply frame_setup_workarea, (stable_frame _ H)
      end
  | |- preserves _ (_update_viewport_geometry _) =>
      match goal with
      | H : stable _ |- _ =>
          apply frame_update_viewport_geometry, (stable_frame _ H)
      end
  | |- preserves _ (clear_viewport _ _) =>
      match goal with
      | H : stable _ |- _ => apply frame_clear_viewport, (stable_frame _ H)
      end
  | |- _ => preserve_step
  end.

Ltac stable_preserve := repeat stable_step.

Section Stable.
Variable P : WM -> Prop.
Hypothesis HP : stable P.
Set Default Proof Using "Type + HP".

Lemma stable_set_layout layout after : preserves P (set_layout layout after).
Proof. unfold set_layout. stable_preserve. Qed.

Lemma stable_create_parent_window w x y width height :
  preserves P (_create_parent_window w x y width height).
Proof. unfold _create_parent_window. stable_preserve. Qed.

Lemma stable_manage_new_window w window :
  preserves P (_manage_new_window w window).
Proof.
  unfold _manage_new_window. stable_preserve;
    apply stable_create_parent_window.
Qed.

Lemma stable_handle_map_request w window :
  preserves P (_handle_map_request w window).
Proof.
  unfold _handle_map_request. stable_preserve; apply stable_manage_new_window.
Qed.

Lemma stable_handle_unmap_notify window :
  preserves P (_handle_unmap_notify window).
Proof. unfold _handle_unmap_notify. stable_preserve. Qed.

Lemma stable_handle_configure_notify window width height :
  preserves P (_handle_configure_notify window width height).
Proof. unfold _handle_configure_notify. stable_preserve. Qed.

Lemma stable_handle_configure_request window x y width height :
  preserves P (_handle_configure_request window x y width height).
Proof. unfold _handle_configure_request. stable_preserve. Qed.

Lemma stable_handle_property_notify w window atom state :
  preserves P (_handle_property_notify w window atom state).
Proof. unfold _handle_property_notify. stable_preserve. Qed.

Lemma stable_handle_enter_notify window :
  preserves P (_handle_enter_notify window).
Proof. unfold _handle_enter_notify. stable_preserve. Qed.

Lemma stable_dispatch w ev : preserves P (dispatch w ev).
Proof.
  destruct ev; simpl;
    [ apply stable_handle_map_request | apply stable_handle_unmap_notify
    | apply stable_handle_configure_notify
    | apply stable_handle_configure_request
    | apply stable_handle_property_notify | apply stable_handle_enter_notify
    | apply preserves_ret ].
Qed.

Lemma stable_subscript message key : preserves P (subscript message key).
Proof. unfold subscript. stable_preserve. Qed.

Lemma stable_iterate v : preserves P (iterate v).
Proof. unfold iterate. stable_preserve. Qed.

Lemma stable_handle_message message : preserves P (_handle_message message).
Proof.
  unfold _handle_message. stable_preserve;
    first [apply stable_subscript | apply stable_iterate
          | apply stable_set_layout].
Qed.

End Stable.
Set Default Proof Using "Type".

(** ** The command queue and the control loop *)

Lemma stable_queue (q : list json) : stable (fun s => message_queue s = q).
Proof. split; intros v s H; exact H. Qed.

(** Draining leaves the queue empty when no command raises, and otherwise
    leaves on it the commands behind the one that raised. *)
Lemma process_messages_loop_queue (fuel : nat) (s : WM) :
  (length (message_queue s) < fuel)%nat ->
  ((_process_messages_loop fuel s).1 = Ok tt ->
     message_queue (_process_messages_loop fuel s).2 = [])
  /\ (forall e, (_process_messages_loop fuel s).1 = Raise e ->
        exists handled message,
          message_queue s =
            (handled ++ message :: message_queue (_process_messages_loop fuel s).2)%list).
Proof.
  revert s. induction fuel as [|fuel IH]; intros s Hfuel; [lia|].
  simpl. unfold mbind, M_bind, bind, get_self, modify. cbn [fst snd].
  destruct (message_queue s) as [|message rest] eqn:Hq.
  - split; [intros _; exact Hq|discriminate].
  - pose proof (stable_handle_message _ (stable_queue rest) message
                  (set_message_queue rest s) eq_refl) as Hrest.
    destruct (_handle_message message (set_message_queue rest s))
      as [[[]|e] s1] eqn:Hm; cbn [fst snd] in *.
    + destruct (IH s1) as [Hok Hraise]; [rewrite Hrest; simpl in Hfuel; lia|].
      split; [exact Hok|].
      intros e He. destruct (Hraise e He) as (handled & m & Hs1).
      exists (message :: handled), m. rewrite Hrest in Hs1. rewrite Hs1.
      reflexivity.
    + split; [discriminate|]. intros e' _. exists [], message.
      rewrite Hrest. reflexivity.
Qed.

Lemma process_messages_queue (s : WM) :
  ((_process_messages s).1 = Ok tt -> message_queue (_process_messages s).2 = [])
  /\ (forall e, (_process_messages s).1 = Raise e ->
        exists handled message,
          message_queue s =
            (handled ++ message :: message_queue (_process_messages s).2)%list).
Proof.
  unfold _process_messages, mbind, M_bind, bind, get_self.
  apply process_messages_loop_queue. lia.
Qed.

(** C6, as the code has it.  An iteration of the control loop whose event
    has a configured handler drains the command queue to empty after the
    handler, unless the handler or a command raises; an event with no
    configured handler is logged and ignored, and the queue is left as it
    is: the commands wait for the next event that has a handler. *)
Theorem loop_body_drains_after_handled_event (w : World) (ev : XEvent)
    (self : WM) :
  (has_handler ev = true ->
   (_loop_body w ev self).1 = Ok tt ->
   message_queue (_loop_body w ev self).2 = [])
  /\ (has_handler ev = false ->
      _loop_body w ev self =
        (Ok tt,
         emit [] [(DEBUG, "Received event with no configured handler", [])]
           self)).
Proof.
  unfold _loop_body. split; intros Hev.
  - rewrite Hev. cbn [negb].
    unfold mbind, M_bind, bind, log, modify. cbn [fst snd].
    destruct (dispatch w ev _) as [[[]|e] s1]; [|discriminate].
    apply process_messages_queue.
  - rewrite Hev. cbn [negb]. destruct self. unfold log, modify, emit.
    cbn. rewrite app_nil_r. reflexivity.
Qed.

(** Reducing the fields of a state given by its constructor. *)
Ltac fields :=
  cbn [fst snd _root _experience_viewport _utf8_atom _xembed_info_atom
       _width _height message_queue _layout _net_atoms _wm_atoms
       _debug_logging _display_scenario _placard _loader _clients
       _client_parents objects requests logs app
       set_utf8_atom set_xembed_info_atom set_width set_height
       set_message_queue set_layout_field set_net_atoms set_wm_atoms
       set_clients set_client_parents set_placard set_loader set_objects
       set_requests set_logs].

Ltac fields_in_all :=
  repeat match goal with
    | H : context [mk_WM] |- _ =>
        progress
          cbn [fst snd _root _experience_viewport _utf8_atom _xembed_info_atom
               _width _height message_queue _layout _net_atoms _wm_atoms
               _debug_logging _display_scenario _placard _loader _clients
               _client_parents objects requests logs] in H
    end.

(** ** Property changes *)

(** C3, as the code has it.  On a change of the size hints of a tracked
    client, the handler copies the hints into the desired geometry only when
    debug logging is on, and then it does so whatever flags the hints carry
    and restores the stacking order; when debug logging is off the client is
    left as it is, also when the hints carry both the position and the
    maximum size flag. *)
Theorem normal_hints_update_needs_debug_logging (w : World) (self : WM)
    (window atom state : Z) (client : ref) (c : Client.t) (hints : Hints.t)
    (net_name wm_name : Z) :
  window ∉ _client_parents self ->
  dict_get (_clients self) window = Some client ->
  objects self !! client = Some c ->
  state <> PropertyDelete ->
  dict_get (_net_atoms self) NetAtom.WmName = Some net_name ->
  dict_get (_wm_atoms self) WmAtom.Name = Some wm_name ->
  dict_get (_wm_atoms self) WmAtom.NormalHints = Some atom ->
  atom <> net_name -> atom <> wm_name ->
  get_wm_normal_hints w (Client.target c) = Some hints ->
  singletons_valid self ->
  (_debug_logging self = false ->
   _handle_property_notify w window atom state self =
     (Ok tt,
      emit [] [(DEBUG, "Handling PropertyNotify event for window", [window])]
        self))
  /\ (_debug_logging self = true ->
      let s1 :=
        set_objects
          (<[client := Client.set_desired_geometry (hints_geometry hints) c]>
             (objects self)) self in
      exists ls,
        _handle_property_notify w window atom state self =
          (Ok tt, emit (order_requests s1) ls s1)).
Proof.
  intros Hwin Hget Hc Hstate Hnet Hwm Hhints Hne1 Hne2 Hreply Hsing.
  clear ignore_unmaps_default id_eq_window fromtimestamp_ms
    DisplayLayout_of_value DisplayScenario_Production.
  assert (Hatom : bool_decide (atom ∈ [net_name; wm_name]) = false).
  { apply bool_decide_eq_false_2. rewrite !elem_of_cons, elem_of_nil. tauto. }
  destruct Hsing as [Hpla Hloa]. destruct self. fields_in_all.
  split; intros Hdebug; fields_in_all; unfold _handle_property_notify; exec;
    rewrite (bool_decide_eq_false_2 _ Hwin); exec; rewrite Hget; exec;
    rewrite (bool_decide_eq_false_2 _ Hstate); exec; rewrite Hnet; exec;
    rewrite Hwm; exec; rewrite Hatom; exec; rewrite Hhints; exec;
    rewrite bool_decide_eq_true_2 by reflexivity; exec; rewrite Hc; exec;
    rewrite Hreply; exec; rewrite Hdebug; exec.
  - unfold emit. fields. rewrite app_nil_r. reflexivity.
  - unfold debug_log_size_hints. exec. rewrite Hc.
    match goal with
    | |- context [_preserve_window_order ?s] =>
        destruct (sends_preserve_window_order s) as [ls ->]
    end.
    { split; fields; intros r Hr;
        [destruct (Hpla r Hr) as [c' Hc']|destruct (Hloa r Hr) as [c' Hc']];
        apply lookup_lt_is_Some; rewrite length_insert;
        apply lookup_lt_is_Some; eauto. }
    eexists. unfold emit, order_requests, raise_requests. fields.
    rewrite <- !app_assoc. reflexivity.
Qed.

(** ** Commands *)

(** A value that [map(ClientType, include)] cannot iterate over. *)
Definition not_iterable (v : json) : bool :=
  match v with
  | JBool _ | JInt _ | JFloat _ => true
  | _ => false
  end.

(** C2, as the code has it.  Two malformed commands are not dropped: a
    message with no [type] raises [KeyError], and a [clear_viewport] message
    whose [include] is a number or a boolean raises [TypeError]; the window
    manager is left as it was, the debug record apart, and the exception
    leaves [_handle_message]. *)
Theorem handle_message_raises_on_unvalidated_fields (self : WM)
    (members : list (string * json)) :
  (dict_get members "type" = None ->
   _handle_message (JObject members) self = (Raise KeyError, self))
  /\ (forall before ms t include,
        dict_get members "type" = Some (JStr "clear_viewport") ->
        dict_get members "before" = Some before ->
        as_int before = Some ms ->
        fromtimestamp_ms ms = Ok t ->
        dict_get members "include" = Some include ->
        not_iterable include = true ->
        _handle_message (JObject members) self =
          (Raise TypeError,
           emit [] [(DEBUG, "Processing message of type", [])] self)).
Proof.
  split.
  - intros Htype. unfold _handle_message, subscript. rewrite Htype. reflexivity.
  - intros before ms t include Htype Hbefore Hint Htime Hinclude Hiter.
    unfold _handle_message, subscript, has_key. rewrite Htype. exec.
    cbn [is_str String.eqb Ascii.eqb Bool.eqb andb]. exec.
    rewrite Hbefore.
    rewrite bool_decide_eq_true_2 by eauto. cbn [negb]. exec.
    rewrite Hint, Hinclude. exec.
    rewrite bool_decide_eq_true_2 by eauto. exec. rewrite Htime. exec.
    destruct self. unfold emit. fields. rewrite app_nil_r.
    destruct include; try discriminate; reflexivity.
Qed.

(** X18.  The commands that [_handle_message] drops: a message of a type
    that is neither [layout] nor [clear_viewport], a layout command with no
    [layout], with a [layout] that is not a string or with an [after] that
    is neither null nor an integer, and a [clear_viewport] command with no
    [before] or with a [before] that is not an integer.  The window manager
    is left as it was and one error record is written after the debug
    record. *)
Lemma handle_message_drops (self : WM) (members : list (string * json)) :
  let dropped text :=
    _handle_message (JObject members) self =
      (Ok tt,
       emit [] [(DEBUG, "Processing message of type", []); (ERROR, text, [])]
         self) in
  (forall t, dict_get members "type" = Some t ->
     is_str t "layout" = false -> is_str t "clear_viewport" = false ->
     dropped "Unhandled message type")
  /\ (dict_get members "type" = Some (JStr "layout") ->
      (dict_get members "layout" = None ->
       dropped "Required 'layout' parameter not in message")
      /\ (forall v, dict_get members "layout" = Some v ->
            (forall s, v <> JStr s) ->
            dropped "Parameter 'layout' should be a string")
      /\ (forall s after, dict_get members "layout" = Some (JStr s) ->
            dict_get members "after" = Some after ->
            after <> JNull -> as_int after = None ->
            dropped "Parameter 'after' should be an int"))
  /\ (dict_get members "type" = Some (JStr "clear_viewport") ->
      (dict_get members "before" = None ->
       dropped "Required 'before' parameter not in message")
      /\ (forall v, dict_get members "before" = Some v ->
            as_int v = None ->
            dropped "Parameter 'before' should be an int")).
Proof.
  assert (Hemit : forall text,
            (Ok tt,
             set_logs ((logs self ++ [(DEBUG, "Processing message of type", [])])
                       ++ [(ERROR, text, [])])
               (set_logs (logs self ++ [(DEBUG, "Processing message of type", [])])
                  self)) =
            (Ok tt,
             emit [] [(DEBUG, "Processing message of type", []);
                      (ERROR, text, [])] self)).
  { intros text. destruct self. unfold emit. fields.
    rewrite app_nil_r, <- app_assoc. reflexivity. }
  cbn zeta. unfold _handle_message, subscript, has_key.
  split; [|split].
  - intros t Htype Hl Hc. rewrite Htype. exec. rewrite Hl, Hc. exec.
    apply Hemit.
  - intros Htype. rewrite Htype. exec.
    cbn [is_str String.eqb Ascii.eqb Bool.eqb andb]. exec.
    split; [|split].
    + intros Hlayout. rewrite Hlayout.
      rewrite bool_decide_eq_false_2 by (intros [? ?]; discriminate).
      cbn [negb]. exec. apply Hemit.
    + intros v Hlayout Hv. rewrite Hlayout.
      rewrite bool_decide_eq_true_2 by eauto. cbn [negb]. exec.
      destruct v; try apply Hemit. destruct (Hv s eq_refl).
    + intros s after Hlayout Hafter Hnull Hint. rewrite Hlayout.
      rewrite bool_decide_eq_true_2 by eauto. cbn [negb]. exec.
      rewrite Hafter. rewrite bool_decide_eq_true_2 by eauto. exec.
      rewrite Hint. destruct after; try congruence; apply Hemit.
  - intros Htype. rewrite Htype. exec.
    cbn [is_str String.eqb Ascii.eqb Bool.eqb andb]. exec.
    split.
    + intros Hbefore. rewrite Hbefore.
      rewrite bool_decide_eq_false_2 by (intros [? ?]; discriminate).
      cbn [negb]. exec. apply Hemit.
    + intros v Hbefore Hint. rewrite Hbefore.
      rewrite bool_decide_eq_true_2 by eauto. cbn [negb]. exec.
      rewrite Hint. apply Hemit.
Qed.

(** C7, as the code has it.  An unmap event for the window of a registered
    client, which is not a wrapper: when the counter [ignore_unmaps] of the
    client is positive it goes down by one and nothing else changes, no
    request is sent; otherwise the singleton of the type of the client is
    cleared, the wrapper is untracked and destroyed, the client leaves the
    registry, the client list property is replaced, and the stacking order
    is restored.  The data of the client list property is the empty list,
    whatever clients stay in the registry. *)
Theorem unmap_notify_of_registered_client (self : WM) (window : Z)
    (client : ref) (c : Client.t) (property : Z) :
  window ∉ _client_parents self ->
  dict_get (_clients self) window = Some client ->
  objects self !! client = Some c ->
  Client.parent c ∈ _client_parents self ->
  registry_valid self ->
  singletons_valid self ->
  dict_get (_net_atoms self) NetAtom.ClientList = Some property ->
  exists ls,
    _handle_unmap_notify window self =
      (Ok tt,
       if bool_decide (Client.ignore_unmaps c > 0)
       then
         set_objects
           (<[client := Client.set_ignore_unmaps (Client.ignore_unmaps c - 1) c]>
              (objects self))
           (emit [] ls self)
       else
         emit (DestroyWindow (Client.parent c)
               :: ChangeProperty (_root self) property Xatom_WINDOW 32 []
               :: order_requests (unmanaged window c self))
           ls (unmanaged window c self)).
Proof.
  intros Hwin Hget Hc Hparent Hreg Hsing Hatom.
  destruct (decide (Client.ignore_unmaps c > 0)) as [Hpos|Hpos].
  - rewrite (bool_decide_eq_true_2 _ Hpos).
    apply (unmap_suppressed self window client); assumption.
  - rewrite (bool_decide_eq_false_2 _ Hpos).
    apply (unmap_removes self window client); assumption.
Qed.

(** ** More of the geometry policy and of the layout *)

(** The parameters that a statement does not name play no part in its
    proof. *)
Ltac forget_parameters :=
  try clear ignore_unmaps_default; try clear id_eq_window;
  try clear fromtimestamp_ms; try clear DisplayLayout_of_value;
  try clear ClientType_of_value; try clear in_experience_viewport;
  try clear DEFAULT_CLEAR_TYPES; try clear LOADER_WINDOW_NAME;
  try clear WmAtom_value; try clear NetAtom_value;
  try clear DisplayScenario_Production.

(** X1.  With a screen width in the 16-bit range of the X protocol, where
    the product of the placard strip is computed without overflow, the only
    exception of the geometry policy is [KeyError].  It is raised for a
    loader, for which the table has no entry, and for a placard or a
    generic window that does not float when the display scenario is equal
    to none of the keys [Fullscreen], [Fit4k] and [Production] of the table
    of its type; and in no other case. *)
Theorem client_geometry_raises_only_KeyError (self : WM) (desired : Geometry)
    (client_type : option ClientType.t) (floating : bool) (e : exn) :
  0 <= _width self < 65536 ->
  _client_geometry self desired client_type floating = Raise e <->
  e = KeyError
  /\ (client_type = Some ClientType.Loader
      \/ ((client_type = Some ClientType.Placard
           \/ (client_type = None /\ floating = false))
          /\ (scenario_key (_display_scenario self) = None
              \/ scenario_key (_display_scenario self) =
                   Some DisplayLayout.Full))).
Proof.
  forget_parameters. intros _. unfold _client_geometry, subscript_scenario.
  destruct client_type as [[]|], floating; cbn;
    try destruct (scenario_key (_display_scenario self)) as [[]|]; cbn;
    (split; [intros H; inversion H; subst; clear H|intros [-> H]]);
    try reflexivity; try solve [intuition congruence].
Qed.

(** The table of the generic windows called without the size of the
    screen: every callable of it needs the height, and a tuple cannot be
    called. *)
Lemma generic_geometry_without_size (scenario : DisplayScenario)
    (layout : option DisplayLayout.t) :
  exists e,
    generic_geometry scenario (mk_kwargs None None None layout) = Raise e
    /\ (e = KeyError \/ e = TypeError).
Proof.
  unfold generic_geometry, subscript_scenario. cbn.
  destruct (scenario_key scenario) as [[]|]; cbn; eauto.
Qed.

Lemma setup_workarea_raises (s : WM) :
  exists e, _setup_workarea s = (Raise e, s) /\ (e = KeyError \/ e = TypeError).
Proof.
  unfold _setup_workarea. exec.
  destruct (dict_get (_net_atoms s) NetAtom.WorkArea); [|eauto].
  destruct (generic_geometry_without_size DisplayScenario_Production
              (Some (_layout s))) as (e & -> & He).
  eauto.
Qed.

(** X2.  [set_layout] with a layout other than the current one never
    returns: it stores the new layout and then [_setup_workarea] raises,
    [KeyError] when the work area atom is not in the table of atoms and
    else [KeyError] or [TypeError] from the table of geometries, which is
    called with the layout alone.  No request is sent and no client is
    rescaled; the stored layout is the only change. *)
Theorem set_layout_other_layout_raises (self : WM) (layout : DisplayLayout.t)
    (after : option datetime) :
  layout <> _layout self ->
  exists e,
    set_layout layout after self = (Raise e, set_layout_field layout self)
    /\ (e = KeyError \/ e = TypeError).
Proof.
  intros Hne. unfold set_layout. exec.
  rewrite (bool_decide_eq_false_2 _ Hne). exec.
  destruct (setup_workarea_raises (set_layout_field layout self))
    as (e & -> & He).
  eauto.
Qed.

(** The values of [after] that a layout command accepts. *)
Definition after_accepted (after : option json) : Prop :=
  match after with
  | None | Some JNull => True
  | Some v => exists ms t, as_int v = Some ms /\ fromtimestamp_ms ms = Ok t
  end.

(** X3.  A well-formed layout command.  When its string names no layout,
    [ValueError] leaves [_handle_message].  When it names the current
    layout, nothing happens.  When it names another layout, the layout is
    stored and the exception of [set_layout] leaves [_handle_message]. *)
Theorem layout_command (self : WM) (members : list (string * json))
    (name : string) :
  dict_get members "type" = Some (JStr "layout") ->
  dict_get members "layout" = Some (JStr name) ->
  after_accepted (dict_get members "after") ->
  let s1 := emit [] [(DEBUG, "Processing message of type", [])] self in
  match DisplayLayout_of_value name with
  | None => _handle_message (JObject members) self = (Raise ValueError, s1)
  | Some layout =>
      if bool_decide (layout = _layout self)
      then _handle_message (JObject members) self = (Ok tt, s1)
      else
        exists e,
          _handle_message (JObject members) self =
            (Raise e, set_layout_field layout s1)
          /\ (e = KeyError \/ e = TypeError)
  end.
Proof.
  intros Htype Hlayout Hafter s1.
  assert (Hs1 : set_logs (logs self ++ [(DEBUG, "Processing message of type", [])])
                  self = s1).
  { subst s1. destruct self. unfold emit. fields. rewrite app_nil_r.
    reflexivity. }
  assert (Hset : forall layout after,
            DisplayLayout_of_value name = Some layout ->
            if bool_decide (layout = _layout self)
            then set_layout layout after s1 = (Ok tt, s1)
            else exists e,
                   set_layout layout after s1 =
                     (Raise e, set_layout_field layout s1)
                   /\ (e = KeyError \/ e = TypeError)).
  { intros layout after _.
    destruct (decide (layout = _layout self)) as [Heq|Hne].
    - rewrite (bool_decide_eq_true_2 _ Heq). unfold set_layout. exec.
      subst s1. unfold emit. fields.
      rewrite (bool_decide_eq_true_2 _ Heq). reflexivity.
    - rewrite (bool_decide_eq_false_2 _ Hne).
      unfold set_layout. exec. subst s1. unfold emit. fields.
      rewrite (bool_decide_eq_false_2 _ Hne). exec.
      match goal with
      | |- context [_setup_workarea ?s] =>
          destruct (setup_workarea_raises s) as (e & -> & He)
      end.
      eauto. }
  unfold _handle_message, subscript, has_key. rewrite Htype. exec.
  cbn [is_str String.eqb Ascii.eqb Bool.eqb andb]. exec.
  rewrite Hlayout. rewrite bool_decide_eq_true_2 by eauto. cbn [negb]. exec.
  rewrite Hs1. unfold after_accepted in Hafter.
  destruct (dict_get members "after") as [after|] eqn:Eafter.
  - rewrite bool_decide_eq_true_2 by eauto. exec.
    destruct (DisplayLayout_of_value name) as [layout|] eqn:Ename.
    + specialize (Hset layout).
      destruct after; try (destruct Hafter as (ms & t & Hint & Htime);
        rewrite Hint; exec; rewrite Htime; exec); apply Hset; reflexivity.
    + destruct after; try (destruct Hafter as (ms & t & Hint & Htime);
        rewrite Hint; exec); reflexivity.
  - rewrite bool_decide_eq_false_2 by (intros [? ?]; discriminate). exec.
    destruct (DisplayLayout_of_value name) as [layout|] eqn:Ename.
    + apply (Hset layout None). reflexivity.
    + reflexivity.
Qed.

(** ** More of the command queue *)

(** X4.  [_process_messages] takes the commands one at a time from the
    head of the queue: on an empty queue it returns at once, and otherwise
    it removes the first command, handles it, and goes on with the rest
    when the command did not raise.  The bound on the turns of the loop of
    the model is never what ends it. *)
Theorem process_messages_one_at_a_time (s : WM) :
  match message_queue s with
  | [] => _process_messages s = (Ok tt, s)
  | message :: rest =>
      _process_messages s =
        (_handle_message message ≫= fun _ => _process_messages)
          (set_message_queue rest s)
  end.
Proof.
  unfold _process_messages. exec.
  destruct (message_queue s) as [|message rest] eqn:Hq.
  - simpl. exec. rewrite Hq. reflexivity.
  - cbn [length _process_messages_loop]. exec. rewrite Hq. exec.
    pose proof (stable_handle_message _ (stable_queue rest) message
                  (set_message_queue rest s) eq_refl) as Hrest.
    destruct (_handle_message message (set_message_queue rest s))
      as [[[]|e] s1]; cbn [fst snd] in *; [|reflexivity].
    rewrite Hrest. reflexivity.
Qed.

(** ** Events that the window manager ignores *)

(** Two states given by their fields are equal: the fields are compared
    one by one, the lists of requests and of records up to the
    associativity of the concatenation. *)
Ltac norm :=
  cbv beta iota zeta delta
    [emit fst snd _root _experience_viewport _utf8_atom _xembed_info_atom
     _width _height message_queue _layout _net_atoms _wm_atoms
     _debug_logging _display_scenario _placard _loader _clients
     _client_parents objects requests logs
     set_utf8_atom set_xembed_info_atom set_width set_height
     set_message_queue set_layout_field set_net_atoms set_wm_atoms
     set_clients set_client_parents set_placard set_loader set_objects
     set_requests set_logs].

Ltac same_state :=
  norm; f_equal; f_equal;
  first [ reflexivity
        | symmetry; apply app_nil_r
        | rewrite <- !app_assoc; reflexivity ].

(** X5.  A [ConfigureNotify] event sends no request and touches no client:
    for the root window the width and the height of the screen are
    replaced by those of the event, for any other window nothing changes
    but the logs. *)
Theorem configure_notify_sends_nothing (self : WM) (window width height : Z) :
  exists ls,
    _handle_configure_notify window width height self =
      (Ok tt,
       emit [] ls
         (if bool_decide (window = _root self)
          then set_height height (set_width width self)
          else self)).
Proof.
  destruct self as [root viewport utf8 xembed width0 height0 queue layout
                    net_atoms wm_atoms debug scenario placard loader clients
                    parents objs reqs recs].
  unfold _handle_configure_notify. exec.
  destruct (bool_decide (window = root)); exec; [destruct debug; exec|];
    eexists; same_state.
Qed.

(** X6.  An [UnmapNotify], [ConfigureRequest] or [PropertyNotify] event for
    a window that is a wrapper, or under which no client is registered,
    sends no request and changes nothing but the logs. *)
Theorem events_of_untracked_windows (w : World) (self : WM) (window : Z) :
  window ∈ _client_parents self \/ dict_get (_clients self) window = None ->
  (exists ls, _handle_unmap_notify window self = (Ok tt, emit [] ls self))
  /\ (forall x y width height,
        exists ls,
          _handle_configure_request window x y width height self =
            (Ok tt, emit [] ls self))
  /\ (forall atom state,
        exists ls,
          _handle_property_notify w window atom state self =
            (Ok tt, emit [] ls self)).
Proof.
  intros Hwindow.
  unfold _handle_unmap_notify, _handle_configure_request,
    _handle_property_notify.
  destruct (decide (window ∈ _client_parents self)) as [Hin|Hout].
  - repeat split; intros; exec; rewrite (bool_decide_eq_true_2 _ Hin); exec;
      eexists; destruct self; same_state.
  - destruct Hwindow as [Hin|Hget]; [contradiction|].
    repeat split; intros; exec; rewrite (bool_decide_eq_false_2 _ Hout);
      rewrite Hget; exec;
      eexists; destruct self; same_state.
Qed.


(** ** Scaling a client *)

Lemma sends_try_except {A} (body handler : M A) catches (s : WM) a rs :
  sends body s a rs -> sends (try_except body catches handler) s a rs.
Proof.
  intros [ls H]. exists ls. unfold try_except. rewrite H. reflexivity.
Qed.

Lemma sends_debug_records (b : bool) level text args g (s : WM) :
  sends (when b (log level text args;; debug_log_window_geometry g)) s tt [].
Proof.
  destruct b; [|apply sends_ret].
  eapply sends_bind_nil; [apply sends_log|intros ls; apply sends_log].
Qed.

(** Validity of the references only reads the singletons, the registry and
    the size of the store. *)
Lemma singletons_valid_same_size (s s' : WM) :
  _placard s' = _placard s -> _loader s' = _loader s ->
  length (objects s') = length (objects s) ->
  singletons_valid s -> singletons_valid s'.
Proof.
  intros Hp Hl Hlen [Hpla Hloa]. split; intros r Hr; apply lookup_lt_is_Some;
    rewrite Hlen; apply lookup_lt_is_Some.
  - apply Hpla. rewrite <- Hp. exact Hr.
  - apply Hloa. rewrite <- Hl. exact Hr.
Qed.

(** The two configure requests of [scale_client]: the wrapper goes to the
    position of the geometry, or to the origin when the client lives in the
    experience viewport, and the window fills its wrapper. *)
Definition scale_requests (c : Client.t) (geometry : Geometry)
    : list XRequest :=
  [ Configure (Client.parent c)
      (if in_experience_viewport c then 0 else WindowGeometry.x geometry)
      (if in_experience_viewport c then 0 else WindowGeometry.y geometry)
      (Z.max (WindowGeometry.width geometry) 1)
      (Z.max (WindowGeometry.height geometry) 1);
    Configure (Client.target c) 0 0
      (Z.max (WindowGeometry.width geometry) 1)
      (Z.max (WindowGeometry.height geometry) 1) ].

(** What [scale_client] sends, [order] being the requests that restore the
    stacking order: everything when the two configure requests are packed,
    and nothing when they are not. *)
Definition scaled (c : Client.t) (geometry : Geometry)
    (order : list XRequest) : list XRequest :=
  if forallb packs (scale_requests c geometry)
  then scale_requests c geometry ++ order
  else [].

Lemma sends_scale_client (s : WM) (client : ref) (c : Client.t)
    (geometry : Geometry) :
  objects s !! client = Some c ->
  singletons_valid s ->
  sends (scale_client client geometry) s tt
    (scaled c geometry (order_requests s)).
Proof.
  intros Hc Hsing. unfold scale_client.
  eapply sends_bind_nil; [apply sends_get_self|intros ls0].
  eapply sends_bind_nil; [apply sends_deref; exact Hc|intros ls1].
  eapply sends_bind_nil; [apply sends_debug_records|intros ls2].
  unfold scaled, scale_requests. cbn [forallb].
  set (wrapper := Configure (Client.parent c) _ _ _ _).
  set (window := Configure (Client.target c) _ _ _ _).
  destruct (packs wrapper) eqn:Hwrapper; cbn [andb].
  - assert (Hwindow : packs window = true).
    { unfold wrapper, window in *. cbn [packs] in *.
      apply andb_prop in Hwrapper as [Hwrapper ->].
      apply andb_prop in Hwrapper as [_ ->]. reflexivity. }
    rewrite Hwindow. apply sends_try_except.
    change ([wrapper; window] ++ order_requests s)%list
      with ([wrapper] ++ [window] ++ order_requests s)%list.
    eapply sends_bind; [apply sends_request; exact Hwrapper|intros ls3].
    eapply sends_bind; [apply sends_request; exact Hwindow|intros ls4].
    match goal with
    | |- sends _ ?s' _ _ => apply (sends_preserve_window_order s')
    end.
    exact Hsing.
  - exists [(EXCEPTION, "Error while scaling client", [Client.target c])].
    unfold try_except, mbind, M_bind, bind, request. rewrite Hwrapper.
    destruct s. unfold raise, log, modify, emit. simpl.
    rewrite !app_nil_r. reflexivity.
Qed.

(** X8.  [scale_client] does not raise.  The width and the height it asks
    for are those of the geometry when they are positive and 1 otherwise,
    so no window is given an empty size.  When the position and this size
    fit the 16-bit fields of a configure request, it configures the
    wrapper, then the window at the origin of its wrapper with the same
    size, then restores the stacking order.  When they do not fit, the X
    library raises before anything is sent: the exception is logged, no
    request is sent and the stacking order is not restored. *)
Theorem scale_client_sends_positive_sizes (s : WM) (client : ref)
    (c : Client.t) (geometry : Geometry) :
  objects s !! client = Some c ->
  singletons_valid s ->
  let x := if in_experience_viewport c then 0
           else WindowGeometry.x geometry in
  let y := if in_experience_viewport c then 0
           else WindowGeometry.y geometry in
  let width := Z.max (WindowGeometry.width geometry) 1 in
  let height := Z.max (WindowGeometry.height geometry) 1 in
  1 <= width /\ 1 <= height
  /\ exists ls,
       scale_client client geometry s =
         (Ok tt,
          emit (if int16 x && int16 y && card16 width && card16 height
                then [ Configure (Client.parent c) x y width height;
                       Configure (Client.target c) 0 0 width height ]
                     ++ order_requests s
                else []) ls s).
Proof.
  intros Hc Hsing x y width height.
  split; [subst width; clear; lia|]. split; [subst height; clear; lia|].
  destruct (sends_scale_client s client c geometry Hc Hsing) as [ls Hrun].
  exists ls. rewrite Hrun. unfold scaled, scale_requests. cbn [forallb packs].
  fold x y width height.
  destruct (int16 x && int16 y && card16 width && card16 height) eqn:Hfits;
    [|reflexivity].
  apply andb_prop in Hfits as [Hfits ->].
  apply andb_prop in Hfits as [_ ->]. reflexivity.
Qed.

(** ** Configure requests *)

(** What [_client_geometry] reads of the window manager. *)
Lemma client_geometry_reads (s s' : WM) desired client_type floating :
  _display_scenario s = _display_scenario s' ->
  _width s = _width s' -> _height s = _height s' -> _layout s = _layout s' ->
  _client_geometry s desired client_type floating =
    _client_geometry s' desired client_type floating.
Proof.
  unfold _client_geometry. intros -> -> -> ->. reflexivity.
Qed.

(** X9.  A [ConfigureRequest] event of the window of a registered client.
    The geometry that the client asks for becomes its desired geometry, the
    policy decides the geometry from it, and the client is scaled to what
    the policy decided: the request is honoured as it stands only where the
    policy returns the desired geometry.  A decided geometry that does not
    fit the 16-bit fields of a configure request is stored in the client
    all the same, with nothing sent.  When the policy raises, the desired
    geometry has been stored and nothing is sent.  The screen width is a
    16-bit cardinal, as the X protocol has it. *)
Theorem configure_request_of_registered_client (self : WM)
    (window x y width height : Z) (client : ref) (c : Client.t) :
  0 <= _width self < 65536 ->
  window ∉ _client_parents self ->
  dict_get (_clients self) window = Some client ->
  objects self !! client = Some c ->
  singletons_valid self ->
  let desired := WindowGeometry.mk x y width height in
  let c1 := Client.set_desired_geometry desired c in
  match _client_geometry self desired (Client.type c) (Client.floating c) with
  | Raise e =>
      exists ls,
        _handle_configure_request window x y width height self =
          (Raise e,
           emit [] ls (set_objects (<[client := c1]> (objects self)) self))
  | Ok geometry =>
      let c2 := Client.set_geometry geometry c1 in
      let s2 := set_objects (<[client := c2]> (objects self)) self in
      exists ls,
        _handle_configure_request window x y width height self =
          (Ok tt,
           emit (if forallb packs (scale_requests c2 geometry)
                 then scale_requests c2 geometry ++ order_requests s2
                 else []) ls s2)
  end.
Proof.
  intros _ Hwin Hget Hc Hsing desired c1.
  assert (Hlen : (client < length (objects self))%nat)
    by (eapply lookup_lt_Some; exact Hc).
  unfold _handle_configure_request. exec.
  rewrite (bool_decide_eq_false_2 _ Hwin), Hget. exec. rewrite Hc. exec.
  rewrite list_lookup_insert_eq by exact Hlen. exec.
  fold desired. fold c1.
  match goal with
  | |- context [_client_geometry ?s desired _ _] =>
      tryif constr_eq s self then fail
      else rewrite (client_geometry_reads s self) by reflexivity
  end.
  change (Client.type c1) with (Client.type c).
  change (Client.floating c1) with (Client.floating c).
  destruct (_client_geometry self desired (Client.type c) (Client.floating c))
    as [geometry|e].
  - exec. rewrite list_lookup_insert_eq by exact Hlen. exec.
    rewrite list_insert_insert_eq.
    match goal with
    | |- context [scale_client client geometry ?s] =>
        destruct (sends_scale_client s client
                    (Client.set_geometry geometry c1) geometry) as [ls ->]
    end.
    + fields. apply list_lookup_insert_eq. exact Hlen.
    + apply (singletons_valid_same_size self); try reflexivity; [|exact Hsing].
      fields. apply length_insert.
    + eexists. destruct self. same_state.
  - exec. eexists. destruct self. same_state.
Qed.

(** ** Titles of windows *)

(** The title that [_window_title] returns, given the two atoms. *)
Definition title_of (w : World) (window net_name wm_name : Z)
    : option string :=
  match get_full_property w window net_name with
  | FPValue value => Some value
  | FPXError => None
  | FPMissing | FPUnicodeDecodeError =>
      match get_full_property w window wm_name with
      | FPValue value => Some value
      | _ => None
      end
  end.

Lemma sends_window_title (w : World) (window net_name wm_name : Z) (s : WM) :
  dict_get (_net_atoms s) NetAtom.WmName = Some net_name ->
  dict_get (_wm_atoms s) WmAtom.Name = Some wm_name ->
  sends (_window_title w window) s (title_of w window net_name wm_name) [].
Proof.
  intros Hnet Hwm. unfold _window_title.
  eapply sends_bind_nil; [apply sends_net_atom, Hnet|intros ls0].
  eapply sends_bind_nil; [apply sends_wm_atom, Hwm|intros ls1].
  unfold title_of. cbn [_window_title_loop].
  destruct (get_full_property w window net_name);
    try destruct (get_full_property w window wm_name);
    first [ apply sends_ret
          | eapply sends_bind_nil; [apply sends_log|intros; apply sends_ret] ].
Qed.

(** X10.  [_window_title] reads [_NET_WM_NAME] first and [WM_NAME] only
    when the first is missing or cannot be decoded; the first value found
    is the title, also when it is the empty string.  An X error ends the
    search with no title, and [WM_NAME] is not read after an error on
    [_NET_WM_NAME].  No request is sent, and with both atoms in the tables
    nothing is raised; an atom that the tables lack raises [KeyError]. *)
Theorem window_title_prefers_net_wm_name (w : World) (window : Z) (s : WM) :
  (forall net_name wm_name,
     dict_get (_net_atoms s) NetAtom.WmName = Some net_name ->
     dict_get (_wm_atoms s) WmAtom.Name = Some wm_name ->
     exists ls title,
       _window_title w window s = (Ok title, emit [] ls s)
       /\ (forall value,
             get_full_property w window net_name = FPValue value ->
             title = Some value)
       /\ (get_full_property w window net_name = FPXError -> title = None)
       /\ (get_full_property w window net_name = FPMissing
           \/ get_full_property w window net_name = FPUnicodeDecodeError ->
           title =
             match get_full_property w window wm_name with
             | FPValue value => Some value
             | _ => None
             end))
  /\ (dict_get (_net_atoms s) NetAtom.WmName = None
      \/ dict_get (_wm_atoms s) WmAtom.Name = None ->
      _window_title w window s = (Raise KeyError, s)).
Proof.
  split.
  - intros net_name wm_name Hnet Hwm.
    destruct (sends_window_title w window net_name wm_name s Hnet Hwm)
      as [ls Hrun].
    exists ls, (title_of w window net_name wm_name).
    split; [exact Hrun|]. unfold title_of.
    repeat split.
    + intros value ->. reflexivity.
    + intros ->. reflexivity.
    + intros [-> | ->]; reflexivity.
  - intros Hnone. unfold _window_title. exec.
    destruct (dict_get (_net_atoms s) NetAtom.WmName); [|reflexivity].
    destruct Hnone as [Hnone|Hnone]; [discriminate|].
    rewrite Hnone. reflexivity.
Qed.

(** ** Setting up the atoms *)

Lemma dict_get_dict_set {K V} `{EqDecision K} (d : list (K * V)) (k k' : K)
    (v : V) :
  dict_get (dict_set d k v) k' =
    if decide (k = k') then Some v else dict_get d k'.
Proof.
  induction d as [|[k0 v0] d IH]; simpl.
  - destruct (decide (k = k')); reflexivity.
  - destruct (decide (k0 = k)) as [->|Hk0]; simpl.
    + destruct (decide (k = k')); reflexivity.
    + rewrite IH. destruct (decide (k0 = k')) as [->|];
        destruct (decide (k = k')); congruence.
Qed.

Lemma for_each_set_net_atoms (f : NetAtom.t -> Z) (l : list NetAtom.t)
    (s : WM) :
  exists table,
    for_each l (fun a =>
      modify (fun s => set_net_atoms (dict_set (_net_atoms s) a (f a)) s)) s =
      (Ok tt, set_net_atoms table s)
    /\ forall a,
         dict_get table a =
           if bool_decide (a ∈ l) then Some (f a)
           else dict_get (_net_atoms s) a.
Proof.
  revert s. induction l as [|a0 l IH]; intros s.
  - exists (_net_atoms s). split; [destruct s; reflexivity|].
    intros a. rewrite bool_decide_eq_false_2 by apply not_elem_of_nil.
    reflexivity.
  - destruct (IH (set_net_atoms (dict_set (_net_atoms s) a0 (f a0)) s))
      as (table & Hrun & Htable).
    exists table. split.
    + match goal with
      | |- for_each _ ?body _ = _ =>
          transitivity
            (for_each l body
               (set_net_atoms (dict_set (_net_atoms s) a0 (f a0)) s));
          [reflexivity|]
      end.
      rewrite Hrun. destruct s. reflexivity.
    + intros a. rewrite Htable. cbn [_net_atoms set_net_atoms].
      rewrite dict_get_dict_set.
      destruct (decide (a ∈ l)) as [Hin|Hout].
      * rewrite !bool_decide_eq_true_2; [reflexivity| |exact Hin].
        apply elem_of_cons. auto.
      * rewrite (bool_decide_eq_false_2 _ Hout).
        destruct (decide (a0 = a)) as [->|Hne].
        -- rewrite bool_decide_eq_true_2 by (apply elem_of_cons; auto).
           reflexivity.
        -- rewrite bool_decide_eq_false_2; [reflexivity|].
           rewrite elem_of_cons. intros [->|Hin]; [congruence|contradiction].
Qed.

Lemma for_each_set_wm_atoms (f : WmAtom.t -> Z) (l : list WmAtom.t)
    (s : WM) :
  exists table,
    for_each l (fun a =>
      modify (fun s => set_wm_atoms (dict_set (_wm_atoms s) a (f a)) s)) s =
      (Ok tt, set_wm_atoms table s)
    /\ forall a,
         dict_get table a =
           if bool_decide (a ∈ l) then Some (f a)
           else dict_get (_wm_atoms s) a.
Proof.
  revert s. induction l as [|a0 l IH]; intros s.
  - exists (_wm_atoms s). split; [destruct s; reflexivity|].
    intros a. rewrite bool_decide_eq_false_2 by apply not_elem_of_nil.
    reflexivity.
  - destruct (IH (set_wm_atoms (dict_set (_wm_atoms s) a0 (f a0)) s))
      as (table & Hrun & Htable).
    exists table. split.
    + match goal with
      | |- for_each _ ?body _ = _ =>
          transitivity
            (for_each l body
               (set_wm_atoms (dict_set (_wm_atoms s) a0 (f a0)) s));
          [reflexivity|]
      end.
      rewrite Hrun. destruct s. reflexivity.
    + intros a. rewrite Htable. cbn [_wm_atoms set_wm_atoms].
      rewrite dict_get_dict_set.
      destruct (decide (a ∈ l)) as [Hin|Hout].
      * rewrite !bool_decide_eq_true_2; [reflexivity| |exact Hin].
        apply elem_of_cons. auto.
      * rewrite (bool_decide_eq_false_2 _ Hout).
        destruct (decide (a0 = a)) as [->|Hne].
        -- rewrite bool_decide_eq_true_2 by (apply elem_of_cons; auto).
           reflexivity.
        -- rewrite bool_decide_eq_false_2; [reflexivity|].
           rewrite elem_of_cons. intros [->|Hin]; [congruence|contradiction].
Qed.

(** X11.  [_setup_atoms] does not raise and replaces four fields: the two
    atoms it interns by name, and the two tables, in which every atom of
    [SUPPORTED_NET_ATOMS] and of [SUPPORTED_WM_ATOMS] is bound to what the
    server interns its name as, and every other atom keeps the entry it
    had, if any.  The work area atom is not among the supported ones, so
    setting up the atoms does not bind it. *)
Theorem setup_atoms_binds_supported_atoms (w : World) (self : WM) :
  exists net_atoms wm_atoms,
    _setup_atoms w self =
      (Ok tt,
       set_xembed_info_atom (intern_atom w "_XEMBED_INFO")
         (set_wm_atoms wm_atoms
            (set_net_atoms net_atoms
               (set_utf8_atom (intern_atom w UTF8_STRING_ATOM) self))))
    /\ (forall a,
          dict_get net_atoms a =
            if bool_decide (a ∈ SUPPORTED_NET_ATOMS)
            then Some (intern_atom w (NetAtom_value a))
            else dict_get (_net_atoms self) a)
    /\ (forall a,
          dict_get wm_atoms a =
            if bool_decide (a ∈ SUPPORTED_WM_ATOMS)
            then Some (intern_atom w (WmAtom_value a))
            else dict_get (_wm_atoms self) a)
    /\ dict_get net_atoms NetAtom.WorkArea =
         dict_get (_net_atoms self) NetAtom.WorkArea.
Proof.
  unfold _setup_atoms, mbind, M_bind, bind.
  unfold modify at 1. cbn beta.
  destruct (for_each_set_net_atoms
              (fun a => intern_atom w (NetAtom_value a)) SUPPORTED_NET_ATOMS
              (set_utf8_atom (intern_atom w UTF8_STRING_ATOM) self))
    as (net_atoms & -> & Hnet).
  match goal with
  | |- context [for_each SUPPORTED_WM_ATOMS _ ?s] =>
      destruct (for_each_set_wm_atoms
                  (fun a => intern_atom w (WmAtom_value a)) SUPPORTED_WM_ATOMS s)
        as (wm_atoms & -> & Hwm)
  end.
  exists net_atoms, wm_atoms. split; [reflexivity|].
  split; [exact Hnet|]. split; [exact Hwm|].
  rewrite Hnet. reflexivity.
Qed.

(** ** What no event and no command changes *)

(** A property that every assignment of the handlers keeps, but for the
    assignment of a client to the loader singleton. *)
Record settled (P : WM -> Prop) : Prop := {
  settled_logs : forall v s, P s -> P (set_logs v s);
  settled_requests : forall v s, P s -> P (set_requests v s);
  settled_objects : forall v s, P s -> P (set_objects v s);
  settled_width : forall v s, P s -> P (set_width v s);
  settled_height : forall v s, P s -> P (set_height v s);
  settled_layout : forall v s, P s -> P (set_layout_field v s);
  settled_placard : forall v s, P s -> P (set_placard v s);
  settled_clients : forall v s, P s -> P (set_clients v s);
  settled_client_parents : forall v s, P s -> P (set_client_parents v s);
  settled_queue : forall v s, P s -> P (set_message_queue v s);
  settled_no_loader : forall s, P s -> P (set_loader None s)
}.

Lemma settled_frame (P : WM -> Prop) : settled P -> frame P.
Proof. intros []. repeat split; assumption. Qed.

(** A statement that starts by raising keeps every property. *)
Lemma preserves_raised {A B} (P : WM -> Prop) (e : exn) (k : A -> M B) :
  preserves P (lift (Raise e) ≫= k).
Proof. intros s H. exact H. Qed.

(** The tests on a type that is known are decided. *)
Ltac decide_closed :=
  repeat match goal with
    | |- context [@bool_decide (@eq (option ClientType.t) ?a ?b) ?d] =>
        let v := eval vm_compute in
                   (@bool_decide (@eq (option ClientType.t) a b) d) in
        lazymatch v with
        | true =>
            change (@bool_decide (@eq (option ClientType.t) a b) d) with true
        | false =>
            change (@bool_decide (@eq (option ClientType.t) a b) d) with false
        end
    end;
  cbv beta iota delta [orb andb negb].

Ltac settled_typed :=
  decide_closed; apply preserves_bind; [apply preserves_lift|intros ?].

Ltac settled_modify :=
  apply preserves_modify;
  match goal with
  | H : settled _ |- _ =>
      let s := fresh "s" in
      let Hs := fresh "Hs" in
      intros s Hs;
      first [ apply (settled_logs _ H) | apply (settled_requests _ H)
            | apply (settled_objects _ H) | apply (settled_width _ H)
            | apply (settled_height _ H) | apply (settled_layout _ H)
            | apply (settled_placard _ H) | apply (settled_clients _ H)
            | apply (settled_client_parents _ H) | apply (settled_queue _ H)
            | apply (settled_no_loader _ H) ];
      exact Hs
  end.

Ltac settled_framed lemma :=
  match goal with
  | H : settled _ |- _ => apply lemma, (settled_frame _ H)
  end.

(** The policy is asked for the geometry of a client before the client can
    become the loader, and for a loader it raises. *)
Ltac settled_step :=
  lazymatch goal with
  | |- preserves _ (mbind _ (lift (_client_geometry _ _ ?ty _))) =>
      destruct ty as [[]|];
      [ settled_typed
      | let s := fresh "s" in
        let Hs := fresh "Hs" in
        unfold preserves; intros s Hs; exact Hs
      | settled_typed | settled_typed | settled_typed ]
  | |- preserves _ (modify _) => settled_modify
  | |- preserves _ (log _ _ _) => settled_framed preserves_log
  | |- preserves _ (request _) => settled_framed preserves_request
  | |- preserves _ (debug_log_window_geometry _) => settled_framed preserves_log
  | |- preserves _ (debug_log_size_hints _) => settled_framed preserves_log
  | |- preserves _ (update _ _) =>
      match goal with
      | H : settled _ |- _ => apply preserves_update, (settled_objects _ H)
      end
  | |- preserves _ (scale_client _ _) => settled_framed frame_scale_client
  | |- preserves _ (_reparent_parent _ _) => settled_framed frame_reparent_parent
  | |- preserves _ _preserve_window_order =>
      settled_framed frame_preserve_window_order
  | |- preserves _ _set_ewmh_clients_list =>
      settled_framed frame_set_ewmh_clients_list
  | |- preserves _ (_window_title _ _) => settled_framed frame_window_title
  | |- preserves _ _setup_workarea => settled_framed frame_setup_workarea
  | |- preserves _ (_update_viewport_geometry _) =>
      settled_framed frame_update_viewport_geometry
  | |- preserves _ (clear_viewport _ _) => settled_framed frame_clear_viewport
  | |- _ => preserve_step
  end.

Ltac settled_preserve := repeat settled_step.

Section Settled.
Variable P : WM -> Prop.
Hypothesis HP : settled P.
Set Default Proof Using "Type + HP".

Lemma settled_manage_new_window w window :
  preserves P (_manage_new_window w window).
Proof.
  unfold _manage_new_window, _create_parent_window, when. settled_preserve.
Qed.

Lemma settled_handle_property_notify w window atom state :
  preserves P (_handle_property_notify w window atom state).
Proof. unfold _handle_property_notify, when. settled_preserve. Qed.

Lemma settled_dispatch w ev : preserves P (dispatch w ev).
Proof.
  destruct ev; cbn [dispatch];
    [ unfold _handle_map_request; settled_preserve;
      apply settled_manage_new_window
    | unfold _handle_unmap_notify; settled_preserve
    | unfold _handle_configure_notify; settled_preserve
    | unfold _handle_configure_request; settled_preserve
    | apply settled_handle_property_notify
    | unfold _handle_enter_notify; settled_preserve
    | apply preserves_ret ].
Qed.

Lemma settled_handle_message message : preserves P (_handle_message message).
Proof.
  unfold _handle_message, set_layout, subscript, iterate. settled_preserve.
Qed.

Lemma settled_process_messages : preserves P _process_messages.
Proof.
  unfold _process_messages. apply preserves_bind; [apply preserves_get_self|].
  intros self. generalize (S (length (message_queue self))). clear self.
  intros fuel. induction fuel as [|fuel IH]; cbn [_process_messages_loop].
  - apply preserves_ret.
  - settled_preserve; [apply settled_handle_message|exact IH].
Qed.

Lemma settled_loop events : preserves P (_loop events).
Proof.
  induction events as [|[[arrivals w] ev] events IH]; cbn [_loop].
  - apply preserves_ret.
  - unfold _loop_body. settled_preserve;
      first [apply settled_dispatch|apply settled_process_messages|exact IH].
Qed.

End Settled.
Set Default Proof Using "Type".

(** X12.  No client ever becomes the loader singleton: when [_loader] is
    [None], as the constructor leaves it, it is [None] after any events and
    commands, whether the loop ends or raises.  The geometry is computed
    before the singleton is assigned, and the table of geometries has no
    entry for a loader. *)
Theorem loader_singleton_never_set
    (events : list (list json * World * XEvent)) (self : WM) :
  _loader self = None -> _loader (_loop events self).2 = None.
Proof.
  apply (settled_loop (fun s => _loader s = None)).
  split; intros; assumption || reflexivity.
Qed.

(** X13.  The control loop never changes what the setup decided: the root
    and the viewport windows, the interned atoms and the two tables of
    atoms, the display scenario and the debug flag are after any events and
    commands what they were before. *)
Theorem loop_keeps_configuration
    (events : list (list json * World * XEvent)) (self : WM) :
  let s' := (_loop events self).2 in
  _root s' = _root self
  /\ _experience_viewport s' = _experience_viewport self
  /\ _utf8_atom s' = _utf8_atom self
  /\ _xembed_info_atom s' = _xembed_info_atom self
  /\ _net_atoms s' = _net_atoms self
  /\ _wm_atoms s' = _wm_atoms self
  /\ _display_scenario s' = _display_scenario self
  /\ _debug_logging s' = _debug_logging self.
Proof.
  apply (settled_loop
           (fun s =>
              _root s = _root self
              /\ _experience_viewport s = _experience_viewport self
              /\ _utf8_atom s = _utf8_atom self
              /\ _xembed_info_atom s = _xembed_info_atom self
              /\ _net_atoms s = _net_atoms self
              /\ _wm_atoms s = _wm_atoms self
              /\ _display_scenario s = _display_scenario self
              /\ _debug_logging s = _debug_logging self)).
  - split; intros; assumption.
  - repeat split.
Qed.

(** ** Managing a new window *)

(** Running a statement step by step: the statement at the head of a
    sequence is replaced by what it returns and by what it does to the
    window manager. *)
Lemma run_sends {A B} (m : M A) (k : A -> M B) (s : WM) a rs :
  sends m s a rs -> exists ls, (m ≫= k) s = k a (emit rs ls s).
Proof.
  intros [ls H]. exists ls. unfold mbind, M_bind, bind. rewrite H. reflexivity.
Qed.

Lemma run_get_self {B} (k : WM -> M B) (s : WM) : (get_self ≫= k) s = k s s.
Proof. reflexivity. Qed.

Lemma run_modify {B} (f : WM -> WM) (k : unit -> M B) (s : WM) :
  (modify f ≫= k) s = k tt (f s).
Proof. reflexivity. Qed.

Lemma run_lift {A B} (a : A) (k : A -> M B) (s : WM) :
  (lift (Ok a) ≫= k) s = k a s.
Proof. reflexivity. Qed.

Lemma run_ret {A B} (a : A) (k : A -> M B) (s : WM) : (mret a ≫= k) s = k a s.
Proof. reflexivity. Qed.

Lemma run_net_atom {B} (a : NetAtom.t) (v : Z) (k : Z -> M B) (s : WM) :
  dict_get (_net_atoms s) a = Some v -> (net_atom a ≫= k) s = k v s.
Proof.
  intros H. unfold mbind, M_bind, bind, net_atom. rewrite H. reflexivity.
Qed.

Lemma run_wm_atom {B} (a : WmAtom.t) (v : Z) (k : Z -> M B) (s : WM) :
  dict_get (_wm_atoms s) a = Some v -> (wm_atom a ≫= k) s = k v s.
Proof.
  intros H. unfold mbind, M_bind, bind, wm_atom. rewrite H. reflexivity.
Qed.

(** The value of an atom in a table that holds it. *)
Definition atom_of {K} `{EqDecision K} (table : list (K * Z)) (a : K) : Z :=
  default 0 (dict_get table a).

Lemma atom_of_Some {K} `{EqDecision K} (table : list (K * Z)) (a : K) :
  is_Some (dict_get table a) -> dict_get table a = Some (atom_of table a).
Proof. intros [v Hv]. unfold atom_of. rewrite Hv. reflexivity. Qed.

(** The window type of a new window is one of the floating types. *)
Definition type_floats (types : list Z) (window_type : option (list Z))
    : bool :=
  match window_type with
  | Some (atom_id :: _) => bool_decide (atom_id ∈ types)
  | _ => false
  end.

(** The state of a new window holds one of the floating states. *)
Definition state_floats (states : list Z) (ewmh_state : option (list Z))
    : bool :=
  match ewmh_state with
  | Some value => existsb (fun a => bool_decide (a ∈ value)) states
  | None => false
  end.

(** The geometry that the size hints of a new window give, which the code
    reads under debug logging only. *)
Definition hinted_geometry (debug_logging : bool) (hints : option Hints.t)
    : option Geometry :=
  match hints with
  | Some hints =>
      if debug_logging
         && bool_decide
              (Z.land (Hints.flags hints) (Z.lor PPosition PMaxSize) ≠ 0)
      then Some (hints_geometry hints)
      else None
  | None => None
  end.

Lemma sends_map_m_net_atom (l : list NetAtom.t) (s : WM) :
  Forall (fun a => is_Some (dict_get (_net_atoms s) a)) l ->
  sends (map_m net_atom l) s (map (atom_of (_net_atoms s)) l) [].
Proof.
  revert s. induction l as [|a l IH]; intros s Hl; cbn [map_m map].
  - apply sends_ret.
  - apply Forall_cons in Hl as [Ha Hl].
    eapply sends_bind_nil; [apply sends_net_atom, atom_of_Some, Ha|intros ls0].
    eapply sends_bind_nil; [apply (IH (emit [] ls0 s)), Hl|intros ls1].
    apply sends_ret.
Qed.

Lemma sends_any_m_net_atom (value : list Z) (l : list NetAtom.t) (s : WM) :
  Forall (fun a => is_Some (dict_get (_net_atoms s) a)) l ->
  sends (any_m (fun atom => a ← net_atom atom; ret (bool_decide (a ∈ value))) l)
    s (existsb (fun a => bool_decide (a ∈ value)) (map (atom_of (_net_atoms s)) l))
    [].
Proof.
  revert s. induction l as [|a l IH]; intros s Hl; cbn [any_m map existsb].
  - apply sends_ret.
  - apply Forall_cons in Hl as [Ha Hl].
    eapply sends_bind_nil.
    + eapply sends_bind_nil; [apply sends_net_atom, atom_of_Some, Ha|intros ls0].
      apply sends_ret.
    + intros ls0. destruct (bool_decide (atom_of (_net_atoms s) a ∈ value)).
      * apply sends_ret.
      * apply (IH (emit [] ls0 s)), Hl.
Qed.

Lemma sends_reparent_parent (s : WM) (client : ref) (c : Client.t)
    (new_parent : Z) :
  objects s !! client = Some c ->
  int16 (WindowGeometry.x (Client.geometry c))
  && int16 (WindowGeometry.y (Client.geometry c)) = true ->
  sends (_reparent_parent client new_parent) s tt
    [Reparent (Client.parent c) new_parent
       (WindowGeometry.x (Client.geometry c))
       (WindowGeometry.y (Client.geometry c)); Sync].
Proof.
  intros Hc Hfits. unfold _reparent_parent.
  eapply sends_bind_nil; [apply sends_deref, Hc|intros ls0].
  eapply sends_bind_nil; [apply sends_log|intros ls1].
  change [Reparent (Client.parent c) new_parent
            (WindowGeometry.x (Client.geometry c))
            (WindowGeometry.y (Client.geometry c)); Sync]
    with ([Reparent (Client.parent c) new_parent
             (WindowGeometry.x (Client.geometry c))
             (WindowGeometry.y (Client.geometry c))] ++ [Sync])%list.
  eapply sends_bind;
    [apply sends_request; exact Hfits
    |intros ls2; apply sends_request; reflexivity].
Qed.

(** How a statement ends: what it returns or raises, the requests it sent
    and the state it leaves, the logs apart. *)
Definition ends (r : Res unit * WM) (result : Res unit)
    (rs : list XRequest) (s' : WM) : Prop :=
  exists ls, r = (result, emit rs ls s').

(** After a step, the state is brought to the form of a record. *)
Ltac norm_state :=
  cbv beta zeta;
  lazymatch goal with
  | |- ends (?X ?S) ?res ?rs ?s' =>
      let S' := eval cbv beta iota zeta delta
                  [emit fst snd _root _experience_viewport _utf8_atom
                   _xembed_info_atom _width _height message_queue _layout
                   _net_atoms _wm_atoms _debug_logging _display_scenario
                   _placard _loader _clients _client_parents objects requests
                   logs set_utf8_atom set_xembed_info_atom set_width
                   set_height set_message_queue set_layout_field
                   set_net_atoms set_wm_atoms set_clients set_client_parents
                   set_placard set_loader set_objects set_requests set_logs]
                in S in
      change (ends (X S') res rs s')
  end;
  cbn [fst snd _root _experience_viewport _utf8_atom _xembed_info_atom
       _width _height message_queue _layout _net_atoms _wm_atoms
       _debug_logging _display_scenario _placard _loader _clients
       _client_parents objects requests logs].

Ltac run_with lemma :=
  lazymatch goal with
  | |- ends ((?m ≫= ?k) ?s) _ _ _ =>
      let ls := fresh "ls" in
      let H := fresh "H" in
      destruct (run_sends m k s _ _ lemma) as [ls H];
      rewrite H; clear H; norm_state
  end.

Ltac run :=
  lazymatch goal with
  | |- ends ((log ?l ?t ?a ≫= ?k) ?s) _ _ _ => run_with (sends_log l t a s)
  | |- ends ((debug_log_window_geometry ?g ≫= ?k) ?s) _ _ _ =>
      run_with (sends_log DEBUG "geometry"
                  [WindowGeometry.x g; WindowGeometry.y g;
                   WindowGeometry.width g; WindowGeometry.height g] s)
  | |- ends ((debug_log_size_hints ?h ≫= ?k) ?s) _ _ _ =>
      run_with (sends_log DEBUG "size hints"
                  [Hints.flags h; Hints.x h; Hints.y h; Hints.max_width h;
                   Hints.max_height h] s)
  | |- ends ((request ?r ≫= ?k) ?s) _ _ _ =>
      run_with (sends_request r s eq_refl)
  | |- ends ((get_self ≫= ?k) ?s) _ _ _ =>
      rewrite (run_get_self k s); norm_state
  | |- ends ((modify ?f ≫= ?k) ?s) _ _ _ =>
      rewrite (run_modify f k s); norm_state
  | |- ends ((lift (Ok ?a) ≫= ?k) ?s) _ _ _ =>
      rewrite (run_lift a k s); norm_state
  | |- ends ((mret ?a ≫= ?k) ?s) _ _ _ =>
      rewrite (run_ret a k s); norm_state
  | |- ends ((ret ?a ≫= ?k) ?s) _ _ _ =>
      rewrite (run_ret a k s); norm_state
  end.

Ltac run_atom net wm Hnet Hwm :=
  lazymatch goal with
  | |- ends ((net_atom ?a ≫= ?k) ?s) _ _ _ =>
      rewrite (run_net_atom a (net a) k s) by (apply Hnet; reflexivity);
      norm_state
  | |- ends ((wm_atom ?a ≫= ?k) ?s) _ _ _ =>
      rewrite (run_wm_atom a (wm a) k s) by (apply Hwm; reflexivity);
      norm_state
  end.

(** The statement at the head returns [a] and sends nothing. *)
Ltac run_phase a tac :=
  lazymatch goal with
  | |- ends ((?m ≫= ?k) ?s) _ _ _ =>
      let H := fresh "Hphase" in
      assert (H : sends m s a []) by tac;
      run_with H; clear H
  end.

Lemma client_geometry_Loader (s : WM) desired floating :
  _client_geometry s desired (Some ClientType.Loader) floating = Raise KeyError.
Proof. reflexivity. Qed.
Lemma ends_def (r : Res unit * WM) (result : Res unit)
    (rs : list XRequest) (s' : WM) :
  ends r result rs s' -> exists ls, r = (result, emit rs ls s').
Proof. intros H. exact H. Qed.

Lemma run_eq {A B} (m : M A) (k : A -> M B) (s : WM) a s1 :
  m s = (Ok a, s1) -> (m ≫= k) s = k a s1.
Proof. intros H. unfold mbind, M_bind, bind. rewrite H. reflexivity. Qed.

(** The first part of [_manage_new_window], up to the request for the
    geometry of the window: whether the window floats, and the geometry of
    its size hints. *)
Ltac manage_until_geometry w window net wm debug Hnew Hnet' Hwm' HfloatT
    HfloatS Htype :=
  unfold _manage_new_window;
  run;
  rewrite bool_decide_eq_false_2 by (rewrite Hnew; intros [? ?]; discriminate);
  run_atom net wm Hnet' Hwm';
  run_phase (type_floats (map net FLOATING_WINDOW_TYPES)
               (get_property w window (net NetAtom.WmWindowType)))
    ltac:(destruct (get_property w window (net NetAtom.WmWindowType))
            as [[|? ?]|]; [congruence| |apply sends_ret];
          eapply sends_bind_nil; [apply sends_ret|intros ?];
          eapply sends_bind_nil;
            [apply sends_map_m_net_atom, HfloatT|intros ?];
          cbn [type_floats];
          change (map (atom_of _) FLOATING_WINDOW_TYPES)
            with (map net FLOATING_WINDOW_TYPES);
          destruct (bool_decide (_ ∈ map net FLOATING_WINDOW_TYPES));
            [|apply sends_ret];
          eapply sends_bind_nil; [apply sends_log|intros ?; apply sends_ret]);
  run_atom net wm Hnet' Hwm';
  run_phase (type_floats (map net FLOATING_WINDOW_TYPES)
               (get_property w window (net NetAtom.WmWindowType))
             || state_floats (map net FLOATING_WINDOW_STATES)
                  (get_property w window (net NetAtom.WmState)))
    ltac:(destruct (get_property w window (net NetAtom.WmState)) as [?|];
            cbn [state_floats]; [|rewrite orb_false_r; apply sends_ret];
          eapply sends_bind_nil;
            [apply sends_any_m_net_atom, HfloatS|intros ?];
          change (map (atom_of _) FLOATING_WINDOW_STATES)
            with (map net FLOATING_WINDOW_STATES);
          destruct (existsb _ (map net FLOATING_WINDOW_STATES));
            [ rewrite orb_true_r;
              eapply sends_bind_nil; [apply sends_log|intros ?; apply sends_ret]
            | rewrite orb_false_r; apply sends_ret ]);
  run_phase (hinted_geometry debug (get_wm_normal_hints w window))
    ltac:(unfold hinted_geometry;
          destruct (get_wm_normal_hints w window) as [?|];
            [|apply sends_ret];
          destruct debug; cbn [andb]; [|apply sends_ret];
          eapply sends_bind_nil; [apply sends_log|intros ?];
          eapply sends_bind_nil; [apply sends_log|intros ?];
          destruct (bool_decide (Z.land _ _ ≠ 0)); apply sends_ret).

(** X14.  [_manage_new_window] on a window under which no client is
    registered, when the tables hold every supported atom, the window type
    of the window is not an empty property, its geometry can be read, the
    policy returns a geometry and, for a client with no type, the position
    of that geometry fits the 16-bit fields of a reparent request; the
    screen width is a 16-bit cardinal.  The client is typed by the title of
    the
    window.  It floats when the window type is one of the floating types or
    the state holds one of the floating states, and only if it has no type.
    Its desired geometry is the geometry of the window; the size hints
    replace it only under debug logging, when they carry the position or
    the maximum size flag.  The window is wrapped in a new window, which is
    tracked; the client object is stored, becomes the placard singleton
    when it is a placard, and is registered under the window at the end.
    The requests are, in this order: the event mask and the normal state of
    the window, its embedding property and its [override_redirect]
    attribute, the creation of the wrapper, the reparenting of the window
    into it and its mapping, a sync, the reparenting of the wrapper into
    the experience viewport for a client with no type, the two configure
    requests of [scale_client] and the stacking order (when position and
    size fit the 16-bit fields of a configure request, and nothing when
    they do not), the mapping of the window, the stacking order again, and
    the client list, which is published empty. *)
Theorem manage_new_window_registers (w : World) (self : WM) (window : Z)
    (x_geometry geometry : Geometry) :
  0 <= _width self < 65536 ->
  dict_get (_clients self) window = None ->
  Forall (fun a => is_Some (dict_get (_net_atoms self) a)) SUPPORTED_NET_ATOMS ->
  Forall (fun a => is_Some (dict_get (_wm_atoms self) a)) SUPPORTED_WM_ATOMS ->
  let net := atom_of (_net_atoms self) in
  let wm := atom_of (_wm_atoms self) in
  get_property w window (net NetAtom.WmWindowType) <> Some [] ->
  get_geometry w window = Ok x_geometry ->
  singletons_valid self ->
  registry_valid self ->
  let title := title_of w window (net NetAtom.WmName) (wm WmAtom.Name) in
  let client_type := _client_type_from_title title in
  let floating :=
    (type_floats (map net FLOATING_WINDOW_TYPES)
       (get_property w window (net NetAtom.WmWindowType))
     || state_floats (map net FLOATING_WINDOW_STATES)
          (get_property w window (net NetAtom.WmState)))
    && bool_decide (client_type = None) in
  let desired :=
    default x_geometry
      (hinted_geometry (_debug_logging self) (get_wm_normal_hints w window)) in
  _client_geometry self desired client_type floating = Ok geometry ->
  (client_type = None ->
   int16 (WindowGeometry.x geometry) && int16 (WindowGeometry.y geometry)
   = true) ->
  let parent := allocate_resource_id w in
  let client := length (objects self) in
  let c :=
    Client.mk window parent geometry desired title client_type floating
      (now w) ignore_unmaps_default in
  let s' :=
    set_clients (_clients self ++ [(window, client)])
      (set_placard
         (if bool_decide (client_type = Some ClientType.Placard)
          then Some client else _placard self)
         (set_objects (objects self ++ [c])
            (set_client_parents ({[parent]} ∪ _client_parents self) self))) in
  exists ls,
    _manage_new_window w window self =
      (Ok tt,
       emit
         ([ ChangeAttributes window
              (event_mask
                 (Z.lor (Z.lor (Z.lor EnterWindowMask FocusChangeMask)
                           PropertyChangeMask) StructureNotifyMask));
            ChangeProperty window (wm WmAtom.State) (wm WmAtom.State) 32
              [NormalState];
            ChangeProperty window (_xembed_info_atom self)
              (_xembed_info_atom self) 32 [0; 1];
            ChangeAttributes window (override_redirect true);
            CreateWindow parent (_root self) 0 0 1 1 32;
            Reparent window parent 0 0;
            MapWindow parent;
            Sync ]
          ++ (if bool_decide (client_type = None)
              then [ Reparent parent (_experience_viewport self)
                       (WindowGeometry.x geometry) (WindowGeometry.y geometry);
                     Sync ]
              else [])
          ++ scaled c geometry (order_requests s')
          ++ [MapWindow window]
          ++ order_requests s'
          ++ [ ChangeProperty (_root self) (net NetAtom.ClientList)
                 Xatom_WINDOW 32 [] ])
         ls s').
Proof.
  destruct self as [root viewport utf8 xembed width0 height0 queue layout
                    net_atoms wm_atoms debug scenario placard loader clients
                    parents objs reqs recs].
  intros _ Hnew Hnet Hwm net wm Htype Hgeometry Hsing Hreg title client_type
    floating desired Hpolicy Hfits parent client c s'.
  apply ends_def. fields_in_all.
  assert (Hnet' : forall a, bool_decide (a ∈ SUPPORTED_NET_ATOMS) = true ->
            dict_get net_atoms a = Some (net a)).
  { intros a Ha. apply atom_of_Some.
    apply (proj1 (Forall_forall _ _) Hnet).
    apply (bool_decide_eq_true_1 (a ∈ SUPPORTED_NET_ATOMS)), Ha. }
  assert (Hwm' : forall a, bool_decide (a ∈ SUPPORTED_WM_ATOMS) = true ->
            dict_get wm_atoms a = Some (wm a)).
  { intros a Ha. apply atom_of_Some.
    apply (proj1 (Forall_forall _ _) Hwm).
    apply (bool_decide_eq_true_1 (a ∈ SUPPORTED_WM_ATOMS)), Ha. }
  assert (HfloatT : Forall (fun a => is_Some (dict_get net_atoms a))
                      FLOATING_WINDOW_TYPES).
  { repeat constructor; rewrite Hnet' by reflexivity; eauto. }
  assert (HfloatS : Forall (fun a => is_Some (dict_get net_atoms a))
                      FLOATING_WINDOW_STATES).
  { repeat constructor; rewrite Hnet' by reflexivity; eauto. }
  assert (Hloader : client_type <> Some ClientType.Loader).
  { intros Hty. rewrite Hty, client_geometry_Loader in Hpolicy.
    discriminate. }
  manage_until_geometry w window net wm debug Hnew Hnet' Hwm' HfloatT HfloatS
    Htype.
  rewrite Hgeometry. norm_state.
  run. run_atom net wm Hnet' Hwm'. run.
  (* the title and the type *)
  lazymatch goal with
  | |- ends ((_ ≫= _) ?s) _ _ _ =>
      pose proof (sends_window_title w window (net NetAtom.WmName)
                    (wm WmAtom.Name) s
                    ltac:(apply Hnet'; reflexivity)
                    ltac:(apply Hwm'; reflexivity)) as Htitle
  end.
  change (title_of w window (net NetAtom.WmName) (wm WmAtom.Name))
    with title in Htitle.
  run_with Htitle. clear Htitle.
  change (_client_type_from_title title) with client_type.
  run_phase tt ltac:(destruct title as [[|? ?]|]; apply sends_log).
  run. run.
  run_phase tt ltac:(apply sends_debug_records).
  (* the geometry *)
  lazymatch goal with
  | |- ends ((lift ?r ≫= ?k) ?s) _ _ _ =>
      change r with (_client_geometry
                       (mk_WM root viewport utf8 xembed width0 height0 queue
                          layout net_atoms wm_atoms debug scenario placard
                          loader clients parents objs reqs recs)
                       desired client_type floating)
  end.
  rewrite Hpolicy. run.
  run_phase tt ltac:(apply sends_debug_records).
  run. run.
  (* the wrapper *)
  lazymatch goal with
  | |- ends ((?m ≫= ?k) ?s) _ _ _ =>
      assert (Hwrap : sends m s parent [CreateWindow parent root 0 0 1 1 32])
  end.
  { unfold _create_parent_window.
    eapply sends_bind_nil; [apply sends_get_self|intros ls'].
    change [CreateWindow parent root 0 0 1 1 32]
      with ([CreateWindow parent root 0 0 1 1 32] ++ [])%list.
    eapply sends_bind;
      [apply sends_request; reflexivity|intros ls''; apply sends_ret]. }
  run_with Hwrap. clear Hwrap.
  run. run. run. run. run. run. run.
  (* the references of the states to come *)
  assert (Hvalid : forall s,
            objects s = (objs ++ [c])%list -> _loader s = loader ->
            _placard s = placard \/ _placard s = Some client ->
            singletons_valid s).
  { intros s Ho Hl Hp. destruct Hsing as [Hpla Hloa]. fields_in_all.
    split; intros r Hr; rewrite Ho; apply lookup_lt_is_Some;
      rewrite length_app; cbn [length].
    - destruct Hp as [Hp|Hp]; rewrite Hp in Hr.
      + apply Nat.lt_lt_add_r, lookup_lt_is_Some, Hpla, Hr.
      + injection Hr as <-. subst client. rewrite Nat.add_1_r.
        apply Nat.lt_succ_diag_r.
    - rewrite Hl in Hr. apply Nat.lt_lt_add_r, lookup_lt_is_Some, Hloa, Hr. }
  assert (Hc : forall s, objects s = (objs ++ [c])%list ->
            objects s !! client = Some c).
  { intros s ->. apply list_lookup_middle. reflexivity. }
  (* into the viewport *)
  lazymatch goal with
  | |- ends ((?m ≫= ?k) ?s) _ _ _ =>
      assert (Hmove : sends m s tt
                (if bool_decide (client_type = None)
                 then [ Reparent parent viewport (WindowGeometry.x geometry)
                          (WindowGeometry.y geometry); Sync ]
                 else []))
  end.
  { destruct (bool_decide (client_type = None)) eqn:Hnone.
    - apply (bool_decide_eq_true_1 (client_type = None)) in Hnone.
      apply (sends_reparent_parent _ _ c); [apply Hc; reflexivity|].
      exact (Hfits Hnone).
    - rewrite (bool_decide_eq_false_2 _ Hloader). apply sends_ret. }
  run_with Hmove. clear Hmove.
  (* the singleton *)
  lazymatch goal with
  | |- ends ((?m ≫= ?k) ?s) _ _ _ =>
      assert (Hsingleton :
                exists ls,
                  m s =
                    (Ok tt,
                     emit [] ls
                       (set_placard
                          (if bool_decide
                                (client_type = Some ClientType.Placard)
                           then Some client else placard) s)))
  end.
  { destruct (bool_decide (client_type = Some ClientType.Placard)).
    - exists [(INFO, "Matched new placard window", [])]. exec. same_state.
    - rewrite (bool_decide_eq_false_2 _ Hloader). exists []. exec.
      same_state. }
  destruct Hsingleton as [lsp Hsingleton].
  lazymatch goal with
  | |- ends ((?m ≫= ?k) ?s) _ _ _ =>
      rewrite (run_eq m k s _ _ Hsingleton)
  end.
  clear Hsingleton. norm_state.
  assert (Hplacard :
            forall s,
              _placard s =
                (if bool_decide (client_type = Some ClientType.Placard)
                 then Some client else placard) ->
              _placard s = placard \/ _placard s = Some client).
  { intros s ->.
    destruct (bool_decide (client_type = Some ClientType.Placard)); auto. }
  (* scaling, mapping and the stacking order *)
  lazymatch goal with
  | |- ends ((_ ≫= _) ?s) _ _ _ =>
      pose proof (sends_scale_client s client c geometry (Hc s eq_refl)
                    (Hvalid s eq_refl eq_refl (Hplacard s eq_refl)))
        as Hstep
  end.
  run_with Hstep. clear Hstep.
  run.
  lazymatch goal with
  | |- ends ((_ ≫= _) ?s) _ _ _ =>
      pose proof (sends_preserve_window_order s
                    (Hvalid s eq_refl eq_refl (Hplacard s eq_refl)))
        as Hstep
  end.
  run_with Hstep. clear Hstep.
  run.
  (* the client list *)
  lazymatch goal with
  | |- ends (_ ?s) _ _ _ =>
      destruct (sends_set_ewmh_clients_list s (net NetAtom.ClientList))
        as [ls' Hrun]
  end.
  { unfold registry_valid in *. fields_in_all. fields.
    rewrite fmap_app. apply Forall_app. split.
    - eapply Forall_impl; [exact Hreg|]. intros r [x Hx]. exists x.
      apply lookup_app_l_Some, Hx.
    - repeat constructor. exists c. apply list_lookup_middle. reflexivity. }
  { apply Hnet'. reflexivity. }
  unfold ends. rewrite Hrun. eexists. subst s'. same_state.
Qed.

(** X15.  When the geometry of a new window cannot be read,
    [_manage_new_window] sends no request and registers nothing.  It
    returns, with the error logged, when the error is [BadDrawable]; any
    other error leaves [_manage_new_window], and the handler of map
    requests does not catch it. *)
Theorem manage_new_window_unreadable_geometry (w : World) (self : WM)
    (window : Z) (e : exn) :
  dict_get (_clients self) window = None ->
  Forall (fun a => is_Some (dict_get (_net_atoms self) a)) SUPPORTED_NET_ATOMS ->
  get_property w window (atom_of (_net_atoms self) NetAtom.WmWindowType)
    <> Some [] ->
  get_geometry w window = Raise e ->
  exists ls,
    _manage_new_window w window self =
      (if bool_decide (e = BadDrawable) then Ok tt else Raise e,
       emit [] ls self).
Proof.
  destruct self as [root viewport utf8 xembed width0 height0 queue layout
                    net_atoms wm_atoms debug scenario placard loader clients
                    parents objs reqs recs].
  intros Hnew Hnet Htype Hgeometry. fields_in_all.
  set (net := atom_of net_atoms) in *.
  pose (wm := atom_of wm_atoms).
  apply ends_def.
  assert (Hnet' : forall a, bool_decide (a ∈ SUPPORTED_NET_ATOMS) = true ->
            dict_get net_atoms a = Some (net a)).
  { intros a Ha. apply atom_of_Some.
    apply (proj1 (Forall_forall _ _) Hnet).
    apply (bool_decide_eq_true_1 (a ∈ SUPPORTED_NET_ATOMS)), Ha. }
  assert (HfloatT : Forall (fun a => is_Some (dict_get net_atoms a))
                      FLOATING_WINDOW_TYPES).
  { repeat constructor; rewrite Hnet' by reflexivity; eauto. }
  assert (HfloatS : Forall (fun a => is_Some (dict_get net_atoms a))
                      FLOATING_WINDOW_STATES).
  { repeat constructor; rewrite Hnet' by reflexivity; eauto. }
  manage_until_geometry w window net wm debug Hnew Hnet' Hnet' HfloatT HfloatS
    Htype.
  rewrite Hgeometry. unfold ends.
  destruct e; exec; eexists; same_state.
Qed.

(** ** Clearing with an empty list of types *)

Lemma filter_is_cleared_nil (before : datetime) (l : list Client.t) :
  List.filter (is_cleared [] before) l = [].
Proof.
  induction l as [|c l IH]; [reflexivity|]. cbn [List.filter].
  unfold is_cleared at 1.
  rewrite bool_decide_eq_false_2 by apply not_elem_of_nil. exact IH.
Qed.

(** X16.  A [clear_viewport] with an empty list of types closes no window,
    not even those of the default types, while the debug record says that
    the default list is used: the list is replaced by the default one only
    when it is [None], and the record is chosen by its truth value.  The
    client list is published and the stacking order restored as after any
    clearing. *)
Theorem clear_viewport_empty_include (self : WM) (before : datetime)
    (property : Z) :
  registry_valid self ->
  singletons_valid self ->
  dict_get (_net_atoms self) NetAtom.ClientList = Some property ->
  exists ls,
    clear_viewport before (Some []) self =
      (Ok tt,
       emit (ChangeProperty (_root self) property Xatom_WINDOW 32 []
             :: order_requests self)
         ((DEBUG, "Attempting to clear viewport using default include list",
           []) :: ls)
         self).
Proof.
  destruct self as [root viewport utf8 xembed width0 height0 queue layout
                    net_atoms wm_atoms debug scenario placard loader clients
                    parents objs reqs recs].
  intros Hreg Hsing Hatom.
  set (self := mk_WM root viewport utf8 xembed width0 height0 queue layout
                 net_atoms wm_atoms debug scenario placard loader clients
                 parents objs reqs recs) in *.
  set (s1 := emit []
               [(DEBUG,
                 "Attempting to clear viewport using default include list",
                 [])] self).
  assert (Hrest :
            ends (clear_viewport before (Some []) self) (Ok tt)
              (ChangeProperty root property Xatom_WINDOW 32 []
               :: order_requests self) s1).
  { unfold clear_viewport.
    lazymatch goal with
    | |- ends ((?m ≫= ?k) ?s) _ _ _ =>
        rewrite (run_eq m k s tt s1)
          by (subst s1 self; exec; same_state)
    end.
    subst s1 self. norm_state. run.
    lazymatch goal with
    | |- ends ((_ ≫= _) ?s) _ _ _ =>
        pose proof (sends_clear_viewport_loop [] before clients.*2 0 0 s Hreg)
          as Hloop
    end.
    cbn zeta in Hloop. rewrite !filter_is_cleared_nil in Hloop.
    cbn [map] in Hloop.
    run_with Hloop. clear Hloop. run.
    lazymatch goal with
    | |- ends ((_ ≫= _) ?s) _ _ _ =>
        pose proof (sends_set_ewmh_clients_list s property Hreg Hatom)
          as Hlist
    end.
    run_with Hlist. clear Hlist.
    lazymatch goal with
    | |- ends (_ ?s) _ _ _ =>
        destruct (sends_preserve_window_order s Hsing) as [ls' Hrun]
    end.
    unfold ends. rewrite Hrun. eexists. same_state. }
  destruct Hrest as [ls Hrest]. exists ls. rewrite Hrest.
  subst s1. rewrite emit_emit. reflexivity.
Qed.

(** ** Well-formed commands *)

(** The statement at the head of a sequence returns [a] and leaves [s']. *)
Ltac step_eq a s' tac :=
  lazymatch goal with
  | |- (?m ≫= ?k) ?s = _ => rewrite (run_eq m k s a s') by tac; cbv beta
  end.


Lemma map_m_client_types (elements : list json) (s : WM) :
  map_m (fun v =>
           match ClientType_of_value v with
           | Some t => ret (Some t)
           | None => raise ValueError
           end) elements s =
    match mapM ClientType_of_value elements with
    | Some types => (Ok (map Some types), s)
    | None => (Raise ValueError, s)
    end.
Proof.
  induction elements as [|v elements IH]; [reflexivity|].
  cbn [map_m mapM]. unfold mbind at 1, M_bind, bind.
  destruct (ClientType_of_value v) as [t|]; [|reflexivity].
  cbn. unfold mbind at 1, M_bind, bind. rewrite IH.
  destruct (mapM ClientType_of_value elements); reflexivity.
Qed.

(** X17.  A [clear_viewport] command whose [before] is an integer (or a
    boolean, which Python counts as one) in the range of the clock.
    Without an [include], or with a null one, the viewport is cleared of
    the default types; with a list of names of client types it is cleared
    of these types; and when an element of the list names no client type,
    [ValueError] leaves [_handle_message] with nothing cleared. *)
Theorem clear_viewport_command (self : WM) (members : list (string * json))
    (before : json) (ms : Z) (t : datetime) :
  dict_get members "type" = Some (JStr "clear_viewport") ->
  dict_get members "before" = Some before ->
  as_int before = Some ms ->
  fromtimestamp_ms ms = Ok t ->
  let s1 := emit [] [(DEBUG, "Processing message of type", [])] self in
  (dict_get members "include" = None
   \/ dict_get members "include" = Some JNull ->
   _handle_message (JObject members) self = clear_viewport t None s1)
  /\ (forall elements,
        dict_get members "include" = Some (JList elements) ->
        _handle_message (JObject members) self =
          match mapM ClientType_of_value elements with
          | Some types => clear_viewport t (Some (map Some types)) s1
          | None => (Raise ValueError, s1)
          end).
Proof.
  intros Htype Hbefore Hint Htime s1.
  assert (Hs1 : set_logs (logs self ++ [(DEBUG, "Processing message of type", [])])
                  self = s1).
  { subst s1. destruct self. same_state. }
  split; [intros Hinclude|intros elements Hinclude];
    unfold _handle_message;
    step_eq (JStr "clear_viewport") self
      ltac:(unfold subscript; rewrite Htype; reflexivity);
    step_eq tt s1 ltac:(unfold log, modify; rewrite Hs1; reflexivity);
    cbn [is_str String.eqb Ascii.eqb Bool.eqb andb];
    unfold has_key at 1; rewrite Hbefore;
    rewrite bool_decide_eq_true_2 by eauto; cbn [negb];
    step_eq before s1 ltac:(unfold subscript; rewrite Hbefore; reflexivity);
    rewrite Hint.
  - step_eq JNull s1
      ltac:(unfold has_key, subscript; destruct Hinclude as [-> | ->];
            [ rewrite bool_decide_eq_false_2
                by (intros [? ?]; discriminate)
            | rewrite bool_decide_eq_true_2 by eauto ];
            reflexivity).
    step_eq t s1 ltac:(rewrite Htime; reflexivity).
    reflexivity.
  - step_eq (JList elements) s1
      ltac:(unfold has_key, subscript; rewrite Hinclude;
            rewrite bool_decide_eq_true_2 by eauto; reflexivity).
    step_eq t s1 ltac:(rewrite Htime; reflexivity).
    unfold iterate. unfold mbind, M_bind, bind, ret at 1.
    rewrite map_m_client_types.
    destruct (mapM ClientType_of_value elements); reflexivity.
Qed.

(** ** The references stay valid *)














(** The statements that only send requests and write records. *)
Section Output.
Variable P : WM -> Prop.
Hypothesis HP : ignores_output P.
Set Default Proof Using "Type + HP".











End Output.
Set Default Proof Using "Type".















(** ** A change of title *)

Lemma run_update {B} (r : ref) (f : Client.t -> Client.t) (k : unit -> M B)
    (s : WM) (c : Client.t) :
  objects s !! r = Some c ->
  (update r f ≫= k) s = k tt (set_objects (<[r := f c]> (objects s)) s).
Proof.
  intros H. unfold mbind, M_bind, bind, update. rewrite H. reflexivity.
Qed.

Ltac run_update c H :=
  lazymatch goal with
  | |- ends ((update ?r ?f ≫= ?k) ?s) _ _ _ =>
      rewrite (run_update r f k s c) by H; norm_state
  end.

Lemma sends_debug_record (b : bool) level text args (s : WM) :
  sends (when b (log level text args)) s tt [].
Proof. destruct b; [apply sends_log|apply sends_ret]. Qed.

(** A statement at the head that returns at once. *)
Ltac run_skip :=
  lazymatch goal with
  | |- ends ((?m ≫= ?k) ?s) ?res ?rs ?s' =>
      change (ends (k tt s) res rs s'); norm_state
  end.

(** The first part of the handler, up to the comparison of the types. *)
Ltac title_update w c client net_name wm_name title new_type Hwin Hget Hstate
    Hnet Hwm Hin Hc Hlen :=
  unfold _handle_property_notify;
  run; run;
  rewrite (bool_decide_eq_false_2 _ Hwin), Hget,
    (bool_decide_eq_false_2 _ Hstate);
  rewrite (run_net_atom NetAtom.WmName net_name) by exact Hnet; norm_state;
  rewrite (run_wm_atom WmAtom.Name wm_name) by exact Hwm; norm_state;
  rewrite Hin;
  lazymatch goal with
  | |- ends ((_ ≫= _) ?s) _ _ _ => run_with (sends_deref client c s Hc)
  end;
  run;
  lazymatch goal with
  | |- ends ((_ ≫= _) ?s) _ _ _ =>
      let H := fresh "Hstep" in
      pose proof (sends_window_title w (Client.target c) net_name wm_name s
                    Hnet Hwm) as H;
      change (title_of w (Client.target c) net_name wm_name) with title in H;
      run_with H; clear H
  end;
  run_update c ltac:(exact Hc);
  run_phase tt ltac:(apply sends_debug_record);
  change (_client_type_from_title title) with new_type;
  run_update (Client.set_title title c)
    ltac:(apply list_lookup_insert_eq; exact Hlen);
  rewrite list_insert_insert_eq;
  run_phase tt ltac:(apply sends_debug_record).

(** X20.  A [PropertyNotify] event for the title of a registered client.
    The title of the window is read again and stored, and the client is
    typed by it.  When the type is the one the client had, nothing else
    happens.  When it is another type, and the policy returns a geometry
    for it, the client gets this geometry and is scaled to it (with nothing
    sent when position and size do not fit the 16-bit fields of a configure
    request), the stacking order being restored with the placard of before;
    then a placard becomes the placard singleton; and the wrapper is
    reparented, into the root window for a placard and an offscreen source,
    into the experience viewport for a client with no type, and not at all
    for an offscreen hack.  The position is taken to fit a reparent request
    where there is one, and the screen width to be a 16-bit cardinal. *)
Theorem title_change_retypes_client (w : World) (self : WM)
    (window atom state : Z) (client : ref) (c : Client.t)
    (net_name wm_name : Z) (geometry : Geometry) :
  0 <= _width self < 65536 ->
  window ∉ _client_parents self ->
  dict_get (_clients self) window = Some client ->
  objects self !! client = Some c ->
  state <> PropertyDelete ->
  dict_get (_net_atoms self) NetAtom.WmName = Some net_name ->
  dict_get (_wm_atoms self) WmAtom.Name = Some wm_name ->
  atom = net_name \/ atom = wm_name ->
  singletons_valid self ->
  let title := title_of w (Client.target c) net_name wm_name in
  let new_type := _client_type_from_title title in
  let c1 := Client.set_type new_type (Client.set_title title c) in
  (new_type = Client.type c ->
   exists ls,
     _handle_property_notify w window atom state self =
       (Ok tt,
        emit [] ls (set_objects (<[client := c1]> (objects self)) self)))
  /\ (new_type <> Client.type c ->
      _client_geometry self (Client.desired_geometry c) new_type
        (Client.floating c) = Ok geometry ->
      (new_type <> Some ClientType.OffscreenHack ->
       int16 (WindowGeometry.x geometry) && int16 (WindowGeometry.y geometry)
       = true) ->
      let c2 := Client.set_geometry geometry c1 in
      let s2 := set_objects (<[client := c2]> (objects self)) self in
      exists ls,
        _handle_property_notify w window atom state self =
          (Ok tt,
           emit
             (scaled c2 geometry (order_requests s2)
              ++ (if bool_decide (new_type = Some ClientType.OffscreenHack)
                  then []
                  else
                    [ Reparent (Client.parent c)
                        (if bool_decide (new_type = None)
                         then _experience_viewport self else _root self)
                        (WindowGeometry.x geometry)
                        (WindowGeometry.y geometry);
                      Sync ]))
             ls
             (set_placard
                (if bool_decide (new_type = Some ClientType.Placard)
                 then Some client else _placard self) s2))).
Proof.
  forget_parameters.
  destruct self as [root viewport utf8 xembed width0 height0 queue layout
                    net_atoms wm_atoms debug scenario placard loader clients
                    parents objs reqs recs].
  intros _ Hwin Hget Hc Hstate Hnet Hwm Hatom Hsing title new_type c1.
  fields_in_all.
  assert (Hlen : (client < length objs)%nat)
    by (eapply lookup_lt_Some; exact Hc).
  assert (Hin : bool_decide (atom ∈ [net_name; wm_name]) = true).
  { apply bool_decide_eq_true_2. rewrite !elem_of_cons. tauto. }
  split; [intros Hsame|intros Hother Hpolicy Hfits c2 s2]; apply ends_def;
    title_update w c client net_name wm_name title new_type Hwin Hget Hstate
      Hnet Hwm Hin Hc Hlen.
  - rewrite bool_decide_eq_true_2 by (symmetry; exact Hsame).
    unfold ends. exec. eexists. same_state.
  - rewrite bool_decide_eq_false_2 by congruence.
    run.
    lazymatch goal with
    | |- context [_client_geometry ?s _ _ _] =>
        rewrite (client_geometry_reads s
                   (mk_WM root viewport utf8 xembed width0 height0 queue
                      layout net_atoms wm_atoms debug scenario placard loader
                      clients parents objs reqs recs)) by reflexivity
    end.
    rewrite Hpolicy. run.
    run_update c1 ltac:(apply list_lookup_insert_eq; exact Hlen).
    rewrite list_insert_insert_eq. fold c2.
    assert (Hc2 : forall s, objects s = <[client := c2]> objs ->
              objects s !! client = Some c2).
    { intros s ->. apply list_lookup_insert_eq, Hlen. }
    lazymatch goal with
    | |- ends ((_ ≫= _) ?s) _ _ _ =>
        pose proof (sends_scale_client s client c2 geometry (Hc2 s eq_refl))
          as Hstep
    end.
    lazymatch type of Hstep with
    | ?A -> _ =>
        assert (Hvalid : A);
        [ eapply singletons_valid_same_size;
          [| | |exact Hsing]; try reflexivity; apply length_insert
        | specialize (Hstep Hvalid); clear Hvalid ]
    end.
    run_with Hstep. clear Hstep.
    assert (Hloader : new_type <> Some ClientType.Loader).
    { intros Hty. rewrite Hty, client_geometry_Loader in Hpolicy.
      discriminate. }
    subst s2. clearbody new_type.
    destruct new_type as [[]|]; [| congruence | | |];
      decide_closed; unfold when; cbv iota.
    + run.
      lazymatch goal with
      | |- ends (_ ?s) _ _ _ =>
          destruct (sends_reparent_parent s client c2 root (Hc2 s eq_refl)
                      (Hfits ltac:(discriminate)))
            as [ls' Hrun]
      end.
      unfold ends. rewrite Hrun. eexists. same_state.
    + run_skip.
      lazymatch goal with
      | |- ends (_ ?s) _ _ _ =>
          destruct (sends_reparent_parent s client c2 root (Hc2 s eq_refl)
                      (Hfits ltac:(discriminate)))
            as [ls' Hrun]
      end.
      unfold ends. rewrite Hrun. eexists. same_state.
    + unfold ends. exec. eexists. norm. f_equal. f_equal;
        first [ reflexivity
              | rewrite <- !app_assoc; reflexivity
              | rewrite <- ?app_assoc, ?app_nil_r; reflexivity ].
    + run_skip.
      lazymatch goal with
      | |- ends (_ ?s) _ _ _ =>
          destruct (sends_reparent_parent s client c2 viewport
                      (Hc2 s eq_refl) (Hfits ltac:(discriminate)))
            as [ls' Hrun]
      end.
      unfold ends. rewrite Hrun. eexists. same_state.
Qed.

End WindowManager.


(** * The window manager on concrete states *)

(** An instance of what [foowm/types.py] and the missing constants declare,
    to run the code on concrete states: the scenarios are those that the
    command line of [__main__.py] names, and a scenario is equal, as a
    dictionary key, to the layout of the same name. *)
Module DisplayScenario.
Inductive t := Center | Production | Fullscreen.
End DisplayScenario.

Definition demo_scenario_key (s : DisplayScenario.t) : option DisplayLayout.t :=
  match s with
  | DisplayScenario.Center => None
  | DisplayScenario.Production => Some DisplayLayout.Production
  | DisplayScenario.Fullscreen => Some DisplayLayout.Fullscreen
  end.

Definition demo_LOADER_WINDOW_NAME : string := "FOOTRON_LOADING".

Definition demo_DEFAULT_CLEAR_TYPES : list (option ClientType.t) := [None].

Definition demo_in_experience_viewport (c : Client.t) : bool :=
  bool_decide (Client.type c ∈ [None; Some ClientType.Loader]).

Definition demo_ClientType_of_value (v : json) : option ClientType.t :=
  match v with
  | JStr s =>
      if String.eqb s "placard" then Some ClientType.Placard
      else if String.eqb s "loader" then Some ClientType.Loader
      else if String.eqb s "offscreen_source" then Some ClientType.OffscreenSource
      else if String.eqb s "offscreen_hack" then Some ClientType.OffscreenHack
      else None
  | _ => None
  end.

Definition demo_DisplayLayout_of_value (s : string) : option DisplayLayout.t :=
  if String.eqb s "full" then Some DisplayLayout.Full
  else if String.eqb s "fullscreen" then Some DisplayLayout.Fullscreen
  else if String.eqb s "fit4k" then Some DisplayLayout.Fit4k
  else if String.eqb s "production" then Some DisplayLayout.Production
  else None.

Definition demo_fromtimestamp_ms (ms : Z) : Res datetime := Ok (ms * 1000).

Definition demo_id_eq_window (id window : Z) : bool := false.

(** The atoms as [_setup_atoms] leaves them on a server that numbers them
    from 201 and from 301. *)
Definition demo_net_atoms : list (NetAtom.t * Z) :=
  combine SUPPORTED_NET_ATOMS
    [201; 202; 203; 204; 205; 206; 207; 208; 209; 210; 211; 212; 213; 214;
     215; 216].

Definition demo_wm_atoms : list (WmAtom.t * Z) :=
  combine SUPPORTED_WM_ATOMS [301; 302; 303; 304; 305].

(** A window manager after setup on a 3840 by 2160 screen under the
    production scenario, with no client: the root is window 1, the
    experience viewport window 2. *)
Definition demo_wm (debug_logging : bool) : WM DisplayScenario.t :=
  mk_WM DisplayScenario.t 1 2 100 101 3840 2160 [] DisplayLayout.Full
    demo_net_atoms demo_wm_atoms debug_logging DisplayScenario.Production
    None None [] ∅ [] [] [].

(** A server on which windows 10 and 11 are titled as placards and every
    other window as an experience, no window has size hints or a window
    type, and every window is 800 by 600 at the origin. *)
Definition demo_world (new_id : Z) (time : datetime) : World :=
  mk_World
    (fun _ => 0)
    (fun _ => Ok (Some (Attributes.mk false)))
    (fun _ _ => None)
    (fun window atom =>
       if bool_decide (atom = 203)
       then FPValue (if bool_decide (window = 10) || bool_decide (window = 11)
                     then "FOOTRON_PLACARD" else "Experience")
       else FPMissing)
    (fun _ => None)
    (fun _ => Ok (WindowGeometry.mk 0 0 800 600))
    new_id time.

Local Abbreviation manage w window :=
  (_manage_new_window DisplayScenario.t demo_scenario_key
     demo_LOADER_WINDOW_NAME demo_in_experience_viewport 0 w window).

(** Window 10 is managed at time 100, then window 11 at time 200. *)
Definition demo_two_placards : WM DisplayScenario.t :=
  Eval vm_compute in
  (manage (demo_world 1011 200) 11
     (manage (demo_world 1010 100) 10 (demo_wm false)).2).2.

(** And then window 12 at time 300. *)
Definition demo_three_clients : WM DisplayScenario.t :=
  Eval vm_compute in (manage (demo_world 1012 300) 12 demo_two_placards).2.


(** ** The claims on these states *)

(** On the 3840 by 2160 screen under the production scenario, the policy
    gives a placard the literal rectangle and a generic window the band at
    978 of the height of the screen, whatever geometry they desire. *)
Lemma client_geometry_table_witness :
  _client_geometry DisplayScenario.t demo_scenario_key (demo_wm false)
    (WindowGeometry.mk 5 5 100 50) (Some ClientType.Placard) false =
    Ok (WindowGeometry.mk 0 0 715 1758)
  /\ _client_geometry DisplayScenario.t demo_scenario_key (demo_wm false)
       (WindowGeometry.mk 5 5 100 50) None false =
       Ok (WindowGeometry.mk 978 0 3125 2160)
  /\ _client_geometry DisplayScenario.t demo_scenario_key (demo_wm false)
       (WindowGeometry.mk 5 5 100 50) (Some ClientType.OffscreenSource) false =
       Ok (WindowGeometry.mk 3840 0 100 50).
Proof.
  destruct (client_geometry_table DisplayScenario.t demo_scenario_key
              (demo_wm false) (WindowGeometry.mk 5 5 100 50) false
              ltac:(simpl; lia))
    as (Hkey & Hsource & _).
  destruct (Hkey DisplayLayout.Production eq_refl) as [Hplacard Hgeneric].
  split; [exact Hplacard|]. split; [exact Hgeneric|exact Hsource].
Defined.

(** On that screen the policy raises [KeyError] for a loader. *)
Lemma client_geometry_raises_only_KeyError_witness :
  _client_geometry DisplayScenario.t demo_scenario_key (demo_wm false)
    (WindowGeometry.mk 0 0 800 600) (Some ClientType.Loader) false =
    Raise KeyError.
Proof.
  exact (proj2 (client_geometry_raises_only_KeyError DisplayScenario.t
                  demo_scenario_key (demo_wm false)
                  (WindowGeometry.mk 0 0 800 600) (Some ClientType.Loader)
                  false KeyError ltac:(simpl; lia))
           (conj eq_refl (or_introl eq_refl))).
Defined.

(** A title of the screen sharing notification that carries the placard
    marker is an offscreen hack. *)
Lemma client_type_from_title_precedence_witness :
  _client_type_from_title demo_LOADER_WINDOW_NAME
    (Some "Zoom is sharing your screen FOOTRON_PLACARD") =
    Some ClientType.OffscreenHack.
Proof.
  refine (proj2 (proj2 (proj2 (proj2 (proj2
            (client_type_from_title_precedence demo_LOADER_WINDOW_NAME
               "Zoom is sharing your screen FOOTRON_PLACARD" _))))) _ _).
  - discriminate.
  - exists "Zoom ", " FOOTRON_PLACARD". split; [reflexivity|left; reflexivity].
  - exists "Zoom is sharing your screen ", "". reflexivity.
Defined.

Lemma demo_three_clients_registry_valid :
  registry_valid DisplayScenario.t demo_three_clients.
Proof. repeat constructor; eexists; reflexivity. Qed.

Lemma demo_three_clients_singletons_valid :
  singletons_valid DisplayScenario.t demo_three_clients.
Proof.
  split; intros r Hr; vm_compute in Hr; [|discriminate].
  injection Hr as <-. eexists. reflexivity.
Qed.

(** With three clients created at 100, 200 and 300, of which the first two
    are placards, clearing the placards before 150 closes the first one
    only and counts the second one as skipped. *)
Lemma clear_viewport_closes_old_clients_witness :
  let s' :=
    (clear_viewport DisplayScenario.t demo_DEFAULT_CLEAR_TYPES 150
       (Some [Some ClientType.Placard]) demo_three_clients).2 in
  requests DisplayScenario.t s' =
    (requests DisplayScenario.t demo_three_clients
     ++ [KillClient 10; ChangeProperty 1 204 33 32 []; RaiseWindow 1011; Sync])%list
  /\ In (DEBUG, "Cleared viewport: killed window(s) and skipped window(s)",
         [1; 1]) (logs DisplayScenario.t s')
  /\ objects DisplayScenario.t s' = objects DisplayScenario.t demo_three_clients
  /\ _placard DisplayScenario.t s' = Some 1%nat.
Proof.
  destruct (clear_viewport_closes_old_clients DisplayScenario.t
              demo_DEFAULT_CLEAR_TYPES demo_three_clients 150
              (Some [Some ClientType.Placard]) 204
              demo_three_clients_registry_valid
              demo_three_clients_singletons_valid eq_refl)
    as (_ & Hrequests & Hlog & Hobjects & Hplacard & _).
  cbv zeta. split; [exact Hrequests|]. split; [exact Hlog|].
  split; [exact Hobjects|exact Hplacard].
Defined.

(** Asking for the current layout a first time changes nothing. *)
Lemma set_layout_same_layout_witness :
  set_layout DisplayScenario.t DisplayScenario.Production demo_scenario_key
    demo_in_experience_viewport DisplayLayout.Full None demo_three_clients =
    (Ok tt, demo_three_clients).
Proof.
  exact (proj1 (set_layout_same_layout DisplayScenario.t
                  DisplayScenario.Production demo_scenario_key
                  demo_in_experience_viewport demo_three_clients
                  DisplayLayout.Full None) eq_refl).
Defined.


Lemma demo_two_placards_registry_valid :
  registry_valid DisplayScenario.t demo_two_placards.
Proof. repeat constructor; eexists; reflexivity. Qed.

Lemma demo_two_placards_singletons_valid :
  singletons_valid DisplayScenario.t demo_two_placards.
Proof.
  split; intros r Hr; vm_compute in Hr; [|discriminate].
  injection Hr as <-. eexists. reflexivity.
Qed.

(** Two placards were managed, the second one took the singleton.  The
    unmap of the first one clears the singleton, and the second one stays
    registered with no placard tracked. *)
Lemma unmap_clears_singleton_by_type_witness :
  _placard DisplayScenario.t demo_two_placards = Some 1%nat
  /\ dict_get (_clients DisplayScenario.t demo_two_placards) 10 = Some 0%nat
  /\ (let s' :=
        (_handle_unmap_notify DisplayScenario.t 10 demo_two_placards).2 in
      _placard DisplayScenario.t s' = None
      /\ dict_get (_clients DisplayScenario.t s') 11 = Some 1%nat).
Proof.
  split; [reflexivity|]. split; [reflexivity|].
  assert (Hwin : 10 ∉ _client_parents DisplayScenario.t demo_two_placards)
    by (apply (bool_decide_eq_false_1 (10 ∈ _client_parents DisplayScenario.t demo_two_placards)); vm_compute; reflexivity).
  assert (Hparent : 1010 ∈ _client_parents DisplayScenario.t demo_two_placards)
    by (apply (bool_decide_eq_true_1 (1010 ∈ _client_parents DisplayScenario.t demo_two_placards)); vm_compute; reflexivity).
  destruct (unmap_clears_singleton_by_type DisplayScenario.t
              demo_two_placards 10 0%nat
              (Client.mk 10 1010 (WindowGeometry.mk 0 0 715 1758)
                 (WindowGeometry.mk 0 0 800 600) (Some "FOOTRON_PLACARD")
                 (Some ClientType.Placard) false 100 0)
              204 Hwin eq_refl eq_refl ltac:(simpl; lia) Hparent
              demo_two_placards_registry_valid
              demo_two_placards_singletons_valid eq_refl)
    as (_ & _ & Hplacard & _ & Hothers).
  cbv zeta. split; [exact (Hplacard eq_refl)|].
  apply Hothers; [lia|reflexivity].
Defined.

(** The unmap of the first of three clients: its wrapper is destroyed and
    the client list is published empty while two clients stay registered. *)
Lemma unmap_notify_of_registered_client_witness :
  let s' := (_handle_unmap_notify DisplayScenario.t 10 demo_three_clients).2 in
  requests DisplayScenario.t s' =
    (requests DisplayScenario.t demo_three_clients
     ++ [DestroyWindow 1010; ChangeProperty 1 204 33 32 []; Sync])%list
  /\ _clients DisplayScenario.t s' = [(11, 1%nat); (12, 2%nat)]
  /\ _placard DisplayScenario.t s' = None.
Proof.
  assert (Hwin : 10 ∉ _client_parents DisplayScenario.t demo_three_clients)
    by (apply (bool_decide_eq_false_1 (10 ∈ _client_parents DisplayScenario.t demo_three_clients)); vm_compute; reflexivity).
  assert (Hparent : 1010 ∈ _client_parents DisplayScenario.t demo_three_clients)
    by (apply (bool_decide_eq_true_1 (1010 ∈ _client_parents DisplayScenario.t demo_three_clients)); vm_compute; reflexivity).
  destruct (unmap_notify_of_registered_client DisplayScenario.t
              demo_three_clients 10 0%nat
              (Client.mk 10 1010 (WindowGeometry.mk 0 0 715 1758)
                 (WindowGeometry.mk 0 0 800 600) (Some "FOOTRON_PLACARD")
                 (Some ClientType.Placard) false 100 0)
              204 Hwin eq_refl eq_refl Hparent
              demo_three_clients_registry_valid
              demo_three_clients_singletons_valid eq_refl)
    as [ls Hrun].
  cbv zeta. rewrite Hrun. repeat split.
Defined.

(** A server on which window 12 carries size hints with the position and
    the maximum size flags. *)
Definition demo_world_with_hints : World :=
  mk_World
    (fun _ => 0)
    (fun _ => Ok (Some (Attributes.mk false)))
    (fun _ _ => None)
    (fun _ _ => FPMissing)
    (fun window =>
       if bool_decide (window = 12)
       then Some (Hints.mk (Z.lor PPosition PMaxSize) 10 20 300 400)
       else None)
    (fun _ => Ok (WindowGeometry.mk 0 0 800 600))
    0 400.

(** Debug logging is off and the size hints of window 12 change, with both
    flags: the desired geometry of its client stays 800 by 600 at the
    origin. *)
Lemma normal_hints_update_needs_debug_logging_witness :
  let s' :=
    (_handle_property_notify DisplayScenario.t demo_scenario_key
       demo_LOADER_WINDOW_NAME demo_in_experience_viewport
       demo_world_with_hints 12 305 PropertyNewValue demo_three_clients).2 in
  _debug_logging DisplayScenario.t demo_three_clients = false
  /\ get_wm_normal_hints demo_world_with_hints 12 =
       Some (Hints.mk 36 10 20 300 400)
  /\ objects DisplayScenario.t s' = objects DisplayScenario.t demo_three_clients
  /\ Client.desired_geometry <$> (objects DisplayScenario.t s' !! 2%nat) =
       Some (WindowGeometry.mk 0 0 800 600).
Proof.
  assert (Hwin : 12 ∉ _client_parents DisplayScenario.t demo_three_clients)
    by (apply (bool_decide_eq_false_1 (12 ∈ _client_parents DisplayScenario.t demo_three_clients)); vm_compute; reflexivity).
  destruct (normal_hints_update_needs_debug_logging DisplayScenario.t
              demo_scenario_key demo_LOADER_WINDOW_NAME
              demo_in_experience_viewport demo_world_with_hints
              demo_three_clients 12 305 PropertyNewValue 2%nat
              (Client.mk 12 1012 (WindowGeometry.mk 978 0 3125 2160)
                 (WindowGeometry.mk 0 0 800 600) (Some "Experience")
                 None false 300 0)
              (Hints.mk 36 10 20 300 400) 203 303
              Hwin eq_refl eq_refl ltac:(discriminate) eq_refl eq_refl eq_refl
              ltac:(discriminate) ltac:(discriminate) eq_refl
              demo_three_clients_singletons_valid)
    as [Hoff _].
  cbv zeta. rewrite (Hoff eq_refl). repeat split.
Defined.


Local Abbreviation handle_message message :=
  (_handle_message DisplayScenario.t DisplayScenario.Production
     demo_scenario_key demo_DEFAULT_CLEAR_TYPES demo_in_experience_viewport
     demo_ClientType_of_value demo_DisplayLayout_of_value
     demo_fromtimestamp_ms message).

Local Abbreviation loop_body w ev :=
  (_loop_body DisplayScenario.t DisplayScenario.Production demo_scenario_key
     demo_LOADER_WINDOW_NAME demo_DEFAULT_CLEAR_TYPES
     demo_in_experience_viewport 0 demo_ClientType_of_value
     demo_DisplayLayout_of_value demo_fromtimestamp_ms demo_id_eq_window w ev).

(** The command [{"type": "clear_viewport", "before": 0, "include": 5}]. *)
Definition demo_bad_include : json :=
  JObject [("type", JStr "clear_viewport"); ("before", JInt 0);
           ("include", JInt 5)].

(** The command [{"type": "clear_viewport", "before": 0}]. *)
Definition demo_clear_all : json :=
  JObject [("type", JStr "clear_viewport"); ("before", JInt 0)].

(** A [clear_viewport] command whose [include] is the number 5 raises
    [TypeError], and so does the loop when it drains a queue that holds
    it. *)
Lemma handle_message_raises_on_unvalidated_fields_witness :
  (handle_message demo_bad_include demo_three_clients).1 = Raise TypeError
  /\ (loop_body (demo_world 0 400) (EnterNotify 12)
        (set_message_queue DisplayScenario.t [demo_bad_include]
           demo_three_clients)).1 = Raise TypeError.
Proof.
  split; [|reflexivity]. unfold demo_bad_include.
  rewrite (proj2 (handle_message_raises_on_unvalidated_fields
                    DisplayScenario.t DisplayScenario.Production
                    demo_scenario_key demo_DEFAULT_CLEAR_TYPES
                    demo_in_experience_viewport demo_ClientType_of_value
                    demo_DisplayLayout_of_value demo_fromtimestamp_ms
                    demo_three_clients
                    [("type", JStr "clear_viewport"); ("before", JInt 0);
                     ("include", JInt 5)])
             (JInt 0) 0 0 (JInt 5) eq_refl eq_refl eq_refl eq_refl eq_refl
             eq_refl).
  reflexivity.
Defined.

(** An event of a kind with no handler leaves a queued command on the
    queue. *)
Lemma loop_body_skips_queue_on_unhandled_event :
  message_queue DisplayScenario.t
    (loop_body (demo_world 0 400) (OtherEvent 19)
       (set_message_queue DisplayScenario.t [demo_clear_all]
          demo_three_clients)).2 =
    [demo_clear_all].
Proof. reflexivity. Qed.

(** The same command is handled, and the queue left empty, by the
    iteration of an event that has a handler. *)
Lemma loop_body_drains_after_handled_event_witness :
  message_queue DisplayScenario.t
    (loop_body (demo_world 0 400) (EnterNotify 12)
       (set_message_queue DisplayScenario.t [demo_clear_all]
          demo_three_clients)).2 = [].
Proof.
  apply (proj1 (loop_body_drains_after_handled_event DisplayScenario.t
                  DisplayScenario.Production demo_scenario_key
                  demo_LOADER_WINDOW_NAME demo_DEFAULT_CLEAR_TYPES
                  demo_in_experience_viewport 0 demo_ClientType_of_value
                  demo_DisplayLayout_of_value demo_fromtimestamp_ms
                  demo_id_eq_window (demo_world 0 400) (EnterNotify 12) _)).
  - reflexivity.
  - vm_compute. reflexivity.
Defined.

(** The states above are those that managing the windows produces. *)
Lemma demo_states_reached :
  (manage (demo_world 1011 200) 11
     (manage (demo_world 1010 100) 10 (demo_wm false)).2) =
    (Ok tt, demo_two_placards)
  /\ manage (demo_world 1012 300) 12 demo_two_placards =
       (Ok tt, demo_three_clients).
Proof. split; vm_compute; reflexivity. Qed.


(** ** More of the code on these states *)

(** With three clients and the layout [Full], asking for [Fit4k] stores the
    layout and raises [KeyError], for the atoms of the window manager do not
    hold the work area; no request is sent. *)
Lemma set_layout_other_layout_raises_witness :
  let r :=
    set_layout DisplayScenario.t DisplayScenario.Production demo_scenario_key
      demo_in_experience_viewport DisplayLayout.Fit4k None demo_three_clients in
  r.1 = Raise KeyError
  /\ _layout DisplayScenario.t r.2 = DisplayLayout.Fit4k
  /\ requests DisplayScenario.t r.2 = requests DisplayScenario.t demo_three_clients.
Proof.
  destruct (set_layout_other_layout_raises DisplayScenario.t
              DisplayScenario.Production demo_scenario_key
              demo_in_experience_viewport demo_three_clients
              DisplayLayout.Fit4k None ltac:(vm_compute; discriminate))
    as (e & Hrun & He).
  cbv zeta. rewrite Hrun. cbn [fst snd]. repeat split.
  vm_compute in Hrun. congruence.
Defined.

(** The commands [{"type": "layout", "layout": "fit4k"}] and
    [{"type": "layout", "layout": "wide"}]: the first stores the layout and
    raises, the second raises [ValueError]. *)
Lemma layout_command_witness :
  (exists e,
     handle_message
       (JObject [("type", JStr "layout"); ("layout", JStr "fit4k")])
       demo_three_clients =
       (Raise e,
        set_layout_field DisplayScenario.t DisplayLayout.Fit4k
          (emit DisplayScenario.t []
             [(DEBUG, "Processing message of type", [])] demo_three_clients))
     /\ (e = KeyError \/ e = TypeError))
  /\ handle_message
       (JObject [("type", JStr "layout"); ("layout", JStr "wide")])
       demo_three_clients =
       (Raise ValueError,
        emit DisplayScenario.t [] [(DEBUG, "Processing message of type", [])]
          demo_three_clients).
Proof.
  split.
  - exact (layout_command DisplayScenario.t DisplayScenario.Production
             demo_scenario_key demo_DEFAULT_CLEAR_TYPES
             demo_in_experience_viewport demo_ClientType_of_value
             demo_DisplayLayout_of_value demo_fromtimestamp_ms
             demo_three_clients
             [("type", JStr "layout"); ("layout", JStr "fit4k")] "fit4k"
             eq_refl eq_refl I).
  - exact (layout_command DisplayScenario.t DisplayScenario.Production
             demo_scenario_key demo_DEFAULT_CLEAR_TYPES
             demo_in_experience_viewport demo_ClientType_of_value
             demo_DisplayLayout_of_value demo_fromtimestamp_ms
             demo_three_clients
             [("type", JStr "layout"); ("layout", JStr "wide")] "wide"
             eq_refl eq_refl I).
Defined.


(** Window 1010 is the wrapper of the first client and no client is
    registered under window 77: an unmap of the one and a configure request
    of the other send nothing and leave the registry as it is. *)
Lemma events_of_untracked_windows_witness :
  (let s' := (_handle_unmap_notify DisplayScenario.t 1010 demo_three_clients).2 in
   requests DisplayScenario.t s' = requests DisplayScenario.t demo_three_clients
   /\ _clients DisplayScenario.t s' = _clients DisplayScenario.t demo_three_clients)
  /\ (let s' :=
        (_handle_configure_request DisplayScenario.t demo_scenario_key
           demo_in_experience_viewport 77 0 0 640 480 demo_three_clients).2 in
      requests DisplayScenario.t s' = requests DisplayScenario.t demo_three_clients
      /\ objects DisplayScenario.t s' = objects DisplayScenario.t demo_three_clients).
Proof.
  assert (Hparent : 1010 ∈ _client_parents DisplayScenario.t demo_three_clients)
    by (apply (bool_decide_eq_true_1 (1010 ∈ _client_parents DisplayScenario.t demo_three_clients)); vm_compute; reflexivity).
  split.
  - destruct (proj1 (events_of_untracked_windows DisplayScenario.t
                       demo_scenario_key demo_LOADER_WINDOW_NAME
                       demo_in_experience_viewport (demo_world 0 400)
                       demo_three_clients 1010 (or_introl Hparent)))
      as [ls Hrun].
    cbv zeta. rewrite Hrun. split; reflexivity.
  - destruct (proj1 (proj2 (events_of_untracked_windows DisplayScenario.t
                       demo_scenario_key demo_LOADER_WINDOW_NAME
                       demo_in_experience_viewport (demo_world 0 400)
                       demo_three_clients 77 (or_intror eq_refl)))
                0 0 640 480)
      as [ls Hrun].
    cbv zeta. rewrite Hrun. split; reflexivity.
Defined.

Local Abbreviation handle_map_request w window :=
  (_handle_map_request DisplayScenario.t demo_scenario_key
     demo_LOADER_WINDOW_NAME demo_in_experience_viewport 0 demo_id_eq_window
     w window).



(** Scaling the generic client of window 12 to an empty geometry sends the
    size 1 by 1.  Scaling it to a height of 70000 sends nothing, and the
    exception is logged. *)
Lemma scale_client_sends_positive_sizes_witness :
  requests DisplayScenario.t
    (scale_client DisplayScenario.t demo_in_experience_viewport 2%nat
       (WindowGeometry.mk 40 30 0 (-5)) demo_three_clients).2 =
    (requests DisplayScenario.t demo_three_clients
     ++ [Configure 1012 0 0 1 1; Configure 12 0 0 1 1; RaiseWindow 1011; Sync])%list
  /\ (let r :=
        scale_client DisplayScenario.t demo_in_experience_viewport 2%nat
          (WindowGeometry.mk 40 30 800 70000) demo_three_clients in
      r.1 = Ok tt
      /\ requests DisplayScenario.t r.2 =
           requests DisplayScenario.t demo_three_clients).
Proof.
  split.
  - destruct (scale_client_sends_positive_sizes DisplayScenario.t
                demo_in_experience_viewport demo_three_clients 2%nat
                (Client.mk 12 1012 (WindowGeometry.mk 978 0 3125 2160)
                   (WindowGeometry.mk 0 0 800 600) (Some "Experience")
                   None false 300 0)
                (WindowGeometry.mk 40 30 0 (-5)) eq_refl
                demo_three_clients_singletons_valid)
      as (_ & _ & ls & Hrun).
    rewrite Hrun. reflexivity.
  - destruct (scale_client_sends_positive_sizes DisplayScenario.t
                demo_in_experience_viewport demo_three_clients 2%nat
                (Client.mk 12 1012 (WindowGeometry.mk 978 0 3125 2160)
                   (WindowGeometry.mk 0 0 800 600) (Some "Experience")
                   None false 300 0)
                (WindowGeometry.mk 40 30 800 70000) eq_refl
                demo_three_clients_singletons_valid)
      as (_ & _ & ls & Hrun).
    cbv zeta. rewrite Hrun. split; reflexivity.
Defined.

(** Window 12 asks for 0 by 50 at (5, 6).  That becomes the desired
    geometry of its client; the client is generic and does not float, so it
    is scaled to the rectangle of the production scenario. *)
Lemma configure_request_of_registered_client_witness :
  let s' :=
    (_handle_configure_request DisplayScenario.t demo_scenario_key
       demo_in_experience_viewport 12 5 6 0 50 demo_three_clients).2 in
  requests DisplayScenario.t s' =
    (requests DisplayScenario.t demo_three_clients
     ++ [Configure 1012 0 0 3125 2160; Configure 12 0 0 3125 2160;
         RaiseWindow 1011; Sync])%list
  /\ objects DisplayScenario.t s' !! 2%nat =
       Some (Client.mk 12 1012 (WindowGeometry.mk 978 0 3125 2160)
               (WindowGeometry.mk 5 6 0 50) (Some "Experience") None false
               300 0).
Proof.
  assert (Hwin : 12 ∉ _client_parents DisplayScenario.t demo_three_clients)
    by (apply (bool_decide_eq_false_1 (12 ∈ _client_parents DisplayScenario.t demo_three_clients)); vm_compute; reflexivity).
  pose proof (configure_request_of_registered_client DisplayScenario.t
                demo_scenario_key demo_in_experience_viewport
                demo_three_clients 12 5 6 0 50 2%nat
                (Client.mk 12 1012 (WindowGeometry.mk 978 0 3125 2160)
                   (WindowGeometry.mk 0 0 800 600) (Some "Experience")
                   None false 300 0)
                ltac:(simpl; lia) Hwin eq_refl eq_refl
                demo_three_clients_singletons_valid)
    as Hrun.
  hnf in Hrun. destruct Hrun as [ls Hrun].
  cbv zeta. rewrite Hrun. split; reflexivity.
Defined.


Local Abbreviation loop events :=
  (_loop DisplayScenario.t DisplayScenario.Production demo_scenario_key
     demo_LOADER_WINDOW_NAME demo_DEFAULT_CLEAR_TYPES
     demo_in_experience_viewport 0 demo_ClientType_of_value
     demo_DisplayLayout_of_value demo_fromtimestamp_ms demo_id_eq_window
     events).

(** A server on which window 13 carries the title of the loading window. *)
Definition demo_world_with_loader : World :=
  mk_World
    (fun _ => 0)
    (fun _ => Ok (Some (Attributes.mk false)))
    (fun _ _ => None)
    (fun window atom =>
       if bool_decide (atom = 203) then FPValue "FOOTRON_LOADING"
       else FPMissing)
    (fun _ => None)
    (fun _ => Ok (WindowGeometry.mk 0 0 800 600))
    1013 500.

(** The loading window asks to be mapped: the policy raises [KeyError],
    which ends the loop, and no client has become the loader. *)
Lemma loader_singleton_never_set_witness :
  let r := loop [([], demo_world_with_loader, MapRequest 13)] demo_three_clients in
  r.1 = Raise KeyError
  /\ _loader DisplayScenario.t r.2 = None
  /\ _clients DisplayScenario.t r.2 = _clients DisplayScenario.t demo_three_clients.
Proof.
  cbv zeta. split; [vm_compute; reflexivity|].
  split; [|vm_compute; reflexivity].
  apply (loader_singleton_never_set DisplayScenario.t
           DisplayScenario.Production demo_scenario_key
           demo_LOADER_WINDOW_NAME demo_DEFAULT_CLEAR_TYPES
           demo_in_experience_viewport 0 demo_ClientType_of_value
           demo_DisplayLayout_of_value demo_fromtimestamp_ms
           demo_id_eq_window).
  reflexivity.
Defined.


Lemma demo_net_atoms_supported :
  Forall (fun a => is_Some (dict_get demo_net_atoms a)) SUPPORTED_NET_ATOMS.
Proof. repeat constructor; eexists; reflexivity. Qed.

Lemma demo_wm_atoms_supported :
  Forall (fun a => is_Some (dict_get demo_wm_atoms a)) SUPPORTED_WM_ATOMS.
Proof. repeat constructor; eexists; reflexivity. Qed.

(** Window 12 is managed after the two placards: its client is generic,
    does not float, lives in the wrapper 1012 inside the viewport and gets
    the rectangle of the production scenario. *)
Lemma manage_new_window_registers_witness :
  let s' := (manage (demo_world 1012 300) 12 demo_two_placards).2 in
  _clients DisplayScenario.t s' = [(10, 0%nat); (11, 1%nat); (12, 2%nat)]
  /\ objects DisplayScenario.t s' !! 2%nat =
       Some (Client.mk 12 1012 (WindowGeometry.mk 978 0 3125 2160)
               (WindowGeometry.mk 0 0 800 600) (Some "Experience") None false
               300 0)
  /\ requests DisplayScenario.t s' =
       (requests DisplayScenario.t demo_two_placards
        ++ [ ChangeAttributes 12 (event_mask 6422544);
             ChangeProperty 12 304 304 32 [1];
             ChangeProperty 12 101 101 32 [0; 1];
             ChangeAttributes 12 (override_redirect true);
             CreateWindow 1012 1 0 0 1 1 32;
             Reparent 12 1012 0 0;
             MapWindow 1012;
             Sync;
             Reparent 1012 2 978 0;
             Sync;
             Configure 1012 0 0 3125 2160;
             Configure 12 0 0 3125 2160;
             RaiseWindow 1011;
             Sync;
             MapWindow 12;
             RaiseWindow 1011;
             Sync;
             ChangeProperty 1 204 33 32 [] ])%list.
Proof.
  destruct (manage_new_window_registers DisplayScenario.t demo_scenario_key
              demo_LOADER_WINDOW_NAME demo_in_experience_viewport 0
              (demo_world 1012 300) demo_two_placards 12
              (WindowGeometry.mk 0 0 800 600)
              (WindowGeometry.mk 978 0 3125 2160)
              ltac:(simpl; lia)
              eq_refl demo_net_atoms_supported demo_wm_atoms_supported
              ltac:(discriminate) eq_refl demo_two_placards_singletons_valid
              demo_two_placards_registry_valid eq_refl (fun _ => eq_refl))
    as [ls Hrun].
  cbv zeta. rewrite Hrun. repeat split.
Defined.

(** A server on which the geometry of no window can be read. *)
Definition demo_world_without_geometry : World :=
  mk_World
    (fun _ => 0)
    (fun _ => Ok (Some (Attributes.mk false)))
    (fun _ _ => None)
    (fun _ _ => FPMissing)
    (fun _ => None)
    (fun _ => Raise BadDrawable)
    1014 500.

(** Window 14 went away before its geometry was read: nothing is sent and
    nothing is registered. *)
Lemma manage_new_window_unreadable_geometry_witness :
  let r := manage demo_world_without_geometry 14 demo_three_clients in
  r.1 = Ok tt
  /\ requests DisplayScenario.t r.2 = requests DisplayScenario.t demo_three_clients
  /\ _clients DisplayScenario.t r.2 = _clients DisplayScenario.t demo_three_clients
  /\ objects DisplayScenario.t r.2 = objects DisplayScenario.t demo_three_clients.
Proof.
  destruct (manage_new_window_unreadable_geometry DisplayScenario.t
              demo_scenario_key demo_LOADER_WINDOW_NAME
              demo_in_experience_viewport 0 demo_world_without_geometry
              demo_three_clients 14 BadDrawable eq_refl
              demo_net_atoms_supported ltac:(discriminate) eq_refl)
    as [ls Hrun].
  cbv zeta. rewrite Hrun. repeat split.
Defined.


(** With an empty list of types no window is closed, though the generic
    window 12 is of the default types; with no list it is closed. *)
Lemma clear_viewport_empty_include_witness :
  requests DisplayScenario.t
    (clear_viewport DisplayScenario.t demo_DEFAULT_CLEAR_TYPES 1000 (Some [])
       demo_three_clients).2 =
    (requests DisplayScenario.t demo_three_clients
     ++ [ChangeProperty 1 204 33 32 []; RaiseWindow 1011; Sync])%list
  /\ requests DisplayScenario.t
       (clear_viewport DisplayScenario.t demo_DEFAULT_CLEAR_TYPES 1000 None
          demo_three_clients).2 =
       (requests DisplayScenario.t demo_three_clients
        ++ [KillClient 12; ChangeProperty 1 204 33 32 []; RaiseWindow 1011;
            Sync])%list.
Proof.
  split; [|vm_compute; reflexivity].
  destruct (clear_viewport_empty_include DisplayScenario.t
              demo_DEFAULT_CLEAR_TYPES demo_three_clients 1000 204
              demo_three_clients_registry_valid
              demo_three_clients_singletons_valid eq_refl)
    as [ls Hrun].
  rewrite Hrun. reflexivity.
Defined.


(** The command [{"type": "clear_viewport", "before": true, "include":
    ["placard"]}]: the boolean is the time 1 ms, and the two placards, which
    are older, are closed. *)
Lemma clear_viewport_command_witness :
  requests DisplayScenario.t
    (handle_message
       (JObject [("type", JStr "clear_viewport"); ("before", JBool true);
                 ("include", JList [JStr "placard"])])
       demo_three_clients).2 =
    (requests DisplayScenario.t demo_three_clients
     ++ [KillClient 10; KillClient 11; ChangeProperty 1 204 33 32 [];
         RaiseWindow 1011; Sync])%list.
Proof.
  rewrite (proj2 (clear_viewport_command DisplayScenario.t
                    DisplayScenario.Production demo_scenario_key
                    demo_DEFAULT_CLEAR_TYPES demo_in_experience_viewport
                    demo_ClientType_of_value demo_DisplayLayout_of_value
                    demo_fromtimestamp_ms demo_three_clients
                    [("type", JStr "clear_viewport"); ("before", JBool true);
                     ("include", JList [JStr "placard"])]
                    (JBool true) 1 1000 eq_refl eq_refl eq_refl eq_refl)
             [JStr "placard"] eq_refl).
  vm_compute. reflexivity.
Defined.





(** The command [{"type": "reload"}] is of no handled type: it is dropped
    with an error record. *)
Lemma handle_message_drops_witness :
  handle_message (JObject [("type", JStr "reload")]) demo_three_clients =
    (Ok tt,
     emit DisplayScenario.t []
       [(DEBUG, "Processing message of type", []);
        (ERROR, "Unhandled message type", [])] demo_three_clients).
Proof.
  exact (proj1 (handle_message_drops DisplayScenario.t
                  DisplayScenario.Production demo_scenario_key
                  demo_DEFAULT_CLEAR_TYPES demo_in_experience_viewport
                  demo_ClientType_of_value demo_DisplayLayout_of_value
                  demo_fromtimestamp_ms demo_three_clients
                  [("type", JStr "reload")])
           (JStr "reload") eq_refl eq_refl eq_refl).
Defined.


(** A server on which every window is titled as a placard. *)
Definition demo_world_retitled : World :=
  mk_World
    (fun _ => 0)
    (fun _ => Ok (Some (Attributes.mk false)))
    (fun _ _ => None)
    (fun window atom =>
       if bool_decide (atom = 203) then FPValue "FOOTRON_PLACARD"
       else FPMissing)
    (fun _ => None)
    (fun _ => Ok (WindowGeometry.mk 0 0 800 600))
    0 400.

(** The generic window 12 takes the title of a placard: its client becomes
    a placard and the placard singleton, is scaled to the rectangle of the
    placards, with the former placard raised, and its wrapper is moved to
    the root window. *)
Lemma title_change_retypes_client_witness :
  let s' :=
    (_handle_property_notify DisplayScenario.t demo_scenario_key
       demo_LOADER_WINDOW_NAME demo_in_experience_viewport
       demo_world_retitled 12 203 PropertyNewValue demo_three_clients).2 in
  requests DisplayScenario.t s' =
    (requests DisplayScenario.t demo_three_clients
     ++ [Configure 1012 0 0 715 1758; Configure 12 0 0 715 1758;
         RaiseWindow 1011; Sync; Reparent 1012 1 0 0; Sync])%list
  /\ _placard DisplayScenario.t s' = Some 2%nat
  /\ objects DisplayScenario.t s' !! 2%nat =
       Some (Client.mk 12 1012 (WindowGeometry.mk 0 0 715 1758)
               (WindowGeometry.mk 0 0 800 600) (Some "FOOTRON_PLACARD")
               (Some ClientType.Placard) false 300 0).
Proof.
  assert (Hwin : 12 ∉ _client_parents DisplayScenario.t demo_three_clients)
    by (apply (bool_decide_eq_false_1 (12 ∈ _client_parents DisplayScenario.t demo_three_clients)); vm_compute; reflexivity).
  destruct (proj2 (title_change_retypes_client DisplayScenario.t
                     demo_scenario_key demo_LOADER_WINDOW_NAME
                     demo_in_experience_viewport demo_world_retitled
                     demo_three_clients 12 203 PropertyNewValue 2%nat
                     (Client.mk 12 1012 (WindowGeometry.mk 978 0 3125 2160)
                        (WindowGeometry.mk 0 0 800 600) (Some "Experience")
                        None false 300 0)
                     203 303 (WindowGeometry.mk 0 0 715 1758)
                     ltac:(simpl; lia) Hwin eq_refl eq_refl
                     ltac:(discriminate) eq_refl eq_refl (or_introl eq_refl)
                     demo_three_clients_singletons_valid)
              ltac:(discriminate) eq_refl (fun _ => eq_refl))
    as [ls Hrun].
  cbv zeta. rewrite Hrun. repeat split.
Defined.
